(** * Resonance Z probe: the step search and the per-height test

    A shallow embedding of [resonance_z_probe.py].  Python floats are
    modelled by exact rationals ([Q]); equalities between computed numbers
    are therefore stated with [==] ([Qeq]).  Where a property speaks of
    every sequence of halvings of the step, which a double does not
    survive, the halving is read in binary64 ([Binary64],
    [OffsetHelper64]).  Python's [None] is the [None] of an [option]; an
    exception is an [exn] carried by [Raise] together with the state the
    object had when it was raised. *)

From Stdlib Require Import ZArith QArith Qabs List String Bool Lia Lqa.
From Stdlib Require Import Qround.
From Stdlib Require PrimFloat FloatOps SpecFloat.
From Equations Require Import Equations.
Import ListNotations.

Local Open Scope Q_scope.

(** ** Python runtime: exceptions and method outcomes *)

Module Py.

Inductive exn : Type :=
| TypeError
| ZeroDivisionError
| AttributeError
| ConfigError.

Definition exn_eqb (a b : exn) : bool :=
  match a, b with
  | TypeError, TypeError
  | ZeroDivisionError, ZeroDivisionError
  | AttributeError, AttributeError
  | ConfigError, ConfigError => true
  | _, _ => false
  end.

(** The result of running a method on a mutable object of type [S]:
    either a returned value or a raised exception, in both cases with the
    object as the call left it. *)
Inductive outcome (S A : Type) : Type :=
| Ok (a : A) (s : S)
| Raise (e : exn) (s : S).

Arguments Ok {S A} a s.
Arguments Raise {S A} e s.

Definition state_of {S A} (o : outcome S A) : S :=
  match o with
  | Ok _ s => s
  | Raise _ s => s
  end.

Definition M (S A : Type) : Type := S -> outcome S A.

Definition ret {S A} (a : A) : M S A := fun s => Ok a s.

Definition bind {S A B} (c : M S A) (k : A -> M S B) : M S B :=
  fun s =>
    match c s with
    | Ok a s' => k a s'
    | Raise e s' => Raise e s'
    end.

Definition raise {S A} (e : exn) : M S A := fun s => Raise e s.

Definition modify {S} (f : S -> S) : M S unit := fun s => Ok tt (f s).

(** [try: c except e: h] *)
Definition try_except {S A} (c : M S A) (e : exn) (h : M S A) : M S A :=
  fun s =>
    match c s with
    | Ok a s' => Ok a s'
    | Raise e' s' => if exn_eqb e e' then h s' else Raise e' s'
    end.

(** Reading an attribute that may not have been assigned yet. *)
Definition getattr {S A} (a : option A) : M S A :=
  match a with
  | Some v => ret v
  | None => raise AttributeError
  end.

(** Running a method of a sub-object stored inside a larger one. *)
Definition zoom {S T A} (proj : S -> T) (inj : T -> S -> S) (c : M T A) : M S A :=
  fun s =>
    match c (proj s) with
    | Ok a t' => Ok a (inj t' s)
    | Raise e t' => Raise e (inj t' s)
    end.

(** [body] run [n] times in a row. *)
Fixpoint times {S} (n : nat) (body : M S unit) : M S unit :=
  match n with
  | O => ret tt
  | Datatypes.S n' => bind body (fun _ => times n' body)
  end.

(** [counter = c; while counter <= n: body; counter += 1] *)
Equations? while_le {S} (body : M S unit) (n : Z) (counter : Z) : M S unit
  by wf (Z.to_nat (n + 1 - counter)) lt :=
  while_le body n counter with Z_le_dec counter n := {
    | left _ => bind body (fun _ => while_le body n (counter + 1)%Z)
    | right _ => ret tt }.
Proof. lia. Qed.

(** [a / b] on Python integers. *)
Definition truediv {S} (a b : Z) : M S Q :=
  if (b =? 0)%Z then raise ZeroDivisionError else ret (inject_Z a / inject_Z b).

End Py.

Import Py.

Declare Scope py_scope.
Delimit Scope py_scope with py.
Notation "x <- c ;; k" := (bind c (fun x => k))
  (at level 61, c at next level, right associativity) : py_scope.
Notation "c ;;; k" := (bind c (fun _ => k))
  (at level 61, right associativity) : py_scope.

(** ** class OffsetHelper *)

Module OffsetHelper.

Record t : Type := mk {
  last_tested_pos : Q * bool;
  step : Q;
  min_precision : option Q;
  current_offset : option Q;
  finished : bool;
  started : bool
}.

Definition set_last_tested_pos (v : Q * bool) (self : t) : t :=
  mk v (step self) (min_precision self) (current_offset self)
     (finished self) (started self).

Definition set_step (v : Q) (self : t) : t :=
  mk (last_tested_pos self) v (min_precision self) (current_offset self)
     (finished self) (started self).

Definition set_current_offset (v : option Q) (self : t) : t :=
  mk (last_tested_pos self) (step self) (min_precision self) v
     (finished self) (started self).

Definition set_finished (v : bool) (self : t) : t :=
  mk (last_tested_pos self) (step self) (min_precision self)
     (current_offset self) v (started self).

Definition set_started (v : bool) (self : t) : t :=
  mk (last_tested_pos self) (step self) (min_precision self)
     (current_offset self) (finished self) v.

(** The constructor's declared default for [min_precision]. *)
Definition default_min_precision : Q := 0.005.

(** [OffsetHelper(pos, step, min_precision)]: the third argument is passed
    as it is, [None] included. *)
Definition __init__ (pos step : Q) (min_precision : option Q) : t :=
  mk (pos, false) step min_precision None false false.

(** [OffsetHelper(pos, step)]: the default is used only when the argument
    is left out. *)
Definition __init__default (pos step : Q) : t :=
  __init__ pos step (Some default_min_precision).

(** [self.step <= self.min_precision]: comparing a float with [None]
    raises [TypeError]. *)
Definition le_precision (self : t) : outcome t bool :=
  match min_precision self with
  | Some p => Ok (Qle_bool (step self) p) self
  | None => Raise TypeError self
  end.

Definition next_position : M t (option Q) := fun self =>
  if finished self then Ok (current_offset self) self
  else if negb (started self) then Ok (Some (fst (last_tested_pos self))) self
  else
    let '(pos, status) := last_tested_pos self in
    if status then
      let self := set_current_offset (Some pos) self in
      match le_precision self with
      | Ok b self =>
          let self := if b then set_finished true self else self in
          Ok (Some (pos + step self)) self
      | Raise e self => Raise e self
      end
    else Ok (Some (pos - step self)) self.

Definition last_tested_position (position : Q) (triggered : bool) (self : t) : t :=
  let self := set_last_tested_pos (position, triggered) self in
  let self := set_started true self in
  if triggered then set_step (step self / 2.0) self else self.

(** The two calls the probing loop makes on the helper. *)
Inductive call : Type :=
| NextPosition
| LastTestedPosition (position : Q) (triggered : bool).

Definition exec (c : call) : M t (option Q) :=
  match c with
  | NextPosition => next_position
  | LastTestedPosition p b => fun self => Ok None (last_tested_position p b self)
  end.

(** The helper after a sequence of calls; a raised exception leaves the
    object as it was at the raise and the caller goes on with it. *)
Fixpoint run (cs : list call) (self : t) : t :=
  match cs with
  | [] => self
  | c :: cs' => run cs' (state_of (exec c self))
  end.

(** The helper after a sequence of reported outcomes. *)
Definition report_all (outcomes : list (Q * bool)) (self : t) : t :=
  fold_left (fun s o => last_tested_position (fst o) (snd o) s) outcomes self.

(** [Searching]: an outcome has been reported and the helper is not
    finished. *)
Definition searching (self : t) : Prop :=
  started self = true /\ finished self = false.

End OffsetHelper.

(** ** The host: toolhead, console, accelerometer

    These objects belong to the printer firmware host, not to the
    repository; they are modelled at the interface the program uses: every
    call is appended to one chronological log, and the accelerometer is a
    feed that says which samples the n-th recording client returns. *)

Module Printer.

Definition sample : Type := (Q * Q * Q * Q)%type.

Inductive arg : Type :=
| AFloat (q : Q)
| AInt (z : Z)
| AStr (s : string).

(** [fmt % args], kept unformatted. *)
Record message : Type := Msg { fmt : string; args : list arg }.

Inductive event : Type :=
| EvManualMove (coord : list Q) (speed : Q)
| EvWaitMoves
| EvDwell (seconds : Q)
| EvM204 (accel : Q)
| EvMove (newpos : list Q) (speed : Q)
| EvStartClient (client : nat)
| EvFinishMeasurements (client : nat)
| EvRespondInfo (m : message).

Record t : Type := mk {
  position : Q * Q * Q * Q;
  log : list event;
  accel_feed : nat -> list sample;
  clients : nat;
  now : Q
}.

Definition emit (e : event) (p : t) : t :=
  mk (position p) (log p ++ [e]) (accel_feed p) (clients p) (now p).

Definition set_position (v : Q * Q * Q * Q) (p : t) : t :=
  mk v (log p) (accel_feed p) (clients p) (now p).

(** [toolhead.get_position()] *)
Definition get_position : M t (Q * Q * Q * Q) := fun p => Ok (position p) p.

(** [toolhead.move(newpos, speed)] *)
Definition move (x y z e : Q) (speed : Q) : M t unit :=
  modify (fun p => set_position (x, y, z, e) (emit (EvMove [x; y; z; e] speed) p)).

(** [toolhead.manual_move(coord, speed)] with a three-coordinate target:
    the extruder coordinate stays. *)
Definition manual_move (coord : Q * Q * Q) (speed : Q) : M t unit :=
  modify (fun p =>
    let '(x, y, z) := coord in
    let '(_, _, _, e) := position p in
    set_position (x, y, z, e) (emit (EvManualMove [x; y; z] speed) p)).

Definition wait_moves : M t unit := modify (emit EvWaitMoves).

Definition dwell (seconds : Q) : M t unit := modify (emit (EvDwell seconds)).

(** [toolhead.cmd_M204(... {"S": accel})] *)
Definition cmd_M204 (accel : Q) : M t unit := modify (emit (EvM204 accel)).

(** [gcmd.respond_info(fmt % args)] *)
Definition respond_info (f : string) (a : list arg) : M t unit :=
  modify (emit (EvRespondInfo (Msg f a))).

(** [chip.start_internal_client()] *)
Definition start_internal_client : M t nat := fun p =>
  let c := clients p in
  Ok c (mk (position p) (log p ++ [EvStartClient c]) (accel_feed p)
           (Datatypes.S c) (now p)).

(** [aclient.finish_measurements()] *)
Definition finish_measurements (client : nat) : M t unit :=
  modify (emit (EvFinishMeasurements client)).

(** [aclient.get_samples()] *)
Definition get_samples (client : nat) : M t (list sample) :=
  fun p => Ok (accel_feed p client) p.

Definition is_move (e : event) : bool :=
  match e with EvMove _ _ => true | _ => false end.

(** Number of [toolhead.move] calls in a log. *)
Definition count_moves (l : list event) : nat := List.length (filter is_move l).

(** The console: every [respond_info] message of a log, in order. *)
Fixpoint console (l : list event) : list message :=
  match l with
  | [] => []
  | EvRespondInfo m :: l' => m :: console l'
  | _ :: l' => console l'
  end.

End Printer.

(** ** numpy on one-dimensional float arrays *)

Module np.

Fixpoint insert (v : Q) (l : list Q) : list Q :=
  match l with
  | [] => [v]
  | w :: l' => if Qle_bool v w then v :: l else w :: insert v l'
  end.

Definition sort (l : list Q) : list Q := fold_right insert [] l.

(** [np.median(a)]: the middle element of the sorted array, the mean of
    the two middle ones for an even length, and nan ([None]) for an empty
    array. *)
Definition median (a : list Q) : option Q :=
  let s := sort a in
  let n := List.length s in
  match n with
  | O => None
  | _ =>
      if Nat.even n
      then Some ((nth (n / 2 - 1) s 0 + nth (n / 2) s 0) / 2)
      else Some (nth (n / 2) s 0)
  end.

(** [a - np.median(a)]: on an empty array the nan is broadcast over no
    element. *)
Definition sub_median (a : list Q) : list Q :=
  match median a with
  | Some m => map (fun v => v - m) a
  | None => []
  end.

(** [sum(np.logical_or(z > threshold, z < (-1 * threshold)))] *)
Definition count_outside (threshold : Q) (z : list Q) : Z :=
  Z.of_nat (List.length
    (filter (fun v => negb (Qle_bool v threshold)
                      || negb (Qle_bool ((-1) * threshold) v)) z)).

End np.

Local Open Scope py_scope.

(** [for v in l: body(v)] *)
Fixpoint for_each {S A} (l : list A) (body : A -> M S unit) : M S unit :=
  match l with
  | [] => ret tt
  | v :: l' => body v ;;; for_each l' body
  end.

(** [a / b] on floats. *)
Definition fdiv {S} (a b : Q) : M S Q :=
  if Qeq_bool b 0 then raise ZeroDivisionError else ret (a / b).

(** ** class ZVibrationHelper *)

Module ZVibrationHelper.

(** The attributes below [_vib_dir] do not exist until
    [_set_vibration_variables] has assigned them. *)
Record t : Type := mk {
  frequency : Q;
  accel_per_hz : Q;
  _vib_dir : Q * Q * Q;
  max_v : option Q;
  cur_x : option Q;
  cur_y : option Q;
  cur_z : option Q;
  cur_e : option Q;
  movement_span : option Q;
  dX : option Q;
  dY : option Q;
  dZ : option Q
}.

Definition set_max_v (v : Q) (h : t) : t :=
  mk (frequency h) (accel_per_hz h) (_vib_dir h) (Some v)
     (cur_x h) (cur_y h) (cur_z h) (cur_e h) (movement_span h)
     (dX h) (dY h) (dZ h).

Definition set_cur (v : Q * Q * Q * Q) (h : t) : t :=
  let '(x, y, z, e) := v in
  mk (frequency h) (accel_per_hz h) (_vib_dir h) (max_v h)
     (Some x) (Some y) (Some z) (Some e) (movement_span h)
     (dX h) (dY h) (dZ h).

Definition set_cur_z (v : Q) (h : t) : t :=
  mk (frequency h) (accel_per_hz h) (_vib_dir h) (max_v h)
     (cur_x h) (cur_y h) (Some v) (cur_e h) (movement_span h)
     (dX h) (dY h) (dZ h).

Definition set_movement_span (v : Q) (h : t) : t :=
  mk (frequency h) (accel_per_hz h) (_vib_dir h) (max_v h)
     (cur_x h) (cur_y h) (cur_z h) (cur_e h) (Some v)
     (dX h) (dY h) (dZ h).

Definition set_d (v : Q * Q * Q) (h : t) : t :=
  let '(x, y, z) := v in
  mk (frequency h) (accel_per_hz h) (_vib_dir h) (max_v h)
     (cur_x h) (cur_y h) (cur_z h) (cur_e h) (movement_span h)
     (Some x) (Some y) (Some z).

(** The helper's methods run on the helper and on the printer it holds.
    The input shaper switch ([disable_input_shaper],
    [restore_input_shaper]) acts on a host object only and is left out. *)
Definition state : Type := (Printer.t * t)%type.

Definition self : M state t := fun s => Ok (snd s) s.

Definition assign (f : t -> t) : M state unit :=
  modify (fun s => (fst s, f (snd s))).

Definition toolhead {A} (c : M Printer.t A) : M state A :=
  zoom fst (fun p s => (p, snd s)) c.

(** [vib_dir = (0.0, 0.0, 1.0)] divided by its norm [sqrt(0 + 0 + 1) = 1]. *)
Definition __init__ (frequency accel_per_hz : Q) : t :=
  mk frequency accel_per_hz (0.0 / 1, 0.0 / 1, 1.0 / 1)
     None None None None None None None None None.

Definition get_point (h : t) (l : Q) : Q * Q * Q :=
  let '(vx, vy, vz) := _vib_dir h in (vx * l, vy * l, vz * l).

Definition _set_vibration_variables : M state unit :=
  h <- self ;;
  t_seg <- fdiv 0.25 (frequency h) ;;
  let accel := accel_per_hz h * frequency h in
  assign (set_max_v (accel * t_seg)) ;;;
  pos <- toolhead Printer.get_position ;;
  assign (set_cur pos) ;;;
  toolhead (Printer.cmd_M204 accel) ;;;
  let span := 0.5 * accel * (t_seg * t_seg) in
  assign (set_movement_span span) ;;;
  h <- self ;;
  assign (set_d (get_point h span)).

Definition _vibrate_ : M state unit :=
  for_each [1; -1] (fun sign =>
    h <- self ;;
    cx <- getattr (cur_x h) ;;
    dx <- getattr (dX h) ;;
    let nX := cx + sign * dx in
    cy <- getattr (cur_y h) ;;
    dy <- getattr (dY h) ;;
    let nY := cy + sign * dy in
    cz <- getattr (cur_z h) ;;
    dz <- getattr (dZ h) ;;
    let nZ := cz + sign * dz in
    ce <- getattr (cur_e h) ;;
    v <- getattr (max_v h) ;;
    toolhead (Printer.move nX nY nZ ce v) ;;;
    toolhead (Printer.move cx cy cz ce v)).

Definition vibrate_n (n : Z) : M state unit :=
  _set_vibration_variables ;;;
  while_le _vibrate_ n 0%Z.

(** Every attribute [_vibrate_] reads has been assigned. *)
Definition ready (h : t) : bool :=
  match max_v h, cur_x h, cur_y h, cur_z h, cur_e h, dX h, dY h, dZ h with
  | Some _, Some _, Some _, Some _, Some _, Some _, Some _, Some _ => true
  | _, _, _, _, _, _, _, _ => false
  end.

End ZVibrationHelper.

(** ** The host's configuration section *)

Module Config.

Inductive value : Type :=
| VFloat (q : Q)
| VInt (z : Z)
| VStr (s : string)
| VFloatList (l : list Q).

(** The options written in the printer's configuration file for this
    module. *)
Definition t : Type := list (string * value).

Fixpoint lookup (name : string) (cfg : t) : option value :=
  match cfg with
  | [] => None
  | (k, v) :: cfg' => if String.eqb k name then Some v else lookup name cfg'
  end.

Record bounds : Type := Bounds {
  minval : option Q;
  maxval : option Q;
  above : option Q
}.

Definition unbounded : bounds := Bounds None None None.

Definition within (b : bounds) (v : Q) : bool :=
  match minval b with Some m => Qle_bool m v | None => true end
  && match maxval b with Some m => Qle_bool v m | None => true end
  && match above b with Some m => negb (Qle_bool v m) | None => true end.

(** Modelled from the spec: the host's [config.getfloat(name, default,
    minval, maxval, above)] is not in the repository.  An option that is
    absent yields the default as it is (also when the default is [None]);
    an option that is present is checked against the bounds of the
    configuration surface and rejected when it violates them. *)
Definition getfloat_or {S D} (inj : Q -> D) (cfg : t) (name : string)
    (default : D) (b : bounds) : M S D :=
  match lookup name cfg with
  | None => ret default
  | Some (VFloat v) => if within b v then ret (inj v) else raise ConfigError
  | Some (VInt z) =>
      if within b (inject_Z z) then ret (inj (inject_Z z)) else raise ConfigError
  | Some _ => raise ConfigError
  end.

(** [config.getfloat(name, default, ...)] with a float default. *)
Definition getfloat {S} : t -> string -> Q -> bounds -> M S Q :=
  getfloat_or (fun v => v).

(** [config.getfloat(name, None, ...)] *)
Definition getfloat_none {S} (cfg : t) (name : string) (b : bounds)
  : M S (option Q) :=
  getfloat_or (@Some Q) cfg name None b.

(** Modelled from the spec: [config.getint(name, default, minval, maxval)]. *)
Definition getint {S} (cfg : t) (name : string) (default : Z)
    (lo hi : Z) : M S Z :=
  match lookup name cfg with
  | None => ret default
  | Some (VInt z) =>
      if ((lo <=? z) && (z <=? hi))%Z then ret z else raise ConfigError
  | Some _ => raise ConfigError
  end.

(** Modelled from the spec: [config.get(name)], a required option. *)
Definition get {S} (cfg : t) (name : string) : M S string :=
  match lookup name cfg with
  | Some (VStr s) => ret s
  | _ => raise ConfigError
  end.

(** Modelled from the spec: [config.getfloatlist(name, sep=",", count=3)],
    a required option of exactly three floats. *)
Definition getfloatlist3 {S} (cfg : t) (name : string) : M S (Q * Q * Q) :=
  match lookup name cfg with
  | Some (VFloatList [x; y; z]) => ret (x, y, z)
  | _ => raise ConfigError
  end.

End Config.

(** ** class TapResonanceData and the TestPoint tuple *)

Record TestPoint : Type := mkTestPoint {
  time : list Q;
  accel_x : list Q;
  accel_y : list Q;
  accel_z : list Q;
  current_z : Q
}.

Module TapResonanceData.

Record t : Type := mk {
  data : list TestPoint;
  ts : Q;
  out_path : string
}.

Definition __init__ (test_points : list TestPoint) (out_path : string)
  : M Printer.t t :=
  fun p => Ok (mk test_points (Printer.now p) out_path) p.

(** [_rate_above_threshold]: the division is not guarded here.  It
    raises for a record without time stamps.  (Were such a record to
    hold z values, which a record stored by [_test] never does, numpy
    would answer inf or nan with a warning instead; nothing below is
    stated for that case.) *)
Fixpoint _rate_above_threshold (threshold : Q) (d : list TestPoint)
  : M Printer.t (list Q * list Q) :=
  match d with
  | [] => ret ([], [])
  | tp :: d' =>
      rate <- truediv (np.count_outside threshold (accel_z tp))
                      (Z.of_nat (List.length (time tp))) ;;
      rest <- _rate_above_threshold threshold d' ;;
      ret (current_z tp :: fst rest, rate :: snd rest)
  end.

(** [write_data]: the message, then the file (not modelled). *)
Definition write_data (self : t) : M Printer.t unit :=
  Printer.respond_info "writing data to %s"
    [Printer.AStr (out_path self); Printer.AStr "tap_summary_%s.csv";
     Printer.AFloat (ts self)].

(** [plot]: the rates, the message, then the rendering (not modelled). *)
Definition plot (self : t) (threshold : Q) (cycles : Z) : M Printer.t unit :=
  _ <- _rate_above_threshold threshold (data self) ;;
  Printer.respond_info "writing debug plots to %s"
    [Printer.AStr (out_path self); Printer.AStr "tap_summary_%s.pdf";
     Printer.AFloat (ts self)].

End TapResonanceData.

(** ** class ResonanceZProbe *)

Module ResonanceZProbe.

Record t : Type := mk {
  accel_per_hz : Q;
  step_size : Q;
  tolerance : option Q;
  z_freq : Q;
  amp_threshold : Q;
  rate_above_threshold : Q;
  safe_min_z : Q;
  probe_points : Q * Q * Q;
  cycle_per_test : Z;
  accel_chip_name : string;
  vibration_helper : ZVibrationHelper.t;
  debug : bool;
  data_points : list TestPoint;
  (* assigned by [connect] *)
  accel_chips : option (string * string);
  (* assigned by [babystep_probe] *)
  offset_helper : option OffsetHelper.t
}.

Definition set_vibration_helper (v : ZVibrationHelper.t) (p : t) : t :=
  mk (accel_per_hz p) (step_size p) (tolerance p) (z_freq p) (amp_threshold p)
     (rate_above_threshold p) (safe_min_z p) (probe_points p)
     (cycle_per_test p) (accel_chip_name p) v (debug p) (data_points p)
     (accel_chips p) (offset_helper p).

Definition set_data_points (v : list TestPoint) (p : t) : t :=
  mk (accel_per_hz p) (step_size p) (tolerance p) (z_freq p) (amp_threshold p)
     (rate_above_threshold p) (safe_min_z p) (probe_points p)
     (cycle_per_test p) (accel_chip_name p) (vibration_helper p) (debug p) v
     (accel_chips p) (offset_helper p).

Definition set_accel_chips (v : option (string * string)) (p : t) : t :=
  mk (accel_per_hz p) (step_size p) (tolerance p) (z_freq p) (amp_threshold p)
     (rate_above_threshold p) (safe_min_z p) (probe_points p)
     (cycle_per_test p) (accel_chip_name p) (vibration_helper p) (debug p)
     (data_points p) v (offset_helper p).

Definition set_offset_helper (v : option OffsetHelper.t) (p : t) : t :=
  mk (accel_per_hz p) (step_size p) (tolerance p) (z_freq p) (amp_threshold p)
     (rate_above_threshold p) (safe_min_z p) (probe_points p)
     (cycle_per_test p) (accel_chip_name p) (vibration_helper p) (debug p)
     (data_points p) (accel_chips p) v.

(** The probe's methods run on the probe and on the printer it holds;
    the vibration helper holds the same printer. *)
Definition state : Type := (Printer.t * t)%type.

Definition self : M state t := fun s => Ok (snd s) s.

Definition assign (f : t -> t) : M state unit :=
  modify (fun s => (fst s, f (snd s))).

Definition printer {A} (c : M Printer.t A) : M state A :=
  zoom fst (fun p s => (p, snd s)) c.

Definition helper {A} (c : M ZVibrationHelper.state A) : M state A :=
  zoom (fun s => (fst s, vibration_helper (snd s)))
       (fun ph s => (fst ph, set_vibration_helper (snd ph) (snd s))) c.

(** A method of [self.offset_helper]. *)
Definition offsets {A} (c : M OffsetHelper.t A) : M state A :=
  fun s =>
    match offset_helper (snd s) with
    | None => Raise AttributeError s
    | Some oh =>
        match c oh with
        | Ok a oh' => Ok a (fst s, set_offset_helper (Some oh') (snd s))
        | Raise e oh' => Raise e (fst s, set_offset_helper (Some oh') (snd s))
        end
    end.

(** [__init__]: the options are read in the order of the source; the
    registration of the command and of the connect handler and the input
    shaper switch are the host's and are left out. *)
Definition __init__ (config : Config.t) : M Printer.t t :=
  accel_per_hz <- Config.getfloat config "accel_per_hz" 1.5
                    (Config.Bounds None None (Some 0.0)) ;;
  step_size <- Config.getfloat config "step_size" 0.01
                 (Config.Bounds (Some 0.005) None None) ;;
  tolerance <- Config.getfloat_none config "samples_tolerance"
                 (Config.Bounds None None (Some 0.0)) ;;
  z_freq <- Config.getfloat config "z_vibration_freq" 80
              (Config.Bounds (Some 50.0) (Some 200.0) None) ;;
  amp_threshold <- Config.getfloat config "amplitude_threshold" 700.0
                     (Config.Bounds None None (Some 500.0)) ;;
  rate_above_threshold <- Config.getfloat config "rate_above_threshold" 0.015
                            (Config.Bounds (Some 0.0) (Some 1.0) None) ;;
  safe_min_z <- Config.getfloat config "safe_min_z" 1 Config.unbounded ;;
  probe_points <- Config.getfloatlist3 config "probe_points" ;;
  cycle_per_test <- Config.getint config "cycle_per_test" 50%Z 2%Z 500%Z ;;
  accel_chip_name <- Config.get config "accel_chip" ;;
  ret (mk accel_per_hz step_size tolerance z_freq amp_threshold
          rate_above_threshold safe_min_z probe_points cycle_per_test
          accel_chip_name (ZVibrationHelper.__init__ z_freq accel_per_hz)
          true [] None None).

Definition connect : M state unit :=
  p <- self ;;
  assign (set_accel_chips (Some ("z"%string, accel_chip_name p))).

Definition last (l : list Q) : Q := List.last l 0.

Definition _test (curr_z : Q) : M state Q :=
  p <- self ;;
  chip <- getattr (accel_chips p) ;;
  aclient <- printer Printer.start_internal_client ;;
  while_le (helper ZVibrationHelper._vibrate_) (cycle_per_test p) 0%Z ;;;
  printer (Printer.finish_measurements aclient) ;;;
  samples <- printer (Printer.get_samples aclient) ;;
  let timestamps := map (fun s => match s with (t, _, _, _) => t end) samples in
  let x_data := map (fun s => match s with (_, x, _, _) => x end) samples in
  let y_data := map (fun s => match s with (_, _, y, _) => y end) samples in
  let z_data := map (fun s => match s with (_, _, _, z) => z end) samples in
  let x := np.sub_median x_data in
  let y := np.sub_median y_data in
  let z := np.sub_median z_data in
  rate_above_tr <-
    try_except
      (truediv (np.count_outside (amp_threshold p) z)
               (Z.of_nat (List.length timestamps)))
      ZeroDivisionError
      (ret 0) ;;
  (if debug p then
     let test_time :=
       if (0 <? List.length timestamps)%nat
       then last timestamps - hd 0 timestamps
       else 0 in
     printer (Printer.respond_info
       "Testing Z: %.4f. Received %i samples in %.2f seconds. Percentage above threshold: %.1f%%"
       [Printer.AFloat curr_z; Printer.AInt (Z.of_nat (List.length timestamps));
        Printer.AFloat test_time; Printer.AFloat (100 * rate_above_tr)]) ;;;
     p <- self ;;
     assign (set_data_points
               (data_points p ++ [mkTestPoint timestamps x y z curr_z]))
   else ret tt) ;;;
  ret rate_above_tr.

(** [self.offset_helper.finished] *)
Definition is_finished : M state bool :=
  offsets (fun oh => Ok (OffsetHelper.finished oh) oh).

(** The body of the loop of [babystep_probe], from the test to the query
    for the next position; it yields that position and the local list
    [test_results]. *)
Definition probe_body (curr_z : Q) (test_results : list (Q * Q))
  : M state (option Q * list (Q * Q)) :=
  p <- self ;;
  results <- _test curr_z ;;
  offsets (fun oh => Ok tt
    (OffsetHelper.last_tested_position curr_z
       (Qle_bool (rate_above_threshold p) results) oh)) ;;;
  let test_results := test_results ++ [(snd (probe_points p), results)] in
  next <- offsets OffsetHelper.next_position ;;
  ret (next, test_results).

(** [self.vibration_helper.cur_z = z] *)
Definition set_cur_z (z : Q) : M state unit :=
  helper (ZVibrationHelper.assign (ZVibrationHelper.set_cur_z z)).

(** The [while curr_z >= self.safe_min_z] loop of [babystep_probe]; the
    number of iterations depends on what the accelerometer records, so the
    loop is run with fuel and [None] means the fuel ran out. *)
Fixpoint probe_loop (fuel : nat) (curr_z : Q) (test_results : list (Q * Q))
    (s : state) : option (outcome state unit) :=
  match fuel with
  | O => None
  | Datatypes.S fuel' =>
      if Qle_bool (safe_min_z (snd s)) curr_z then
        match is_finished s with
        | Raise e s => Some (Raise e s)
        | Ok true s => Some (Ok tt s)
        | Ok false s =>
            match probe_body curr_z test_results s with
            | Raise e s => Some (Raise e s)
            | Ok (Some z, test_results) s =>
                match set_cur_z z s with
                | Ok _ s => probe_loop fuel' z test_results s
                | Raise e s => Some (Raise e s)
                end
            | Ok (None, _) s =>
                (* [None >= self.safe_min_z] at the next loop test *)
                Some (Raise TypeError s)
            end
        end
      else Some (Ok tt s)
  end.

(** What [babystep_probe] does before the loop. *)
Definition probe_setup : M state Q :=
  p <- self ;;
  assign (set_offset_helper
    (Some (OffsetHelper.__init__ (snd (probe_points p)) (step_size p)
             (tolerance p)))) ;;;
  printer (Printer.manual_move (probe_points p) 50.0) ;;;
  printer Printer.wait_moves ;;;
  printer (Printer.dwell 0.500) ;;;
  helper ZVibrationHelper._set_vibration_variables ;;;
  ret (snd (probe_points p)).

(** After the loop: [if self.offset_helper.finished: respond_info(...)]. *)
Definition report_offset : M state unit :=
  p <- self ;;
  finished <- is_finished ;;
  if finished then
    offset <- offsets (fun oh => Ok (OffsetHelper.current_offset oh) oh) ;;
    match offset with
    | Some z =>
        printer (Printer.respond_info "probe at %.4f,%.4f  is z=%.6f"
          [Printer.AFloat (fst (fst (probe_points p)));
           Printer.AFloat (snd (fst (probe_points p)));
           Printer.AFloat z])
    | None => raise TypeError
    end
  else ret tt.

(** After the loop: [if self.debug: ...]. *)
Definition export_debug : M state unit :=
  p <- self ;;
  if debug p then
    tap_data <- printer (TapResonanceData.__init__ (data_points p) "/tmp") ;;
    printer (TapResonanceData.write_data tap_data) ;;;
    printer (TapResonanceData.plot tap_data (amp_threshold p) (cycle_per_test p))
  else ret tt.

(** What [babystep_probe] does after the loop. *)
Definition probe_report : M state unit :=
  report_offset ;;; export_debug.

Definition babystep_probe (fuel : nat) (s : state) : option (outcome state unit) :=
  match probe_setup s with
  | Raise e s => Some (Raise e s)
  | Ok curr_z s =>
      match probe_loop fuel curr_z [] s with
      | None => None
      | Some (Raise e s) => Some (Raise e s)
      | Some (Ok _ s) => Some (probe_report s)
      end
  end.

Definition cmd_CALIBRATE_Z_RESONANCE := babystep_probe.

End ResonanceZProbe.

(** ** Derived notions and concrete inputs *)

Module Scenario.

(** A float option holding the number [q]. *)
Definition holds (o : option Q) (q : Q) : Prop :=
  match o with
  | Some v => v == q
  | None => False
  end.

(** A helper in the [Searching] state: created at 1.01 with step 0.01 and
    precision 0.005, one negative outcome reported. *)
Definition searching_example : OffsetHelper.t :=
  OffsetHelper.last_tested_position 1.01 false
    (OffsetHelper.__init__ 1.01 0.01 (Some 0.005)).

(** The four moves of one [_vibrate_] call on a helper whose attributes
    are assigned. *)
Definition cycle_moves (h : ZVibrationHelper.t) : list Printer.event :=
  match ZVibrationHelper.cur_x h, ZVibrationHelper.cur_y h,
        ZVibrationHelper.cur_z h, ZVibrationHelper.cur_e h,
        ZVibrationHelper.dX h, ZVibrationHelper.dY h, ZVibrationHelper.dZ h,
        ZVibrationHelper.max_v h with
  | Some cx, Some cy, Some cz, Some ce, Some dx, Some dy, Some dz, Some v =>
      [Printer.EvMove [cx + 1 * dx; cy + 1 * dy; cz + 1 * dz; ce] v;
       Printer.EvMove [cx; cy; cz; ce] v;
       Printer.EvMove [cx + -1 * dx; cy + -1 * dy; cz + -1 * dz; ce] v;
       Printer.EvMove [cx; cy; cz; ce] v]
  | _, _, _, _, _, _, _, _ => []
  end.

(** The printer after one [_vibrate_] call of such a helper. *)
Definition after_cycle (h : ZVibrationHelper.t) (pr : Printer.t) : Printer.t :=
  match ZVibrationHelper.cur_x h, ZVibrationHelper.cur_y h,
        ZVibrationHelper.cur_z h, ZVibrationHelper.cur_e h with
  | Some cx, Some cy, Some cz, Some ce =>
      Printer.mk (cx, cy, cz, ce) (Printer.log pr ++ cycle_moves h)
        (Printer.accel_feed pr) (Printer.clients pr) (Printer.now pr)
  | _, _, _, _ => pr
  end.

Fixpoint after_cycles (k : nat) (h : ZVibrationHelper.t) (pr : Printer.t)
  : Printer.t :=
  match k with
  | O => pr
  | Datatypes.S k' => after_cycles k' h (after_cycle h pr)
  end.

(** The message formats of the program. *)
Definition fmt_result : string := "probe at %.4f,%.4f  is z=%.6f".
Definition fmt_testing : string :=
  "Testing Z: %.4f. Received %i samples in %.2f seconds. Percentage above threshold: %.1f%%".
Definition fmt_writing_data : string := "writing data to %s".
Definition fmt_writing_plots : string := "writing debug plots to %s".

(** A progress line: the per-test line or one of the two export lines. *)
Definition is_progress (m : Printer.message) : bool :=
  String.eqb (Printer.fmt m) fmt_testing
  || String.eqb (Printer.fmt m) fmt_writing_data
  || String.eqb (Printer.fmt m) fmt_writing_plots.

(** The line that announces a found offset. *)
Definition is_result (m : Printer.message) : bool :=
  String.eqb (Printer.fmt m) fmt_result.

(** A report of the safety limit, as the specification asks for it: a
    console line that is neither a progress line nor the result line. *)
Definition reports_safety_limit (console : list Printer.message) : bool :=
  existsb (fun m => negb (is_progress m || is_result m)) console.

(** An event that is not a console line, or is a progress line. *)
Definition quiet_or_progress (e : Printer.event) : Prop :=
  match e with
  | Printer.EvRespondInfo m => is_progress m = true
  | _ => True
  end.

(** A computation that, from any state, appends to the log (read through
    [lg]) only events satisfying [Q], and raises only exceptions
    satisfying [P]. *)
Definition behaves {S A} (lg : S -> list Printer.event)
    (Q : Printer.event -> Prop) (P : exn -> Prop) (c : M S A) : Prop :=
  forall s,
    (exists l, lg (state_of (c s)) = lg s ++ l /\ Forall Q l)
    /\ (forall e s', c s = Raise e s' -> P e).

(** Sets of exceptions. *)
Definition only_attribute (e : exn) : Prop := e = AttributeError.
Definition attribute_or_division (e : exn) : Prop :=
  e = AttributeError \/ e = ZeroDivisionError.
Definition any_exn (e : exn) : Prop := True.

(** A computation that leaves the offset helper of the probe as it is. *)
Definition keeps_offsets {A} (c : M ResonanceZProbe.state A) : Prop :=
  forall s,
    ResonanceZProbe.offset_helper (snd (state_of (c s)))
    = ResonanceZProbe.offset_helper (snd s).

Definition printer_log (pr : Printer.t) : list Printer.event := Printer.log pr.
Definition helper_log (s : ZVibrationHelper.state) : list Printer.event :=
  Printer.log (fst s).
Definition probe_log (s : ResonanceZProbe.state) : list Printer.event :=
  Printer.log (fst s).

(** A printer at rest whose accelerometer returns [feed]. *)
Definition printer_with (feed : nat -> list Printer.sample) : Printer.t :=
  Printer.mk (0, 0, 10, 0) [] feed 0%nat 0.

(** A configuration that sets three options and leaves the rest,
    [samples_tolerance] included, to their defaults. *)
Definition example_config : Config.t :=
  [("probe_points"%string, Config.VFloatList [100; 100; 1.01]);
   ("accel_chip"%string, Config.VStr "adxl345");
   ("cycle_per_test"%string, Config.VInt 2)].

(** The probe [__init__] builds from [example_config]. *)
Definition example_probe : ResonanceZProbe.t :=
  ResonanceZProbe.mk 1.5 0.01 None 80 700.0 0.015 1 (100, 100, 1.01) 2%Z
    "adxl345" (ZVibrationHelper.__init__ 80 1.5) true [] None None.

(** That probe, connected, on a printer with the given feed. *)
Definition connected (feed : nat -> list Printer.sample)
  : ResonanceZProbe.state :=
  state_of (ResonanceZProbe.connect (printer_with feed, example_probe)).

(** The same after the set-up of [babystep_probe]: the offset helper
    exists and the vibration variables are assigned. *)
Definition set_up (feed : nat -> list Printer.sample) : ResonanceZProbe.state :=
  state_of (ResonanceZProbe.probe_setup (connected feed)).

(** A feed whose third sample of each test lies outside the amplitude
    threshold: one sample in three, above the decision level. *)
Definition tapping_feed : nat -> list Printer.sample :=
  fun _ => [(0, 0, 0, 0); (0.1, 0, 0, 0); (0.2, 0, 0, 1000)].

(** A feed of one still sample per test, and a feed of none. *)
Definition still_feed : nat -> list Printer.sample := fun _ => [(0, 0, 0, 0)].
Definition empty_feed : nat -> list Printer.sample := fun _ => [].

(** How the run of the example probe ends when every test records one
    still sample (three rounds of the loop are enough). *)
Definition still_run_end : outcome ResonanceZProbe.state unit :=
  Eval vm_compute in
    match ResonanceZProbe.babystep_probe 3 (connected still_feed) with
    | Some o => o
    | None => Raise TypeError (connected still_feed)
    end.

End Scenario.

(** ** The step as the double it is

    Everywhere else the step is an exact rational, which [self.step /
    2.0] is as long as the quotient is a double.  Below [2^-1021] it is
    not: the quotient is rounded to the subnormal grid and ends at 0.0.
    The two modules below read the halving in binary64, for the claims
    that speak of every sequence of halvings. *)

Module Binary64.

(** [2^1074]: the doubles below [2^-1021] are the multiples of
    [1 / grid]. *)
Definition grid : Q := inject_Z (2 ^ 1074).

(** [2^-1021]: from here on, half of a double is a double. *)
Definition exact_from : Q := 1 # (2 ^ 1021).

(** [m / 2] rounded to the nearest integer, ties to even. *)
Definition half_even (m : Z) : Z :=
  if Z.even m then (m / 2)%Z
  else if Z.even (m / 2) then (m / 2)%Z
  else (m / 2 + 1)%Z.

(** [x / 2.0] for a non-negative double [x]: the quotient itself where it
    is a double, and below that the nearest multiple of [1 / grid], ties
    to even (round to nearest even, the mode Python's floats use). *)
Definition halve (x : Q) : Q :=
  if Qle_bool exact_from x then x / 2.0
  else inject_Z (half_even (Qfloor (x * grid))) / grid.

(** The double nearest to 0.01, [0x1.47ae147ae147bp-7]. *)
Definition nearest_0_01 : Q := 5764607523034235 # (2 ^ 59).

End Binary64.

(** The kernel's own binary64 numbers, against which [Binary64.halve] is
    checked. *)
Module Float64.

Import PrimFloat.

(** The value of a finite, non-negative double. *)
Definition to_Q (x : float) : option Q :=
  match FloatOps.Prim2SF x with
  | SpecFloat.S754_zero _ => Some 0
  | SpecFloat.S754_finite false m e =>
      Some (if (0 <=? e)%Z then inject_Z (Zpos m * 2 ^ e)
            else inject_Z (Zpos m) / inject_Z (2 ^ (- e)))
  | _ => None
  end.

(** [x / 2.0] *)
Definition halve (x : float) : float := (x / 2)%float.

(** The doubles 0.01, 0.005, 0.008 and 1/3: a correctly rounded
    quotient of two integers is the double nearest to the fraction, which
    is what the decimal literal denotes. *)
Definition step_0_01 : float := (1 / 100)%float.

Definition steps : list float :=
  [step_0_01; 5 / 1000; 8 / 1000; 1 / 3]%float.

Definition zero : float := 0%float.

(** [x] after [k] executions of [self.step = self.step / 2.0]. *)
Fixpoint halve_times (k : nat) (x : float) : float :=
  match k with
  | O => x
  | Datatypes.S k' => halve_times k' (halve x)
  end.

(** [Binary64.halve] gives the value of [x / 2.0] for [x] and for the
    next [k] halves of it. *)
Fixpoint agrees (k : nat) (x : float) : bool :=
  match to_Q x, to_Q (halve x) with
  | Some q, Some h =>
      Qeq_bool (Binary64.halve q) h
      && match k with
         | O => true
         | Datatypes.S k' => agrees k' (halve x)
         end
  | _, _ => false
  end.

End Float64.

(** The helper with the halving of the step carried out in binary64.
    Heights stay exact, and so does [next_position], which compares the
    step and never changes it. *)
Module OffsetHelper64.

Import OffsetHelper.

Definition last_tested_position (position : Q) (triggered : bool) (self : t) : t :=
  let self := set_last_tested_pos (position, triggered) self in
  let self := set_started true self in
  if triggered then set_step (Binary64.halve (step self)) self else self.

Definition exec (c : call) : M t (option Q) :=
  match c with
  | NextPosition => next_position
  | LastTestedPosition p b => fun self => Ok None (last_tested_position p b self)
  end.

Fixpoint run (cs : list call) (self : t) : t :=
  match cs with
  | [] => self
  | c :: cs' => run cs' (state_of (exec c self))
  end.

Definition report_all (outcomes : list (Q * bool)) (self : t) : t :=
  fold_left (fun s o => last_tested_position (fst o) (snd o) s) outcomes self.

End OffsetHelper64.

(** ** Further notions: protocols, counts, frames *)

Module Notions.

Import Scenario.

(** [q] after [k] executions of [self.step = self.step / 2.0]. *)
Fixpoint halve_times (k : nat) (q : Q) : Q :=
  match k with
  | O => q
  | Datatypes.S k' => halve_times k' (q / 2.0)
  end.

Definition is_positive_report (c : OffsetHelper.call) : bool :=
  match c with
  | OffsetHelper.LastTestedPosition _ true => true
  | _ => false
  end.

(** Number of positive outcomes reported in a sequence of calls. *)
Definition positives (cs : list OffsetHelper.call) : nat :=
  List.length (filter is_positive_report cs).

(** The calls the probing loop makes for a sequence of outcomes: each
    outcome is reported and then the next position is asked for. *)
Definition protocol (outcomes : list (Q * bool)) : list OffsetHelper.call :=
  flat_map (fun o => [OffsetHelper.LastTestedPosition (fst o) (snd o);
                      OffsetHelper.NextPosition]) outcomes.

(** Number of detections in a sequence of outcomes. *)
Definition detections (outcomes : list (Q * bool)) : nat :=
  List.length (filter (fun o => snd o) outcomes).


(** The fraction [_test] computes from the samples of one recording:
    the share of median-centred z values outside the amplitude
    threshold, and 0 when there is no sample. *)
Definition rate_above (threshold : Q) (samples : list Printer.sample) : Q :=
  let z := np.sub_median
             (map (fun s => match s with (_, _, _, z) => z end) samples) in
  if (Z.of_nat (List.length samples) =? 0)%Z then 0
  else inject_Z (np.count_outside threshold z)
       / inject_Z (Z.of_nat (List.length samples)).

(** The record [_test] appends to [data_points] for one recording. *)
Definition test_point (samples : list Printer.sample) (curr_z : Q) : TestPoint :=
  mkTestPoint
    (map (fun s => match s with (t, _, _, _) => t end) samples)
    (np.sub_median (map (fun s => match s with (_, x, _, _) => x end) samples))
    (np.sub_median (map (fun s => match s with (_, _, y, _) => y end) samples))
    (np.sub_median (map (fun s => match s with (_, _, _, z) => z end) samples))
    curr_z.


(** [self.frequency == 0], the case in which [0.25 / self.frequency]
    raises. *)
Definition frequency_is_zero (h : ZVibrationHelper.t) : bool :=
  Qeq_bool (ZVibrationHelper.frequency h) 0.


(** What [__init__] guarantees about the probe it returns: every number
    is within the bounds the constructor passes to the configuration. *)
Definition validated (p : ResonanceZProbe.t) : Prop :=
  0 < ResonanceZProbe.accel_per_hz p
  /\ 0.005 <= ResonanceZProbe.step_size p
  /\ (forall t, ResonanceZProbe.tolerance p = Some t -> 0 < t)
  /\ 50 <= ResonanceZProbe.z_freq p /\ ResonanceZProbe.z_freq p <= 200
  /\ 500 < ResonanceZProbe.amp_threshold p
  /\ 0 <= ResonanceZProbe.rate_above_threshold p
  /\ ResonanceZProbe.rate_above_threshold p <= 1
  /\ (2 <= ResonanceZProbe.cycle_per_test p <= 500)%Z.

(** A new probe: nothing recorded, not connected, no run started, and
    a vibration helper built from its own frequency and acceleration. *)
Definition fresh (p : ResonanceZProbe.t) : Prop :=
  ResonanceZProbe.debug p = true
  /\ ResonanceZProbe.data_points p = []
  /\ ResonanceZProbe.accel_chips p = None
  /\ ResonanceZProbe.offset_helper p = None
  /\ ResonanceZProbe.vibration_helper p
     = ZVibrationHelper.__init__ (ResonanceZProbe.z_freq p)
         (ResonanceZProbe.accel_per_hz p).


(** The rate the export computes again for one record. *)
Definition exported_rate (threshold : Q) (tp : TestPoint) : Q :=
  inject_Z (np.count_outside threshold (accel_z tp))
  / inject_Z (Z.of_nat (List.length (time tp))).

(** A record with at least one time stamp: [len(t)] is not 0. *)
Definition has_samples (tp : TestPoint) : Prop := time tp <> [].

(** A record of a test that received no sample: no time stamp and no z
    value, so that the export computes [0 / 0] on plain integers. *)
Definition no_samples (tp : TestPoint) : Prop :=
  time tp = [] /\ accel_z tp = [].


(** The decision the loop takes from the recording the next test will
    read: [results >= self.rate_above_threshold]. *)
Definition detected (s : ResonanceZProbe.state) : bool :=
  Qle_bool (ResonanceZProbe.rate_above_threshold (snd s))
    (rate_above (ResonanceZProbe.amp_threshold (snd s))
       (Printer.accel_feed (fst s) (Printer.clients (fst s)))).

(** A probe in the middle of a run: connected, vibration variables
    assigned, and [oh] as its offset helper. *)
Definition running (s : ResonanceZProbe.state) (oh : OffsetHelper.t) : Prop :=
  (exists chip, ResonanceZProbe.accel_chips (snd s) = Some chip)
  /\ ZVibrationHelper.ready (ResonanceZProbe.vibration_helper (snd s)) = true
  /\ ResonanceZProbe.offset_helper (snd s) = Some oh.

(** The probe after one test at [z]: the record is appended when [debug]
    is set. *)
Definition tested (z : Q) (s : ResonanceZProbe.state) : ResonanceZProbe.t :=
  if ResonanceZProbe.debug (snd s)
  then ResonanceZProbe.set_data_points
         (ResonanceZProbe.data_points (snd s)
          ++ [test_point (Printer.accel_feed (fst s) (Printer.clients (fst s))) z])
         (snd s)
  else snd s.

(** What a round of the loop leaves as it is. *)
Definition same_settings (p p' : ResonanceZProbe.t) : Prop :=
  ResonanceZProbe.safe_min_z p' = ResonanceZProbe.safe_min_z p
  /\ ResonanceZProbe.rate_above_threshold p' = ResonanceZProbe.rate_above_threshold p
  /\ ResonanceZProbe.amp_threshold p' = ResonanceZProbe.amp_threshold p
  /\ ResonanceZProbe.debug p' = ResonanceZProbe.debug p
  /\ ResonanceZProbe.accel_chips p' = ResonanceZProbe.accel_chips p
  /\ ResonanceZProbe.probe_points p' = ResonanceZProbe.probe_points p.


(** The helper holds no offset below [m], and holds one when it is
    finished. *)
Definition safe_offset (m : Q) (oh : OffsetHelper.t) : Prop :=
  (forall h, OffsetHelper.current_offset oh = Some h -> m <= h)
  /\ (OffsetHelper.finished oh = true ->
      exists h, OffsetHelper.current_offset oh = Some h).

(** A computation that leaves the probe object as it is. *)
Definition keeps_probe {A} (c : M ResonanceZProbe.state A) : Prop :=
  forall s, snd (state_of (c s)) = snd s.

(** The line that announces the offset [h] for the probe [p]. *)
Definition result_line (p : ResonanceZProbe.t) (h : Q) : Printer.message :=
  Printer.Msg fmt_result
    [Printer.AFloat (fst (fst (ResonanceZProbe.probe_points p)));
     Printer.AFloat (snd (fst (ResonanceZProbe.probe_points p)));
     Printer.AFloat h].


(** The decision of the loop for one recording:
    [results >= self.rate_above_threshold]. *)
Definition decision (p : ResonanceZProbe.t) (samples : list Printer.sample)
  : bool :=
  Qle_bool (ResonanceZProbe.rate_above_threshold p)
    (rate_above (ResonanceZProbe.amp_threshold p) samples).

(** The helper a run starts with. *)
Definition first_helper (p : ResonanceZProbe.t) : OffsetHelper.t :=
  OffsetHelper.__init__ (snd (ResonanceZProbe.probe_points p))
    (ResonanceZProbe.step_size p) (ResonanceZProbe.tolerance p).

(** The heights of a sequence of outcomes are the ones the helper asked
    for: the first is [z], and each later one is the answer of the query
    that followed the report of the outcome before it; a query that
    raises or answers [None] is followed by no further outcome. *)
Fixpoint asked_for (z : Q) (oh : OffsetHelper.t) (outcomes : list (Q * bool))
  : Prop :=
  match outcomes with
  | [] => True
  | o :: rest =>
      fst o = z
      /\ match OffsetHelper.next_position
                 (OffsetHelper.last_tested_position (fst o) (snd o) oh)
         with
         | Ok (Some z') oh' => asked_for z' oh' rest
         | _ => rest = []
         end
  end.

(** The records of the tests of a sequence of outcomes, the first of
    which reads the recording of client [c]. *)
Fixpoint records (feed : nat -> list Printer.sample) (c : nat)
    (outcomes : list (Q * bool)) : list TestPoint :=
  match outcomes with
  | [] => []
  | o :: rest => test_point (feed c) (fst o) :: records feed (Datatypes.S c) rest
  end.

(** The example probe with a tolerance of 0.005. *)
Definition tolerant_probe : ResonanceZProbe.t :=
  ResonanceZProbe.mk 1.5 0.01 (Some 0.005) 80 700.0 0.015 1 (100, 100, 1.01)
    2%Z "adxl345" (ZVibrationHelper.__init__ 80 1.5) true []
    (Some ("z"%string, "adxl345"%string)) None.

(** How its run ends when every test records a tap. *)
Definition tapping_run_end : outcome ResonanceZProbe.state unit :=
  Eval vm_compute in
    match ResonanceZProbe.babystep_probe 3
            (printer_with tapping_feed, tolerant_probe) with
    | Some o => o
    | None => Raise TypeError (printer_with tapping_feed, tolerant_probe)
    end.

End Notions.

(** * Properties *)

(** ** The step search *)

Module OffsetHelperFacts.

Import OffsetHelper Scenario.

Lemma last_tested_position_finished p b s :
  finished (last_tested_position p b s) = finished s.
Proof. unfold last_tested_position; destruct b; reflexivity. Qed.

Lemma last_tested_position_current_offset p b s :
  current_offset (last_tested_position p b s) = current_offset s.
Proof. unfold last_tested_position; destruct b; reflexivity. Qed.

Lemma last_tested_position_min_precision p b s :
  min_precision (last_tested_position p b s) = min_precision s.
Proof. unfold last_tested_position; destruct b; reflexivity. Qed.

Lemma last_tested_position_started p b s :
  started (last_tested_position p b s) = true.
Proof. unfold last_tested_position; destruct b; reflexivity. Qed.

Lemma last_tested_position_pos p b s :
  last_tested_pos (last_tested_position p b s) = (p, b).
Proof. unfold last_tested_position; destruct b; reflexivity. Qed.

Lemma last_tested_position_step p b s :
  step (last_tested_position p b s) = if b then step s / 2.0 else step s.
Proof. unfold last_tested_position; destruct b; reflexivity. Qed.

Lemma next_position_finished s :
  finished s = true -> next_position s = Ok (current_offset s) s.
Proof. intros H; unfold next_position; rewrite H; reflexivity. Qed.

Lemma next_position_step s :
  step (state_of (next_position s)) = step s.
Proof.
  unfold next_position, le_precision.
  destruct (finished s); [reflexivity|].
  destruct (started s); [|reflexivity]; cbn [negb].
  destruct (last_tested_pos s) as [pos [|]]; [|reflexivity].
  cbn. destruct (min_precision s) as [mp|]; [|reflexivity].
  destruct (Qle_bool (step s) mp); reflexivity.
Qed.

Lemma next_position_min_precision s :
  min_precision (state_of (next_position s)) = min_precision s.
Proof.
  unfold next_position, le_precision.
  destruct (finished s); [reflexivity|].
  destruct (started s); [|reflexivity]; cbn [negb].
  destruct (last_tested_pos s) as [pos [|]]; [|reflexivity].
  cbn. destruct (min_precision s) as [mp|] eqn:E; cbn; [|now rewrite E].
  destruct (Qle_bool (step s) mp); cbn; now rewrite E.
Qed.

(** What [next_position] does in the [Searching] state after a positive
    outcome, when the precision is a number. *)
Lemma next_position_positive s h mp :
  searching s -> last_tested_pos s = (h, true) -> min_precision s = Some mp ->
  next_position s =
    Ok (Some (h + step s))
       (if Qle_bool (step s) mp
        then set_finished true (set_current_offset (Some h) s)
        else set_current_offset (Some h) s).
Proof.
  intros [Hs Hf] Hl Hm. unfold next_position, le_precision.
  rewrite Hf, Hs, Hl. cbn. rewrite Hm.
  destruct (Qle_bool (step s) mp); reflexivity.
Qed.

Lemma next_position_negative s h :
  searching s -> last_tested_pos s = (h, false) ->
  next_position s = Ok (Some (h - step s)) s.
Proof.
  intros [Hs Hf] Hl. unfold next_position. rewrite Hf, Hs, Hl. reflexivity.
Qed.

(** An unfinished helper never answers [None]. *)
Lemma next_position_not_None s s' :
  finished s = false -> next_position s <> Ok None s'.
Proof.
  intros Hf. unfold next_position, le_precision. rewrite Hf.
  destruct (started s); cbn [negb]; [|discriminate].
  destruct (last_tested_pos s) as [pos [|]]; [|discriminate].
  cbn. destruct (min_precision s); discriminate.
Qed.

(** The only call that sets [finished] is a [next_position] that finds a
    positive last outcome and a step within the precision. *)
Lemma finished_set_only_by_next_position c s :
  finished s = false -> finished (state_of (exec c s)) = true ->
  c = NextPosition /\ started s = true /\ snd (last_tested_pos s) = true /\
  exists mp, min_precision s = Some mp /\ step s <= mp.
Proof.
  intros Hf. destruct c as [|p b]; cbn [exec state_of].
  - unfold next_position, le_precision. rewrite Hf.
    destruct (started s); cbn [negb state_of]; [|congruence].
    destruct (last_tested_pos s) as [pos [|]]; cbn; [|congruence].
    destruct (min_precision s) as [mp|]; cbn; [|congruence].
    destruct (Qle_bool (step s) mp) eqn:Hle; cbn; [|congruence].
    intros _. repeat split. exists mp. split; [reflexivity|].
    now apply Qle_bool_imp_le.
  - rewrite last_tested_position_finished. congruence.
Qed.

Lemma run_finished cs : forall s,
  finished s = true ->
  finished (run cs s) = true /\ current_offset (run cs s) = current_offset s.
Proof.
  induction cs as [|c cs IH]; intros s Hf; cbn [run]; [now split|].
  destruct c as [|p b]; cbn [exec].
  - rewrite (next_position_finished s Hf). cbn [state_of]. now apply IH.
  - cbn [state_of].
    destruct (IH (last_tested_position p b s)) as [H1 H2].
    + now rewrite last_tested_position_finished.
    + split; [exact H1|].
      now rewrite H2, last_tested_position_current_offset.
Qed.

Lemma half_lt (q : Q) : 0 < q -> 0 < q / 2.0 /\ q / 2.0 < q.
Proof.
  intros H. assert (E : q / 2.0 == q * (1 # 2)).
  { unfold Qdiv. apply Qmult_comp; reflexivity. }
  rewrite E. split; lra.
Qed.

Lemma report_all_step outcomes : forall s,
  0 < step s ->
  0 < step (report_all outcomes s) /\ step (report_all outcomes s) <= step s.
Proof.
  unfold report_all.
  induction outcomes as [|[h d] l IH]; intros s Hpos; cbn [fold_left fst snd].
  - split; [exact Hpos | apply Qle_refl].
  - destruct (IH (last_tested_position h d s)) as [H1 H2].
    + rewrite last_tested_position_step. destruct d; [|exact Hpos].
      now apply half_lt.
    + split; [exact H1|].
      eapply Qle_trans; [exact H2|].
      rewrite last_tested_position_step. destruct d; [|apply Qle_refl].
      apply Qlt_le_weak. now apply half_lt.
Qed.

Lemma run_step cs : forall s,
  0 < step s -> 0 < step (run cs s) /\ step (run cs s) <= step s.
Proof.
  induction cs as [|c cs IH]; intros s Hpos; cbn [run].
  - split; [exact Hpos | apply Qle_refl].
  - destruct c as [|h d]; cbn [exec state_of].
    + destruct (IH (state_of (next_position s))) as [H1 H2];
        rewrite next_position_step in *; auto.
    + destruct (IH (last_tested_position h d s)) as [H1 H2].
      * rewrite last_tested_position_step. destruct d; [|exact Hpos].
        now apply half_lt.
      * split; [exact H1|].
        eapply Qle_trans; [exact H2|].
        rewrite last_tested_position_step. destruct d; [|apply Qle_refl].
        apply Qlt_le_weak. now apply half_lt.
Qed.

(** C1, as the code has it: when an outcome with detected = false is
    reported for a height [h] to a helper that is not finished, the next
    position is [h - step] and the step is left as it was; the step is
    halved by a positive outcome, and by no other call. *)
Theorem negative_outcome_steps_back_keeps_step s h :
  searching s ->
  next_position (last_tested_position h false s)
    = Ok (Some (h - step s)) (last_tested_position h false s)
  /\ step (last_tested_position h false s) = step s
  /\ step (last_tested_position h true s) = step s / 2.0
  /\ forall c s', step (state_of (exec c s')) =
        match c with
        | LastTestedPosition _ true => step s' / 2.0
        | _ => step s'
        end.
Proof.
  intros [Hs Hf]. repeat split.
  - rewrite (next_position_negative (last_tested_position h false s) h).
    + now rewrite last_tested_position_step.
    + split; [apply last_tested_position_started|].
      now rewrite last_tested_position_finished.
    + apply last_tested_position_pos.
  - intros [|p [|]] s'; cbn [exec state_of];
      [apply next_position_step | reflexivity | reflexivity].
Qed.

Lemma negative_outcome_steps_back_keeps_step_witness :
  searching searching_example /\
  next_position (last_tested_position 1.0 false searching_example)
    = Ok (Some (1.0 - step searching_example))
         (last_tested_position 1.0 false searching_example).
Proof.
  assert (H : searching searching_example) by (split; reflexivity).
  split; [exact H|].
  exact (proj1 (negative_outcome_steps_back_keeps_step searching_example 1.0 H)).
Defined.

(** C1, as stated, fails: in the [Searching] state a negative outcome at
    1.0 leaves the step at 0.01 instead of halving it, and a positive
    outcome at 1.0 does halve it. *)
Lemma negative_outcome_does_not_halve :
  searching searching_example /\
  ~ step (last_tested_position 1.0 false searching_example)
      == step searching_example / 2 /\
  step (last_tested_position 1.0 true searching_example)
      == step searching_example / 2.
Proof.
  split; [split; reflexivity|]. split.
  - intros H. vm_compute in H. discriminate H.
  - reflexivity.
Qed.

(** C2, as the code has it: when an outcome with detected = true is
    reported for a height [h] to an unfinished helper that holds the step
    [step s] and a numeric precision, the report halves the step, and the
    query that follows records [h] as the offset candidate and answers
    [h + step s / 2.0]; that query sets [finished] exactly when the
    halved step is within the precision, and the query after it answers
    [h].  [finished] goes from false to true in a query only, and in the
    query after a report only when that report was positive and half of
    the step held at the report is within the precision. *)
Theorem positive_outcome_records_and_converges s h mp :
  finished s = false -> min_precision s = Some mp ->
  step (last_tested_position h true s) = step s / 2.0
  /\ (exists s2,
        next_position (last_tested_position h true s)
        = Ok (Some (h + step s / 2.0)) s2
        /\ current_offset s2 = Some h
        /\ (step s / 2.0 <= mp ->
            finished s2 = true /\ next_position s2 = Ok (Some h) s2)
        /\ (~ step s / 2.0 <= mp ->
            finished s2 = false
            /\ s2 = set_current_offset (Some h) (last_tested_position h true s)))
  /\ (forall c s0,
        finished s0 = false -> finished (state_of (exec c s0)) = true ->
        c = NextPosition /\ snd (last_tested_pos s0) = true /\
        exists p, min_precision s0 = Some p /\ step s0 <= p)
  /\ (forall s0 h0 d,
        finished s0 = false ->
        finished (state_of (next_position (last_tested_position h0 d s0)))
        = true ->
        d = true /\ exists p, min_precision s0 = Some p /\ step s0 / 2.0 <= p).
Proof.
  intros Hf Hm.
  set (s1 := last_tested_position h true s).
  assert (Hs1 : searching s1).
  { split; [apply last_tested_position_started|].
    unfold s1. now rewrite last_tested_position_finished. }
  assert (Hm1 : min_precision s1 = Some mp).
  { unfold s1. now rewrite last_tested_position_min_precision. }
  assert (Hst : step s1 = step s / 2.0) by reflexivity.
  split; [exact Hst|]. split; [|split].
  - rewrite (next_position_positive s1 h mp Hs1
               (last_tested_position_pos h true s) Hm1).
    rewrite Hst. destruct (Qle_bool (step s / 2.0) mp) eqn:Hle.
    + eexists. split; [reflexivity|]. split; [reflexivity|]. split.
      * intros _. split; [reflexivity|]. now apply next_position_finished.
      * intros H. apply Qle_bool_iff in Hle. contradiction.
    + eexists. split; [reflexivity|]. split; [reflexivity|]. split.
      * intros H. apply Qle_bool_iff in H. congruence.
      * intros _. split; [|reflexivity]. destruct Hs1 as [_ H]. exact H.
  - intros c s0 H H0.
    destruct (finished_set_only_by_next_position c s0 H H0) as (? & _ & ? & ?).
    auto.
  - intros s0 h0 d H H0.
    assert (H1 : finished (last_tested_position h0 d s0) = false)
      by now rewrite last_tested_position_finished.
    destruct (finished_set_only_by_next_position NextPosition _ H1 H0)
      as (_ & _ & Hd & p & Hp & Hle).
    rewrite last_tested_position_pos in Hd. cbn [snd] in Hd. subst d.
    split; [reflexivity|]. exists p.
    rewrite last_tested_position_min_precision in Hp.
    rewrite last_tested_position_step in Hle. now split.
Qed.

Lemma positive_outcome_records_and_converges_witness :
  finished searching_example = false /\
  min_precision searching_example = Some 0.005 /\
  step (last_tested_position 0.99 true searching_example)
  = step searching_example / 2.0 /\
  exists s2,
    next_position (last_tested_position 0.99 true searching_example)
    = Ok (Some (0.99 + step searching_example / 2.0)) s2
    /\ current_offset s2 = Some 0.99
    /\ (step searching_example / 2.0 <= 0.005 ->
        finished s2 = true /\ next_position s2 = Ok (Some 0.99) s2)
    /\ (~ step searching_example / 2.0 <= 0.005 ->
        finished s2 = false
        /\ s2 = set_current_offset (Some 0.99)
                  (last_tested_position 0.99 true searching_example)).
Proof.
  assert (H1 : finished searching_example = false) by reflexivity.
  assert (H2 : min_precision searching_example = Some 0.005) by reflexivity.
  split; [exact H1 | split; [exact H2|]].
  destruct (positive_outcome_records_and_converges searching_example 0.99
              0.005 H1 H2) as (H3 & H4 & _).
  split; [exact H3 | exact H4].
Defined.

(** C2, as stated, fails when [currentStep] is the step held as the
    outcome is reported: with the step 0.008, above the precision 0.005,
    the claim has the helper stay unconverged after a detection at 1.0
    and ask for 1.008; the code halves the step first, converges with
    the offset 1.0 and asks for 1.004. *)
Lemma positive_outcome_converges_above_precision :
  let s := last_tested_position 1.01 false (__init__ 1.01 0.008 (Some 0.005)) in
  searching s /\ step s == 0.008 /\ ~ step s <= 0.005 /\
  exists z s',
    next_position (last_tested_position 1.0 true s) = Ok (Some z) s'
    /\ finished s' = true /\ current_offset s' = Some 1.0
    /\ z == 1.004 /\ ~ z == 1.0 + step s.
Proof.
  cbv zeta. split; [split; reflexivity|]. split; [reflexivity|]. split.
  - intros H. apply Qle_bool_iff in H. vm_compute in H. discriminate H.
  - eexists. eexists. split; [reflexivity|].
    split; [reflexivity|]. split; [reflexivity|]. split; [reflexivity|].
    intros H. vm_compute in H. discriminate H.
Qed.

(** C3, as the code has it: with step 0.01 and precision 0.005, a first
    outcome of false at height 1.0 leaves the step at 0.01 and the next
    height is 0.99; the outcome true at that height halves the step to
    0.005, and the next query sets [finished] with the offset 0.99 (its
    own answer being 0.995); from then on the query answers the offset. *)
Theorem scenario_false_then_true :
  let s0 := __init__ 1.0 0.01 (Some 0.005) in
  let s1 := last_tested_position 1.0 false s0 in
  step s1 == 0.01 /\
  exists z1, next_position s1 = Ok (Some z1) s1 /\ z1 == 0.99 /\
  let s2 := last_tested_position z1 true s1 in
  step s2 == 0.005 /\
  exists z2 s3, next_position s2 = Ok (Some z2) s3 /\ z2 == 0.995 /\
  finished s3 = true /\ holds (current_offset s3) 0.99 /\
  next_position s3 = Ok (current_offset s3) s3.
Proof.
  cbv zeta. split; [reflexivity|].
  eexists. split; [reflexivity|]. split; [reflexivity|].
  split; [reflexivity|].
  eexists. eexists. split; [reflexivity|].
  repeat split.
Qed.

(** C3, as stated, fails: after the first outcome, false at height 1.0,
    the step is not 0.005. *)
Lemma scenario_first_false_step_not_halved :
  ~ step (last_tested_position 1.0 false (__init__ 1.0 0.01 (Some 0.005)))
      == 0.005.
Proof. intros H. vm_compute in H. discriminate H. Qed.

Lemma grid_pos : 0 < Binary64.grid.
Proof.
  unfold Binary64.grid. rewrite <- (Zlt_Qlt 0). now apply Z.pow_pos_nonneg.
Qed.

Lemma half_even_bounds m :
  (0 <= m)%Z ->
  (0 <= Binary64.half_even m)%Z /\ (Binary64.half_even m <= m)%Z
  /\ ((0 < m)%Z -> (Binary64.half_even m < m)%Z).
Proof.
  intros Hm. unfold Binary64.half_even.
  pose proof (Zmod_even m) as Hmod.
  destruct (Z.even m); cbv iota in Hmod;
    [Z.div_mod_to_equations; lia|].
  pose proof (Zmod_even (m / 2)) as Hmod2.
  destruct (Z.even (m / 2)); cbv iota in Hmod2;
    Z.div_mod_to_equations; lia.
Qed.

(** Halving in binary64 never raises a non-negative step, never makes it
    negative, and lowers every positive one. *)
Lemma halve_bounds x :
  0 <= x ->
  0 <= Binary64.halve x /\ Binary64.halve x <= x
  /\ (0 < x -> Binary64.halve x < x).
Proof.
  intros Hx. unfold Binary64.halve.
  destruct (Qle_bool Binary64.exact_from x).
  - assert (E : x / 2.0 == x * (1 # 2)).
    { unfold Qdiv. apply Qmult_comp; reflexivity. }
    rewrite E. repeat split; lra.
  - pose proof grid_pos as Hg. set (g := Binary64.grid) in *. clearbody g.
    set (m := Qfloor (x * g)).
    assert (Hfl : inject_Z m <= x * g) by apply Qfloor_le.
    assert (Hm : (0 <= m)%Z).
    { change 0%Z with (Qfloor 0). apply Qfloor_resp_le.
      apply Qmult_le_0_compat; lra. }
    destruct (half_even_bounds m Hm) as (H0 & Hle & Hlt).
    assert (Q0 : 0 <= inject_Z (Binary64.half_even m))
      by (rewrite <- (Zle_Qle 0); exact H0).
    assert (Qle' : inject_Z (Binary64.half_even m) <= inject_Z m)
      by (rewrite <- Zle_Qle; exact Hle).
    split; [apply Qle_shift_div_l; lra|].
    split; [apply Qle_shift_div_r; lra|].
    intros Hpos. apply Qlt_shift_div_r; [exact Hg|].
    destruct (Z.eq_dec m 0) as [E|E].
    + rewrite E. change (Binary64.half_even 0) with 0%Z.
      change (inject_Z 0) with 0. apply Qmult_lt_0_compat; assumption.
    + assert (Hs : inject_Z (Binary64.half_even m) < inject_Z m)
        by (rewrite <- Zlt_Qlt; apply Hlt; lia).
      lra.
Qed.

(** From [2^-1021] on the binary64 halving is the exact one. *)
Lemma halve_exact x :
  Binary64.exact_from <= x -> Binary64.halve x = x / 2.0.
Proof.
  intros H. unfold Binary64.halve. apply Qle_bool_iff in H. now rewrite H.
Qed.

Lemma last_tested_position64_step p b s :
  step (OffsetHelper64.last_tested_position p b s)
  = if b then Binary64.halve (step s) else step s.
Proof. unfold OffsetHelper64.last_tested_position; destruct b; reflexivity. Qed.

Lemma exec64_step c s :
  step (state_of (OffsetHelper64.exec c s))
  = match c with
    | LastTestedPosition _ true => Binary64.halve (step s)
    | _ => step s
    end.
Proof.
  destruct c as [|p [|]]; cbn [OffsetHelper64.exec state_of];
    [apply next_position_step | reflexivity | reflexivity].
Qed.

Lemma run64_step cs : forall s,
  0 <= step s ->
  0 <= step (OffsetHelper64.run cs s)
  /\ step (OffsetHelper64.run cs s) <= step s.
Proof.
  induction cs as [|c cs IH]; intros s Hpos; cbn [OffsetHelper64.run].
  - split; [exact Hpos | apply Qle_refl].
  - destruct (halve_bounds (step s) Hpos) as (H0 & H1 & _).
    assert (Hc : 0 <= step (state_of (OffsetHelper64.exec c s))
                 /\ step (state_of (OffsetHelper64.exec c s)) <= step s).
    { rewrite exec64_step. destruct c as [|p [|]]; split;
        assumption || apply Qle_refl. }
    destruct Hc as [Hc0 Hc1].
    destruct (IH _ Hc0) as [H2 H3].
    split; [exact H2 | eapply Qle_trans; eassumption].
Qed.

Lemma report_all64_run outcomes : forall s,
  OffsetHelper64.report_all outcomes s
  = OffsetHelper64.run
      (map (fun o => LastTestedPosition (fst o) (snd o)) outcomes) s.
Proof.
  unfold OffsetHelper64.report_all.
  induction outcomes as [|o l IH]; intros s; [reflexivity|].
  cbn [fold_left map OffsetHelper64.run OffsetHelper64.exec state_of].
  apply IH.
Qed.

Lemma halve_times_positive k : forall q,
  0 < Notions.halve_times k q -> 0 < q /\ Notions.halve_times k q <= q.
Proof.
  induction k as [|k IH]; intros q H; cbn [Notions.halve_times] in *.
  - split; [exact H | apply Qle_refl].
  - destruct (IH _ H) as [H1 H2].
    assert (E : q / 2.0 == q * (1 # 2)).
    { unfold Qdiv. apply Qmult_comp; reflexivity. }
    set (x := Notions.halve_times k (q / 2.0)) in *. clearbody x.
    rewrite E in H1, H2. split; lra.
Qed.

(** As long as the step stays at or above [2^-1021], the helper with the
    binary64 halving is the helper with the exact one. *)
Lemma run64_exact cs : forall s,
  Binary64.exact_from <= Notions.halve_times (Notions.positives cs) (step s) ->
  OffsetHelper64.run cs s = run cs s.
Proof.
  assert (Hex : 0 < Binary64.exact_from) by reflexivity.
  induction cs as [|c cs IH]; intros s H; [reflexivity|].
  cbn [OffsetHelper64.run run].
  destruct c as [|p [|]];
    cbn [OffsetHelper64.exec exec state_of]; unfold Notions.positives in *;
    cbn [filter Notions.is_positive_report List.length Notions.halve_times]
      in H.
  - apply IH. now rewrite next_position_step.
  - assert (Hs : Binary64.exact_from <= step s).
    { set (k := List.length _) in H.
      destruct (halve_times_positive k (step s / 2.0)) as [H1 H2].
      - eapply Qlt_le_trans; [exact Hex | exact H].
      - assert (E : step s / 2.0 == step s * (1 # 2)).
        { unfold Qdiv. apply Qmult_comp; reflexivity. }
        set (x := Notions.halve_times k (step s / 2.0)) in *. clearbody x.
        set (e := Binary64.exact_from) in *. clearbody e.
        rewrite E in H1, H2. lra. }
    unfold OffsetHelper64.last_tested_position.
    cbn [step set_started set_last_tested_pos].
    rewrite (halve_exact _ Hs). apply IH. exact H.
  - apply IH. exact H.
Qed.

(** C4, as the code has it, with the halving read in binary64: from a
    non-negative step, every call leaves the step non-negative and no
    larger; it is left equal unless the call reports a positive outcome,
    which halves it as a double does: to a strictly smaller value when
    the step is positive, and to exactly half from [2^-1021] on.  So
    after any sequence of reported outcomes, and of calls, the step is
    non-negative and at most what it was, and as long as it stays at or
    above [2^-1021] the helper is the one of the exact halving.  The
    step does not stay positive: a positive outcome takes the smallest
    positive double to 0. *)
Theorem step_halves_on_positive_only s :
  0 <= step s ->
  (forall c,
     0 <= step (state_of (OffsetHelper64.exec c s)) /\
     step (state_of (OffsetHelper64.exec c s)) <= step s /\
     match c with
     | LastTestedPosition _ true =>
         step (state_of (OffsetHelper64.exec c s)) = Binary64.halve (step s)
         /\ (0 < step s -> step (state_of (OffsetHelper64.exec c s)) < step s)
         /\ (Binary64.exact_from <= step s ->
             step (state_of (OffsetHelper64.exec c s)) = step s / 2.0
             /\ 0 < step (state_of (OffsetHelper64.exec c s)))
     | _ => step (state_of (OffsetHelper64.exec c s)) = step s
     end)
  /\ (forall outcomes,
        0 <= step (OffsetHelper64.report_all outcomes s) /\
        step (OffsetHelper64.report_all outcomes s) <= step s)
  /\ (forall cs,
        0 <= step (OffsetHelper64.run cs s)
        /\ step (OffsetHelper64.run cs s) <= step s)
  /\ (forall cs,
        Binary64.exact_from
        <= Notions.halve_times (Notions.positives cs) (step s) ->
        OffsetHelper64.run cs s = run cs s
        /\ 0 < step (OffsetHelper64.run cs s))
  /\ (forall h,
        step s = 1 / Binary64.grid ->
        0 < step s
        /\ step (OffsetHelper64.last_tested_position h true s) == 0).
Proof.
  intros Hpos. destruct (halve_bounds (step s) Hpos) as (H0 & H1 & H2).
  split; [|split; [|split; [|split]]].
  - intros c. rewrite exec64_step. destruct c as [|h [|]].
    + split; [exact Hpos|]. split; [apply Qle_refl | reflexivity].
    + split; [exact H0|]. split; [exact H1|]. split; [reflexivity|].
      split; [exact H2|]. intros Hex. rewrite (halve_exact _ Hex).
      split; [reflexivity|].
      assert (Hs : 0 < step s)
        by (eapply Qlt_le_trans; [|exact Hex]; reflexivity).
      now apply half_lt.
    + split; [exact Hpos|]. split; [apply Qle_refl | reflexivity].
  - intros outcomes. rewrite report_all64_run. now apply run64_step.
  - intros cs. now apply run64_step.
  - intros cs Hex. split; [now apply run64_exact|].
    rewrite (run64_exact cs s Hex).
    destruct (halve_times_positive (Notions.positives cs) (step s))
      as [Hs _]; [eapply Qlt_le_trans; [|exact Hex]; reflexivity|].
    now apply run_step.
  - intros h Hs. rewrite last_tested_position64_step, Hs.
    split; [|vm_compute; reflexivity].
    pose proof grid_pos as Hg. set (g := Binary64.grid) in *. clearbody g.
    apply Qlt_shift_div_l; lra.
Qed.

Lemma step_halves_on_positive_only_witness :
  0 <= step searching_example /\
  step (OffsetHelper64.run [LastTestedPosition 1.0 true; NextPosition]
          searching_example)
    <= step searching_example.
Proof.
  assert (H : 0 <= step searching_example)
    by (apply Qle_bool_imp_le; reflexivity).
  split; [exact H|].
  exact (proj2 (proj1 (proj2 (proj2 (step_halves_on_positive_only
                                       searching_example H)))
                  [LastTestedPosition 1.0 true; NextPosition])).
Defined.

(** C4, as stated, fails: the outcome reported at 1.0 is not false, and
    yet the step after the call differs from the step before it. *)
Lemma positive_outcome_changes_step :
  0 < step searching_example /\
  ~ step (last_tested_position 1.0 true searching_example)
      == step searching_example.
Proof.
  split; [reflexivity|]. intros H. vm_compute in H. discriminate H.
Qed.

(** The binary64 halving of [Binary64] is the kernel's: along 1100
    halvings of 0.01, 0.005, 0.008 and 1/3 it gives the value of
    [x / 2.0] at every step. *)
Example halve_is_binary64 :
  forallb (Float64.agrees 1100) Float64.steps = true.
Proof. vm_compute. reflexivity. Qed.

(** In doubles the step 0.01 is still positive after 1067 halvings and
    is 0.0 after 1068. *)
Example step_0_01_underflows :
  Float64.to_Q Float64.step_0_01 = Some Binary64.nearest_0_01
  /\ PrimFloat.ltb Float64.zero
       (Float64.halve_times 1067 Float64.step_0_01) = true
  /\ PrimFloat.eqb (Float64.halve_times 1068 Float64.step_0_01)
       Float64.zero = true.
Proof. vm_compute. repeat split. Qed.

(** C5: once [finished] is set, the query answers the offset recorded at
    that point, after any number of further queries and reports, and the
    helper stays finished with that offset. *)
Theorem finished_query_is_fixed s cs :
  finished s = true ->
  next_position (run cs s) = Ok (current_offset s) (run cs s)
  /\ finished (run cs s) = true
  /\ current_offset (run cs s) = current_offset s.
Proof.
  intros Hf. destruct (run_finished cs s Hf) as [H1 H2].
  split; [|split; assumption].
  rewrite (next_position_finished _ H1). now rewrite H2.
Qed.

Lemma finished_query_is_fixed_witness :
  let s := mk (0.99, true) 0.005 (Some 0.005) (Some 0.99) true true in
  let cs := [NextPosition; LastTestedPosition 0.5 false; NextPosition;
             LastTestedPosition 2.0 true] in
  finished s = true /\
  next_position (run cs s) = Ok (Some 0.99) (run cs s).
Proof.
  intros s cs. assert (H : finished s = true) by reflexivity.
  split; [exact H|].
  exact (proj1 (finished_query_is_fixed s cs H)).
Defined.

(** C10: the query is what sets [finished].  On a started, unfinished
    helper whose last outcome is [(h, true)] and whose step is within the
    precision, the first query answers [h + step] and leaves the helper
    finished with the offset [h]; the query after it answers [h]; no
    report sets [finished]; and the two answers differ whenever the step
    is not zero. *)
Theorem query_converges_one_call_late s h mp :
  started s = true -> finished s = false ->
  last_tested_pos s = (h, true) -> min_precision s = Some mp ->
  step s <= mp ->
  exists s',
    next_position s = Ok (Some (h + step s)) s'
    /\ finished s' = true /\ current_offset s' = Some h
    /\ next_position s' = Ok (Some h) s'
    /\ (forall p b s0, finished (last_tested_position p b s0) = finished s0)
    /\ (~ step s == 0 -> ~ h + step s == h).
Proof.
  intros Hs Hf Hl Hm Hle.
  rewrite (next_position_positive s h mp (conj Hs Hf) Hl Hm).
  apply Qle_bool_iff in Hle. rewrite Hle.
  eexists. split; [reflexivity|].
  split; [reflexivity|]. split; [reflexivity|].
  split; [reflexivity|]. split.
  - intros p b s0. apply last_tested_position_finished.
  - intros Hz E. apply Hz. lra.
Qed.

Lemma query_converges_one_call_late_witness :
  let s := last_tested_position 0.99 true searching_example in
  started s = true /\ finished s = false /\
  last_tested_pos s = (0.99, true) /\ min_precision s = Some 0.005 /\
  step s <= 0.005 /\
  exists s',
    next_position s = Ok (Some (0.99 + step s)) s'
    /\ finished s' = true /\ current_offset s' = Some 0.99
    /\ next_position s' = Ok (Some 0.99) s'
    /\ (forall p b s0, finished (last_tested_position p b s0) = finished s0)
    /\ (~ step s == 0 -> ~ 0.99 + step s == 0.99).
Proof.
  intros s.
  assert (H1 : started s = true) by reflexivity.
  assert (H2 : finished s = false) by reflexivity.
  assert (H3 : last_tested_pos s = (0.99, true)) by reflexivity.
  assert (H4 : min_precision s = Some 0.005) by reflexivity.
  assert (H5 : step s <= 0.005).
  { apply Qle_bool_imp_le. reflexivity. }
  split; [exact H1 | split; [exact H2 | split; [exact H3 |
    split; [exact H4 | split; [exact H5 |]]]]].
  exact (query_converges_one_call_late s 0.99 0.005 H1 H2 H3 H4 H5).
Defined.

End OffsetHelperFacts.

(** ** Logs and exceptions of composed computations *)

Module Behaviour.

Import Scenario.

(** The counting loop runs its body once for each value of the counter
    from its start to [n], both included. *)
Lemma while_le_times {S} (body : M S unit) (n : Z) :
  forall k counter, Z.to_nat (n + 1 - counter) = k ->
  forall s, while_le body n counter s = times k body s.
Proof.
  induction k as [|k IH]; intros counter Hk s; simp while_le;
    destruct (Z_le_dec counter n) as [Hle|Hgt]; cbn; try lia.
  - reflexivity.
  - unfold bind. destruct (body s) as [[] s'|e s']; [|reflexivity].
    apply IH. lia.
Qed.


Section Rules.

Context {S : Type} (lg : S -> list Printer.event).
Variable Q : Printer.event -> Prop.

Lemma silent {A} (P : exn -> Prop) (c : M S A) :
  (forall s, lg (state_of (c s)) = lg s) ->
  (forall s e s', c s = Raise e s' -> P e) ->
  behaves lg Q P c.
Proof.
  intros Hl He s. split; [|apply He].
  exists []. rewrite app_nil_r. split; [apply Hl | constructor].
Qed.

Lemma behaves_ret {A} P (a : A) : behaves lg Q P (ret a).
Proof. apply silent; [reflexivity | discriminate]. Qed.

Lemma behaves_raise {A} (P : exn -> Prop) e :
  P e -> behaves lg Q P (raise (A:=A) e).
Proof.
  intros H. apply silent; [reflexivity|].
  intros s e' s' E. unfold raise in E. now inversion E; subst.
Qed.

Lemma behaves_getattr {A} (P : exn -> Prop) (a : option A) :
  P AttributeError -> behaves lg Q P (getattr a).
Proof.
  intros H. destruct a; [apply behaves_ret | now apply behaves_raise].
Qed.

Lemma behaves_truediv (P : exn -> Prop) a b :
  P ZeroDivisionError -> behaves lg Q P (truediv a b).
Proof.
  intros H. unfold truediv.
  destruct (b =? 0)%Z; [now apply behaves_raise | apply behaves_ret].
Qed.

Lemma behaves_fdiv (P : exn -> Prop) a b :
  P ZeroDivisionError -> behaves lg Q P (fdiv a b).
Proof.
  intros H. unfold fdiv.
  destruct (Qeq_bool b 0); [now apply behaves_raise | apply behaves_ret].
Qed.

Lemma behaves_bind {A B} P (c : M S A) (k : A -> M S B) :
  behaves lg Q P c -> (forall a, behaves lg Q P (k a)) ->
  behaves lg Q P (bind c k).
Proof.
  intros Hc Hk s. unfold bind.
  destruct (Hc s) as [(l1 & E1 & F1) R1].
  destruct (c s) as [a s1|e s1] eqn:Ec; cbn [state_of] in *.
  - destruct (Hk a s1) as [(l2 & E2 & F2) R2]. split; [|exact R2].
    exists (l1 ++ l2). rewrite E2, E1, app_assoc. split; [reflexivity|].
    apply Forall_app. now split.
  - split; [now exists l1|].
    intros e' s' E. inversion E; subst. now apply (R1 e' s').
Qed.

Lemma behaves_weaken {A} (P P' : exn -> Prop) (c : M S A) :
  (forall e, P e -> P' e) -> behaves lg Q P c -> behaves lg Q P' c.
Proof.
  intros HP Hc s. destruct (Hc s) as [Hl He]. split; [exact Hl|].
  intros e s' E. apply HP. now apply (He e s').
Qed.

Lemma behaves_try_except {A} P (c h : M S A) e :
  behaves lg Q (fun e' => e' = e \/ P e') c -> behaves lg Q P h ->
  behaves lg Q P (try_except c e h).
Proof.
  intros Hc Hh s. unfold try_except.
  destruct (Hc s) as [(l1 & E1 & F1) R1].
  destruct (c s) as [a s1|e1 s1] eqn:Ec; cbn [state_of] in *.
  - split; [now exists l1 | discriminate].
  - destruct (exn_eqb e e1) eqn:Eq.
    + destruct (Hh s1) as [(l2 & E2 & F2) R2]. split; [|exact R2].
      exists (l1 ++ l2). rewrite E2, E1, app_assoc. split; [reflexivity|].
      apply Forall_app. now split.
    + split; [now exists l1|].
      intros e' s' E. inversion E; subst.
      destruct (R1 e' s' eq_refl) as [->|H]; [|exact H].
      now destruct e.
Qed.

Lemma behaves_times P (body : M S unit) k :
  behaves lg Q P body -> behaves lg Q P (times k body).
Proof.
  intros H. induction k as [|k IH]; cbn [times].
  - apply behaves_ret.
  - apply behaves_bind; [exact H | intros _; exact IH].
Qed.

Lemma behaves_ext {A} P (c c' : M S A) :
  (forall s, c s = c' s) -> behaves lg Q P c' -> behaves lg Q P c.
Proof. intros E H s. rewrite E. apply H. Qed.

Lemma behaves_for_each {A} P (l : list A) (body : A -> M S unit) :
  (forall a, behaves lg Q P (body a)) -> behaves lg Q P (for_each l body).
Proof.
  intros H. induction l as [|a l IH]; cbn [for_each].
  - apply behaves_ret.
  - apply behaves_bind; [apply H | intros _; exact IH].
Qed.

Lemma behaves_zoom {T A} (lg' : T -> list Printer.event) P
    (proj : S -> T) (inj : T -> S -> S) (c : M T A) :
  (forall s, lg s = lg' (proj s)) -> (forall t s, lg (inj t s) = lg' t) ->
  behaves lg' Q P c -> behaves lg Q P (zoom proj inj c).
Proof.
  intros Hp Hi Hc s. unfold zoom.
  destruct (Hc (proj s)) as [(l & E & F) R].
  destruct (c (proj s)) as [a t'|e t'] eqn:Ec; cbn [state_of] in *;
    (split; [exists l; rewrite Hi, Hp; now split|]).
  - discriminate.
  - intros e' s' E'. inversion E'; subst. now apply (R e' t').
Qed.

End Rules.

Section Host.

Variable P : exn -> Prop.

Lemma behaves_emit e :
  quiet_or_progress e ->
  behaves printer_log quiet_or_progress P (modify (Printer.emit e)).
Proof.
  intros H s. split; [|discriminate].
  exists [e]. split; [reflexivity | now constructor].
Qed.

Lemma behaves_move x y z e v :
  behaves printer_log quiet_or_progress P (Printer.move x y z e v).
Proof.
  intros s. split; [|discriminate].
  eexists [_]. split; [reflexivity | now repeat constructor].
Qed.

Lemma behaves_manual_move c v :
  behaves printer_log quiet_or_progress P (Printer.manual_move c v).
Proof.
  intros s. split; [|discriminate]. destruct c as [[x y] z].
  unfold Printer.manual_move, modify. cbn [state_of].
  destruct (Printer.position s) as [[[? ?] ?] ?].
  eexists [_]. split; [reflexivity | now repeat constructor].
Qed.

Lemma behaves_start_internal_client :
  behaves printer_log quiet_or_progress P Printer.start_internal_client.
Proof.
  intros s. split; [|discriminate].
  eexists [_]. split; [reflexivity | now repeat constructor].
Qed.

Lemma behaves_respond_info f a :
  is_progress (Printer.Msg f a) = true ->
  behaves printer_log quiet_or_progress P (Printer.respond_info f a).
Proof. intros H. now apply behaves_emit. Qed.

Lemma behaves_toolhead {A} (c : M Printer.t A) :
  behaves printer_log quiet_or_progress P c ->
  behaves helper_log quiet_or_progress P (ZVibrationHelper.toolhead c).
Proof. apply behaves_zoom; reflexivity. Qed.

Lemma behaves_printer {A} (c : M Printer.t A) :
  behaves printer_log quiet_or_progress P c ->
  behaves probe_log quiet_or_progress P (ResonanceZProbe.printer c).
Proof. apply behaves_zoom; reflexivity. Qed.

Lemma behaves_helper {A} (c : M ZVibrationHelper.state A) :
  behaves helper_log quiet_or_progress P c ->
  behaves probe_log quiet_or_progress P (ResonanceZProbe.helper c).
Proof. apply behaves_zoom; reflexivity. Qed.

End Host.

Ltac behave :=
  repeat first
    [ apply behaves_bind; [|intros]
    | apply behaves_ret
    | apply behaves_getattr; reflexivity
    | apply behaves_toolhead
    | apply behaves_printer
    | apply behaves_helper
    | apply behaves_move
    | apply behaves_manual_move
    | apply behaves_start_internal_client
    | apply behaves_emit; exact I
    | apply behaves_respond_info; reflexivity
    | apply silent; [reflexivity | discriminate] ].

Lemma behaves_vibrate :
  behaves helper_log quiet_or_progress only_attribute ZVibrationHelper._vibrate_.
Proof.
  unfold ZVibrationHelper._vibrate_. apply behaves_for_each. intros sign.
  behave.
Qed.

Lemma behaves_set_vibration_variables :
  behaves helper_log quiet_or_progress attribute_or_division
    ZVibrationHelper._set_vibration_variables.
Proof.
  unfold ZVibrationHelper._set_vibration_variables.
  apply behaves_bind; [behave | intros h].
  apply behaves_bind; [apply behaves_fdiv; now right | intros t_seg].
  behave.
Qed.

Lemma behaves_test z :
  behaves probe_log quiet_or_progress only_attribute (ResonanceZProbe._test z).
Proof.
  unfold ResonanceZProbe._test.
  apply behaves_bind; [behave | intros p].
  apply behaves_bind; [behave | intros chip].
  apply behaves_bind; [behave | intros aclient].
  apply behaves_bind.
  { eapply behaves_ext; [intros s; apply (while_le_times _ _ _ _ eq_refl)|].
    apply behaves_times. apply behaves_helper. apply behaves_vibrate. }
  intros _.
  apply behaves_bind; [behave | intros _].
  apply behaves_bind; [behave | intros samples]. cbv zeta.
  apply behaves_bind.
  { apply behaves_try_except; [|behave].
    apply behaves_truediv. now left. }
  intros rate. destruct (ResonanceZProbe.debug p); behave.
Qed.

End Behaviour.

(** ** The per-height test *)

Module TestFacts.

Import Scenario Behaviour.

Lemma set_vibration_helper_same p :
  ResonanceZProbe.set_vibration_helper (ResonanceZProbe.vibration_helper p) p = p.
Proof. destruct p; reflexivity. Qed.

(** One [_vibrate_] call: four moves when the attributes are assigned,
    [AttributeError] otherwise; the helper is left as it was. *)
Lemma vibrate_ready pr h :
  ZVibrationHelper.ready h = true ->
  ZVibrationHelper._vibrate_ (pr, h) = Ok tt (after_cycle h pr, h).
Proof.
  unfold ZVibrationHelper.ready, after_cycle, cycle_moves.
  unfold ZVibrationHelper._vibrate_.
  destruct h as [f a vd mv cx cy cz ce ms dx dy dz]; cbn.
  destruct mv, cx, cy, cz, ce, dx, dy, dz; try discriminate. intros _.
  cbn. unfold Printer.emit, Printer.set_position; cbn.
  repeat rewrite <- app_assoc. reflexivity.
Qed.

Lemma helper_vibrate_ready pr p :
  ZVibrationHelper.ready (ResonanceZProbe.vibration_helper p) = true ->
  ResonanceZProbe.helper ZVibrationHelper._vibrate_ (pr, p)
    = Ok tt (after_cycle (ResonanceZProbe.vibration_helper p) pr, p).
Proof.
  intros H. unfold ResonanceZProbe.helper, zoom. cbn [fst snd].
  rewrite (vibrate_ready _ _ H). cbn [fst snd].
  now rewrite set_vibration_helper_same.
Qed.

Lemma times_vibrate_ready k : forall pr p,
  ZVibrationHelper.ready (ResonanceZProbe.vibration_helper p) = true ->
  times k (ResonanceZProbe.helper ZVibrationHelper._vibrate_) (pr, p)
    = Ok tt (after_cycles k (ResonanceZProbe.vibration_helper p) pr, p).
Proof.
  induction k as [|k IH]; intros pr p H; cbn [times after_cycles].
  - reflexivity.
  - unfold bind. rewrite (helper_vibrate_ready _ _ H). now apply IH.
Qed.

Lemma count_moves_app l1 l2 :
  Printer.count_moves (l1 ++ l2)
    = (Printer.count_moves l1 + Printer.count_moves l2)%nat.
Proof. unfold Printer.count_moves. now rewrite filter_app, length_app. Qed.

Lemma after_cycle_moves h pr :
  ZVibrationHelper.ready h = true ->
  Printer.count_moves (Printer.log (after_cycle h pr))
    = (Printer.count_moves (Printer.log pr) + 4)%nat
  /\ Printer.console (Printer.log (after_cycle h pr))
      = Printer.console (Printer.log pr)
  /\ Printer.accel_feed (after_cycle h pr) = Printer.accel_feed pr
  /\ Printer.clients (after_cycle h pr) = Printer.clients pr.
Proof.
  unfold ZVibrationHelper.ready, after_cycle, cycle_moves.
  destruct h as [f a vd mv cx cy cz ce ms dx dy dz]; cbn.
  destruct mv, cx, cy, cz, ce, dx, dy, dz; try discriminate. intros _.
  cbn -[Printer.count_moves Printer.console].
  rewrite count_moves_app. repeat split.
  induction (Printer.log pr) as [|[] l IH]; cbn; congruence.
Qed.

Lemma after_cycles_moves k h : forall pr,
  ZVibrationHelper.ready h = true ->
  Printer.count_moves (Printer.log (after_cycles k h pr))
    = (Printer.count_moves (Printer.log pr) + 4 * k)%nat
  /\ Printer.console (Printer.log (after_cycles k h pr))
      = Printer.console (Printer.log pr)
  /\ Printer.accel_feed (after_cycles k h pr) = Printer.accel_feed pr
  /\ Printer.clients (after_cycles k h pr) = Printer.clients pr.
Proof.
  induction k as [|k IH]; intros pr H; cbn [after_cycles].
  - repeat split. lia.
  - destruct (IH (after_cycle h pr) H) as (H1 & H2 & H3 & H4).
    destruct (after_cycle_moves h pr H) as (G1 & G2 & G3 & G4).
    rewrite H1, H2, H3, H4, G1, G2, G3, G4. repeat split. lia.
Qed.

(** The guarded division of [_test] always yields a number, and yields 0
    for a zero length. *)
Lemma guarded_rate {S} (count len : Z) (s : S) :
  exists r,
    try_except (truediv count len) ZeroDivisionError (ret 0) s = Ok r s
    /\ (len = 0%Z -> r = 0).
Proof.
  unfold try_except, truediv. destruct (len =? 0)%Z eqn:E; cbn.
  - exists 0. split; [reflexivity | auto].
  - eexists. split; [reflexivity|]. intros ->. discriminate E.
Qed.

Lemma test_ready z pr p chip :
  ResonanceZProbe.accel_chips p = Some chip ->
  ZVibrationHelper.ready (ResonanceZProbe.vibration_helper p) = true ->
  exists rate pr' p',
    ResonanceZProbe._test z (pr, p) = Ok rate (pr', p')
    /\ Printer.count_moves (Printer.log pr')
        = (Printer.count_moves (Printer.log pr)
           + 4 * Z.to_nat (ResonanceZProbe.cycle_per_test p + 1))%nat
    /\ (Printer.accel_feed pr (Printer.clients pr) = [] -> rate = 0).
Proof.
  intros Hc Hr. unfold ResonanceZProbe._test.
  unfold bind at 1. cbn [ResonanceZProbe.self snd].
  unfold bind at 1. rewrite Hc. cbn [getattr ret].
  unfold bind at 1.
  cbn [ResonanceZProbe.printer zoom Printer.start_internal_client fst snd].
  unfold bind at 1.
  rewrite (while_le_times _ _ _ 0%Z eq_refl).
  rewrite (times_vibrate_ready _ _ _ Hr).
  set (k := Z.to_nat (ResonanceZProbe.cycle_per_test p + 1 - 0)).
  set (pr1 := Printer.mk _ _ _ _ _).
  destruct (after_cycles_moves k (ResonanceZProbe.vibration_helper p) pr1 Hr)
    as (Hm & _ & Hfeed & _).
  unfold bind at 1.
  cbn [ResonanceZProbe.printer zoom Printer.finish_measurements modify fst snd].
  unfold bind at 1.
  cbn [ResonanceZProbe.printer zoom Printer.get_samples fst snd
       Printer.emit Printer.accel_feed].
  rewrite Hfeed. cbn [pr1 Printer.accel_feed].
  set (samples := Printer.accel_feed pr (Printer.clients pr)).
  unfold bind at 1. cbv beta zeta.
  match goal with
  | |- context [try_except (truediv ?c ?l) _ _ ?s] =>
      destruct (guarded_rate (S:=ResonanceZProbe.state) c l s)
        as (r & Hr' & Hz); rewrite Hr'
  end.
  cbv beta. unfold bind, ret, ResonanceZProbe.printer, zoom,
    Printer.respond_info, ResonanceZProbe.self, ResonanceZProbe.assign, modify.
  cbn [fst snd].
  assert (Hcount :
    Printer.count_moves
      (Printer.log (after_cycles k (ResonanceZProbe.vibration_helper p) pr1))
    = (Printer.count_moves (Printer.log pr)
       + 4 * Z.to_nat (ResonanceZProbe.cycle_per_test p + 1))%nat).
  { rewrite Hm. subst pr1 k. cbn [Printer.log]. rewrite count_moves_app.
    rewrite Z.sub_0_r. cbn. lia. }
  assert (Hzero : samples = [] -> r = 0).
  { intros E. apply Hz. now rewrite E. }
  destruct (ResonanceZProbe.debug p); cbn [fst snd];
    do 3 eexists; (split; [reflexivity|]); (split; [|exact Hzero]);
    cbn [Printer.emit Printer.log]; repeat rewrite count_moves_app.
    all: rewrite Hcount; cbn; lia.
Qed.

(** C6, as the code has it: for a positive [cycle_per_test], the loop of
    [_test] (and the one of [vibrate_n]) is [_vibrate_] run
    [cycle_per_test + 1] times in a row, so one test on a connected probe
    whose vibration variables are assigned issues
    [4 * (cycle_per_test + 1)] toolhead moves: one cycle more than the
    argument. *)
Theorem test_vibrates_cycles_plus_one z pr p chip :
  ResonanceZProbe.accel_chips p = Some chip ->
  ZVibrationHelper.ready (ResonanceZProbe.vibration_helper p) = true ->
  (0 < ResonanceZProbe.cycle_per_test p)%Z ->
  (forall s,
     while_le (ResonanceZProbe.helper ZVibrationHelper._vibrate_)
       (ResonanceZProbe.cycle_per_test p) 0%Z s
     = times (Z.to_nat (ResonanceZProbe.cycle_per_test p) + 1)
         (ResonanceZProbe.helper ZVibrationHelper._vibrate_) s)
  /\ (forall n s, (0 < n)%Z ->
       ZVibrationHelper.vibrate_n n s
       = bind ZVibrationHelper._set_vibration_variables
           (fun _ => times (Z.to_nat n + 1) ZVibrationHelper._vibrate_) s)
  /\ Printer.count_moves
       (Printer.log (fst (state_of (ResonanceZProbe._test z (pr, p)))))
     = (Printer.count_moves (Printer.log pr)
        + 4 * (Z.to_nat (ResonanceZProbe.cycle_per_test p) + 1))%nat.
Proof.
  intros Hc Hr Hn. split; [|split].
  - intros s. apply while_le_times. lia.
  - intros n s Hpos. unfold ZVibrationHelper.vibrate_n, bind.
    destruct (ZVibrationHelper._set_vibration_variables s); [|reflexivity].
    apply while_le_times. lia.
  - destruct (test_ready z pr p chip Hc Hr) as (rate & pr' & p' & E & Hm & _).
    rewrite E. cbn [state_of fst]. rewrite Hm.
    replace (Z.to_nat (ResonanceZProbe.cycle_per_test p + 1))
      with (Z.to_nat (ResonanceZProbe.cycle_per_test p) + 1)%nat by lia.
    reflexivity.
Qed.

Lemma test_vibrates_cycles_plus_one_witness :
  let s := set_up still_feed in
  ResonanceZProbe.accel_chips (snd s) = Some ("z"%string, "adxl345"%string) /\
  ZVibrationHelper.ready (ResonanceZProbe.vibration_helper (snd s)) = true /\
  ResonanceZProbe.cycle_per_test (snd s) = 2%Z /\
  Printer.count_moves
    (Printer.log (fst (state_of (ResonanceZProbe._test 1.01 (fst s, snd s)))))
  = (Printer.count_moves (Printer.log (fst s)) + 4 * 3)%nat.
Proof.
  intros s.
  assert (H1 : ResonanceZProbe.accel_chips (snd s)
               = Some ("z"%string, "adxl345"%string)) by reflexivity.
  assert (H2 : ZVibrationHelper.ready
                 (ResonanceZProbe.vibration_helper (snd s)) = true)
    by (vm_compute; reflexivity).
  assert (H3 : (0 < ResonanceZProbe.cycle_per_test (snd s))%Z) by reflexivity.
  split; [exact H1 | split; [exact H2 | split; [reflexivity|]]].
  exact (proj2 (proj2 (test_vibrates_cycles_plus_one 1.01 (fst s) (snd s) _
                         H1 H2 H3))).
Defined.

(** C7: on a connected probe whose vibration variables are assigned, a
    test whose recording holds no sample returns exactly 0; and from no
    state at all does [_test] raise [ZeroDivisionError]. *)
Theorem test_without_samples_returns_zero z pr p chip :
  ResonanceZProbe.accel_chips p = Some chip ->
  ZVibrationHelper.ready (ResonanceZProbe.vibration_helper p) = true ->
  Printer.accel_feed pr (Printer.clients pr) = [] ->
  (exists s', ResonanceZProbe._test z (pr, p) = Ok 0 s')
  /\ (forall s e s',
        ResonanceZProbe._test z s = Raise e s' -> e <> ZeroDivisionError).
Proof.
  intros Hc Hr Hs. split.
  - destruct (test_ready z pr p chip Hc Hr) as (rate & pr' & p' & E & _ & Hz).
    rewrite (Hz Hs) in E. now exists (pr', p').
  - intros s e s' E. destruct (behaves_test z s) as [_ H].
    rewrite (H e s' E). discriminate.
Qed.

Lemma test_without_samples_returns_zero_witness :
  let s := set_up empty_feed in
  ResonanceZProbe.accel_chips (snd s) = Some ("z"%string, "adxl345"%string) /\
  ZVibrationHelper.ready (ResonanceZProbe.vibration_helper (snd s)) = true /\
  Printer.accel_feed (fst s) (Printer.clients (fst s)) = [] /\
  exists s', ResonanceZProbe._test 1.01 (fst s, snd s) = Ok 0 s'.
Proof.
  intros s.
  assert (H1 : ResonanceZProbe.accel_chips (snd s)
               = Some ("z"%string, "adxl345"%string)) by reflexivity.
  assert (H2 : ZVibrationHelper.ready
                 (ResonanceZProbe.vibration_helper (snd s)) = true)
    by (vm_compute; reflexivity).
  assert (H3 : Printer.accel_feed (fst s) (Printer.clients (fst s)) = [])
    by reflexivity.
  split; [exact H1 | split; [exact H2 | split; [exact H3|]]].
  exact (proj1 (test_without_samples_returns_zero 1.01 (fst s) (snd s) _
                  H1 H2 H3)).
Defined.

End TestFacts.

(** ** The probing run *)

Module RunFacts.

Import Scenario Behaviour.

Lemma init_example pr :
  ResonanceZProbe.__init__ example_config pr = Ok example_probe pr.
Proof. reflexivity. Qed.

(** A helper built without a precision never finishes and never gets
    one. *)
Lemma run_without_precision cs : forall oh,
  OffsetHelper.min_precision oh = None -> OffsetHelper.finished oh = false ->
  OffsetHelper.min_precision (OffsetHelper.run cs oh) = None
  /\ OffsetHelper.finished (OffsetHelper.run cs oh) = false.
Proof.
  induction cs as [|c cs IH]; intros oh Hm Hf; cbn [OffsetHelper.run];
    [now split|].
  apply IH.
  - destruct c as [|p b]; cbn [OffsetHelper.exec state_of].
    + now rewrite OffsetHelperFacts.next_position_min_precision.
    + now rewrite OffsetHelperFacts.last_tested_position_min_precision.
  - destruct (OffsetHelper.finished (state_of (OffsetHelper.exec c oh))) eqn:E;
      [|reflexivity].
    destruct (OffsetHelperFacts.finished_set_only_by_next_position c oh Hf E)
      as (_ & _ & _ & mp & Hmp & _).
    congruence.
Qed.

Lemma getfloat_none_absent {S} cfg name b (s : S) :
  Config.lookup name cfg = None ->
  Config.getfloat_none cfg name b s = Ok None s.
Proof.
  intros H. unfold Config.getfloat_none, Config.getfloat_or.
  now rewrite H.
Qed.

Lemma init_tolerance cfg pr probe pr' :
  Config.lookup "samples_tolerance" cfg = None ->
  ResonanceZProbe.__init__ cfg pr = Ok probe pr' ->
  ResonanceZProbe.tolerance probe = None.
Proof.
  intros Ha. unfold ResonanceZProbe.__init__.
  unfold bind at 1.
  destruct (Config.getfloat cfg "accel_per_hz" _ _ pr) as [a1 s1|]; [|discriminate].
  unfold bind at 1.
  destruct (Config.getfloat cfg "step_size" _ _ s1) as [a2 s2|]; [|discriminate].
  unfold bind at 1. rewrite (getfloat_none_absent _ _ _ _ Ha).
  repeat (unfold bind at 1;
          match goal with
          | |- match ?c with _ => _ end = _ -> _ =>
              destruct c; [|discriminate]
          end).
  unfold ret. intros E. inversion E. reflexivity.
Qed.

Lemma setup_offset_helper s :
  ResonanceZProbe.offset_helper (snd (state_of (ResonanceZProbe.probe_setup s)))
  = Some (OffsetHelper.__init__
            (snd (ResonanceZProbe.probe_points (snd s)))
            (ResonanceZProbe.step_size (snd s))
            (ResonanceZProbe.tolerance (snd s))).
Proof.
  unfold ResonanceZProbe.probe_setup.
  unfold bind, ResonanceZProbe.self, ResonanceZProbe.assign,
    ResonanceZProbe.printer, ResonanceZProbe.helper, zoom, ret,
    Printer.manual_move, Printer.wait_moves, Printer.dwell, modify.
  cbn [fst snd state_of].
  match goal with
  | |- context [ZVibrationHelper._set_vibration_variables ?x] =>
      destruct (ZVibrationHelper._set_vibration_variables x)
  end; reflexivity.
Qed.

(** C9: when [samples_tolerance] is absent from the configuration, the
    probe is built with [tolerance = None]; the set-up of the run passes
    the tolerance, whatever it is, as the helper's precision, so the
    helper is built with [min_precision = None] and not with the 0.005
    the constructor takes when the argument is left out; and whatever
    calls such a helper has served, the query that follows a positive
    outcome raises [TypeError]. *)
Theorem absent_tolerance_raises_on_first_detection cfg pr probe pr' :
  Config.lookup "samples_tolerance" cfg = None ->
  ResonanceZProbe.__init__ cfg pr = Ok probe pr' ->
  ResonanceZProbe.tolerance probe = None
  /\ (forall s oh,
        ResonanceZProbe.offset_helper
          (snd (state_of (ResonanceZProbe.probe_setup s))) = Some oh ->
        OffsetHelper.min_precision oh = ResonanceZProbe.tolerance (snd s))
  /\ (forall pr0,
        ResonanceZProbe.offset_helper
          (snd (state_of (ResonanceZProbe.probe_setup (pr0, probe))))
        = Some (OffsetHelper.__init__
                  (snd (ResonanceZProbe.probe_points probe))
                  (ResonanceZProbe.step_size probe) None))
  /\ (forall pos step,
        OffsetHelper.min_precision (OffsetHelper.__init__default pos step)
        = Some 0.005
        /\ OffsetHelper.min_precision (OffsetHelper.__init__ pos step None)
           = None)
  /\ (forall cs h,
        let oh :=
          OffsetHelper.last_tested_position h true
            (OffsetHelper.run cs
               (OffsetHelper.__init__
                  (snd (ResonanceZProbe.probe_points probe))
                  (ResonanceZProbe.step_size probe) None)) in
        OffsetHelper.next_position oh
        = Raise TypeError (OffsetHelper.set_current_offset (Some h) oh)).
Proof.
  intros Ha Hi. pose proof (init_tolerance cfg pr probe pr' Ha Hi) as Ht.
  split; [exact Ht|]. split; [|split; [|split; [now split|]]].
  - intros s oh. rewrite setup_offset_helper. intros E.
    inversion E. reflexivity.
  - intros pr0. rewrite setup_offset_helper. cbn [snd]. now rewrite Ht.
  - intros cs h.
    destruct (run_without_precision cs
                (OffsetHelper.__init__
                   (snd (ResonanceZProbe.probe_points probe))
                   (ResonanceZProbe.step_size probe) None)
                eq_refl eq_refl) as [Hm Hf].
    cbv zeta. unfold OffsetHelper.next_position.
    rewrite OffsetHelperFacts.last_tested_position_finished, Hf.
    rewrite OffsetHelperFacts.last_tested_position_started.
    rewrite OffsetHelperFacts.last_tested_position_pos.
    cbn [negb]. unfold OffsetHelper.le_precision.
    cbn [OffsetHelper.set_current_offset OffsetHelper.min_precision].
    now rewrite OffsetHelperFacts.last_tested_position_min_precision, Hm.
Qed.

Lemma absent_tolerance_raises_on_first_detection_witness :
  Config.lookup "samples_tolerance" example_config = None /\
  ResonanceZProbe.__init__ example_config (printer_with tapping_feed)
    = Ok example_probe (printer_with tapping_feed) /\
  ResonanceZProbe.tolerance example_probe = None.
Proof.
  assert (H1 : Config.lookup "samples_tolerance" example_config = None)
    by reflexivity.
  assert (H2 : ResonanceZProbe.__init__ example_config
                 (printer_with tapping_feed)
               = Ok example_probe (printer_with tapping_feed))
    by reflexivity.
  split; [exact H1 | split; [exact H2|]].
  exact (proj1 (absent_tolerance_raises_on_first_detection
                  example_config _ _ _ H1 H2)).
Defined.

(** The same on a whole run: with the example configuration, where the
    tolerance is absent, and a feed that trips the detection at the first
    height, the run ends in [TypeError]. *)
Example first_detection_ends_run_in_type_error :
  exists s',
    ResonanceZProbe.babystep_probe 5 (connected tapping_feed)
    = Some (Raise TypeError s').
Proof. eexists. vm_compute. reflexivity. Qed.

(** *** What a run writes to the console *)

Lemma set_offset_helper_same p oh :
  ResonanceZProbe.offset_helper p = Some oh ->
  ResonanceZProbe.set_offset_helper (Some oh) p = p.
Proof. destruct p; cbn; now intros ->. Qed.

Lemma behaves_offsets {A} (c : M OffsetHelper.t A) :
  behaves probe_log quiet_or_progress any_exn (ResonanceZProbe.offsets c).
Proof.
  apply silent; [|intros; exact I].
  intros s. unfold ResonanceZProbe.offsets.
  destruct (ResonanceZProbe.offset_helper (snd s)); [|reflexivity].
  destruct (c t); reflexivity.
Qed.

Lemma behaves_any {S A} lg P (c : M S A) :
  behaves lg quiet_or_progress P c -> behaves lg quiet_or_progress any_exn c.
Proof. apply behaves_weaken. intros; exact I. Qed.

Lemma behaves_probe_body z tr :
  behaves probe_log quiet_or_progress any_exn (ResonanceZProbe.probe_body z tr).
Proof.
  unfold ResonanceZProbe.probe_body.
  apply behaves_bind; [behave | intros p].
  apply behaves_bind; [apply (behaves_any _ _ _ (behaves_test z)) | intros r].
  apply behaves_bind; [apply behaves_offsets | intros _]. cbv zeta.
  apply behaves_bind; [apply behaves_offsets | intros next].
  apply behaves_ret.
Qed.

Lemma behaves_set_cur_z z :
  behaves probe_log quiet_or_progress any_exn (ResonanceZProbe.set_cur_z z).
Proof. unfold ResonanceZProbe.set_cur_z. behave. Qed.

Lemma behaves_probe_setup :
  behaves probe_log quiet_or_progress any_exn ResonanceZProbe.probe_setup.
Proof.
  unfold ResonanceZProbe.probe_setup.
  apply behaves_bind; [behave | intros p].
  apply behaves_bind; [behave | intros _].
  apply behaves_bind; [behave | intros _].
  apply behaves_bind; [behave | intros _].
  apply behaves_bind; [behave | intros _].
  apply behaves_bind; [|intros _; apply behaves_ret].
  apply behaves_helper.
  apply (behaves_any _ _ _ behaves_set_vibration_variables).
Qed.

Lemma behaves_rate_above_threshold thr d :
  behaves printer_log quiet_or_progress any_exn
    (TapResonanceData._rate_above_threshold thr d).
Proof.
  induction d as [|tp d IH]; cbn [TapResonanceData._rate_above_threshold].
  - apply behaves_ret.
  - apply behaves_bind; [apply behaves_truediv; exact I | intros rate].
    apply behaves_bind; [exact IH | intros rest]. apply behaves_ret.
Qed.

Lemma behaves_export_debug :
  behaves probe_log quiet_or_progress any_exn ResonanceZProbe.export_debug.
Proof.
  unfold ResonanceZProbe.export_debug.
  apply behaves_bind; [behave | intros p].
  destruct (ResonanceZProbe.debug p); [|apply behaves_ret].
  apply behaves_bind; [behave | intros tap].
  apply behaves_bind; [behave | intros _].
  apply behaves_printer. unfold TapResonanceData.plot.
  apply behaves_bind; [apply behaves_rate_above_threshold | intros _].
  behave.
Qed.

Lemma probe_loop_log fuel : forall z tr s o,
  ResonanceZProbe.probe_loop fuel z tr s = Some o ->
  exists l, probe_log (state_of o) = probe_log s ++ l
            /\ Forall quiet_or_progress l.
Proof.
  induction fuel as [|fuel IH]; intros z tr s o;
    cbn [ResonanceZProbe.probe_loop]; [discriminate|].
  assert (Hrefl : forall s0 : ResonanceZProbe.state,
            exists l, probe_log s0 = probe_log s0 ++ l
                      /\ Forall quiet_or_progress l).
  { intros s0. exists []. now rewrite app_nil_r. }
  assert (Htrans : forall (s0 s1 s2 : ResonanceZProbe.state),
            (exists l, probe_log s1 = probe_log s0 ++ l
                       /\ Forall quiet_or_progress l) ->
            (exists l, probe_log s2 = probe_log s1 ++ l
                       /\ Forall quiet_or_progress l) ->
            exists l, probe_log s2 = probe_log s0 ++ l
                      /\ Forall quiet_or_progress l).
  { intros s0 s1 s2 (l1 & E1 & F1) (l2 & E2 & F2). exists (l1 ++ l2).
    rewrite E2, E1, app_assoc. split; [reflexivity|].
    apply Forall_app. now split. }
  destruct (Qle_bool _ z); [|intros E; inversion E; apply Hrefl].
  destruct (behaves_offsets
              (fun oh => Ok (OffsetHelper.finished oh) oh) s) as [H1 _].
  fold ResonanceZProbe.is_finished in H1.
  destruct (ResonanceZProbe.is_finished s) as [[|] s1|e s1];
    cbn [state_of] in H1; try (intros E; inversion E; exact H1).
  destruct (behaves_probe_body z tr s1) as [H2 _].
  destruct (ResonanceZProbe.probe_body z tr s1) as [[[z'|] tr'] s2|e s2];
    cbn [state_of] in H2;
    try (intros E; inversion E; cbn [state_of]; eapply Htrans; eassumption).
  destruct (behaves_set_cur_z z' s2) as [H3 _].
  destruct (ResonanceZProbe.set_cur_z z' s2) as [[] s3|e s3];
    cbn [state_of] in H3.
  - intros E. apply IH in E.
    eapply Htrans; [|exact E]. eapply Htrans; [|exact H3].
    eapply Htrans; eassumption.
  - intros E. inversion E. cbn [state_of].
    eapply Htrans; [|exact H3]. eapply Htrans; eassumption.
Qed.

(** *** The report after the loop *)

Lemma keeps_ret {A} (a : A) : keeps_offsets (ret a).
Proof. intros s. reflexivity. Qed.

Lemma keeps_raise {A} e : keeps_offsets (raise (A:=A) e).
Proof. intros s. reflexivity. Qed.

Lemma keeps_self : keeps_offsets ResonanceZProbe.self.
Proof. intros s. reflexivity. Qed.

Lemma keeps_bind {A B} (c : M ResonanceZProbe.state A)
    (k : A -> M ResonanceZProbe.state B) :
  keeps_offsets c -> (forall a, keeps_offsets (k a)) ->
  keeps_offsets (bind c k).
Proof.
  intros Hc Hk s. unfold bind. specialize (Hc s).
  destruct (c s) as [a s1|e s1]; cbn [state_of] in *; [|exact Hc].
  now rewrite Hk.
Qed.

Lemma keeps_printer {A} (c : M Printer.t A) :
  keeps_offsets (ResonanceZProbe.printer c).
Proof.
  intros s. unfold ResonanceZProbe.printer, zoom.
  destruct (c (fst s)); reflexivity.
Qed.

(** Reading an attribute of the helper. *)
Lemma keeps_read {A} (f : OffsetHelper.t -> A) :
  keeps_offsets (ResonanceZProbe.offsets (fun oh => Ok (f oh) oh)).
Proof.
  intros s. unfold ResonanceZProbe.offsets.
  destruct (ResonanceZProbe.offset_helper (snd s)) eqn:E; cbn; congruence.
Qed.

Lemma keeps_report_offset : keeps_offsets ResonanceZProbe.report_offset.
Proof.
  unfold ResonanceZProbe.report_offset.
  apply keeps_bind; [apply keeps_self | intros p].
  apply keeps_bind; [apply keeps_read | intros [|]]; [|apply keeps_ret].
  apply keeps_bind; [apply keeps_read | intros [z|]];
    [apply keeps_printer | apply keeps_raise].
Qed.

Lemma keeps_export_debug : keeps_offsets ResonanceZProbe.export_debug.
Proof.
  unfold ResonanceZProbe.export_debug.
  apply keeps_bind; [apply keeps_self | intros p].
  destruct (ResonanceZProbe.debug p); [|apply keeps_ret].
  repeat (apply keeps_bind; [apply keeps_printer | intros ?]).
  apply keeps_printer.
Qed.

Lemma keeps_probe_report : keeps_offsets ResonanceZProbe.probe_report.
Proof.
  unfold ResonanceZProbe.probe_report.
  apply keeps_bind; [apply keeps_report_offset | intros _].
  apply keeps_export_debug.
Qed.

(** With an unfinished helper nothing is reported. *)
Lemma report_offset_unfinished s oh :
  ResonanceZProbe.offset_helper (snd s) = Some oh ->
  OffsetHelper.finished oh = false ->
  ResonanceZProbe.report_offset s = Ok tt s.
Proof.
  intros Ho Hf. unfold ResonanceZProbe.report_offset, bind,
    ResonanceZProbe.self, ResonanceZProbe.is_finished, ResonanceZProbe.offsets.
  rewrite Ho, Hf. cbn. rewrite (set_offset_helper_same _ _ Ho).
  now destruct s.
Qed.

Lemma probe_report_unfinished_log s oh :
  ResonanceZProbe.offset_helper (snd s) = Some oh ->
  OffsetHelper.finished oh = false ->
  exists l, probe_log (state_of (ResonanceZProbe.probe_report s))
            = probe_log s ++ l
            /\ Forall quiet_or_progress l.
Proof.
  intros Ho Hf. unfold ResonanceZProbe.probe_report, bind.
  rewrite (report_offset_unfinished s oh Ho Hf).
  apply behaves_export_debug.
Qed.

(** Progress lines are neither the result line nor a safety report. *)
Lemma progress_only_console l :
  Forall quiet_or_progress l ->
  existsb is_result (Printer.console l) = false
  /\ reports_safety_limit (Printer.console l) = false.
Proof.
  unfold reports_safety_limit.
  induction 1 as [|e l He Hl [IH1 IH2]]; [now split|].
  destruct e; cbn [Printer.console]; try (now split).
  cbn [existsb]. rewrite IH1, IH2. cbn in He. rewrite He. cbn [negb orb].
  split; [|reflexivity]. rewrite orb_false_r.
  unfold is_progress in He. unfold is_result.
  destruct (String.eqb_spec (Printer.fmt m) fmt_result) as [E|]; [|reflexivity].
  rewrite E in He. discriminate He.
Qed.

(** C8, as the code has it: a run that ends with an unfinished helper
    has written nothing to the console but progress lines (the per-test
    line and the two export lines): no result line announces an offset,
    and no line reports the safety limit.  In particular, when the
    current height is below the safe minimum at the loop test and the
    helper is unfinished, the loop ends there and the report that follows
    writes neither a result line nor a safety report. *)
Theorem unfinished_run_writes_progress_only fuel s o oh :
  ResonanceZProbe.babystep_probe fuel s = Some o ->
  ResonanceZProbe.offset_helper (snd (state_of o)) = Some oh ->
  OffsetHelper.finished oh = false ->
  (exists l,
     Printer.log (fst (state_of o)) = Printer.log (fst s) ++ l
     /\ Forall quiet_or_progress l
     /\ existsb is_result (Printer.console l) = false
     /\ reports_safety_limit (Printer.console l) = false)
  /\ (forall fuel' z tr s0 oh0,
        z < ResonanceZProbe.safe_min_z (snd s0) ->
        ResonanceZProbe.offset_helper (snd s0) = Some oh0 ->
        OffsetHelper.finished oh0 = false ->
        ResonanceZProbe.probe_loop (S fuel') z tr s0 = Some (Ok tt s0)
        /\ exists l,
             Printer.log (fst (state_of (ResonanceZProbe.probe_report s0)))
             = Printer.log (fst s0) ++ l
             /\ existsb is_result (Printer.console l) = false
             /\ reports_safety_limit (Printer.console l) = false).
Proof.
  intros Hrun Ho Hf. split.
  - assert (Hl : exists l,
              probe_log (state_of o) = probe_log s ++ l
              /\ Forall quiet_or_progress l).
    { unfold ResonanceZProbe.babystep_probe in Hrun.
      destruct (behaves_probe_setup s) as [(l1 & E1 & F1) _].
      destruct (ResonanceZProbe.probe_setup s) as [z s1|e s1];
        cbn [state_of] in E1.
      2:{ inversion Hrun. cbn [state_of]. now exists l1. }
      destruct (ResonanceZProbe.probe_loop fuel z [] s1) as [o1|] eqn:El;
        [|discriminate].
      destruct (probe_loop_log fuel z [] s1 o1 El) as (l2 & E2 & F2).
      assert (H12 : probe_log (state_of o1) = probe_log s ++ (l1 ++ l2)
                    /\ Forall quiet_or_progress (l1 ++ l2)).
      { rewrite E2, E1, app_assoc. split; [reflexivity|].
        apply Forall_app. now split. }
      destruct o1 as [[] s2|e s2]; cbn [state_of] in *.
      2:{ inversion Hrun. cbn [state_of]. now exists (l1 ++ l2). }
      inversion Hrun as [Ho']. subst o.
      rewrite keeps_probe_report in Ho.
      destruct (probe_report_unfinished_log s2 oh Ho Hf) as (l3 & E3 & F3).
      exists ((l1 ++ l2) ++ l3). destruct H12 as [E12 F12].
      rewrite E3, E12, <- app_assoc. split; [reflexivity|].
      apply Forall_app. now split. }
    destruct Hl as (l & E & F). exists l.
    destruct (progress_only_console l F) as [H1 H2]. now repeat split.
  - intros fuel' z tr s0 oh0 Hlt Ho0 Hf0. split.
    + cbn [ResonanceZProbe.probe_loop].
      destruct (Qle_bool (ResonanceZProbe.safe_min_z (snd s0)) z) eqn:E;
        [|reflexivity].
      apply Qle_bool_iff in E. exfalso. now apply (Qlt_not_le _ _ Hlt).
    + destruct (probe_report_unfinished_log s0 oh0 Ho0 Hf0) as (l & E & F).
      exists l. destruct (progress_only_console l F) as [H1 H2].
      now repeat split.
Qed.

Lemma still_run :
  ResonanceZProbe.babystep_probe 3 (connected still_feed) = Some still_run_end.
Proof. vm_compute. reflexivity. Qed.

Lemma unfinished_run_writes_progress_only_witness :
  let o := still_run_end in
  let oh := OffsetHelper.mk (1.0000, false) 0.01 None None false true in
  ResonanceZProbe.babystep_probe 3 (connected still_feed) = Some o
  /\ ResonanceZProbe.offset_helper (snd (state_of o)) = Some oh
  /\ OffsetHelper.finished oh = false
  /\ exists l,
       Printer.log (fst (state_of o))
       = Printer.log (fst (connected still_feed)) ++ l
       /\ Forall quiet_or_progress l
       /\ existsb is_result (Printer.console l) = false
       /\ reports_safety_limit (Printer.console l) = false.
Proof.
  intros o oh.
  assert (H1 : ResonanceZProbe.babystep_probe 3 (connected still_feed) = Some o)
    by (vm_compute; reflexivity).
  assert (H2 : ResonanceZProbe.offset_helper (snd (state_of o)) = Some oh)
    by reflexivity.
  assert (H3 : OffsetHelper.finished oh = false) by reflexivity.
  split; [exact H1 | split; [exact H2 | split; [exact H3|]]].
  exact (proj1 (unfinished_run_writes_progress_only 3 _ o oh H1 H2 H3)).
Defined.

(** C8, as stated, fails: with one still sample per test, the run from
    1.01 tests two heights, reaches 0.99 below the safe minimum 1 with
    the helper unfinished, and ends normally; its console holds no report
    of the safety limit. *)
Lemma safety_limit_is_not_reported :
  exists s' oh z,
    ResonanceZProbe.babystep_probe 3 (connected still_feed) = Some (Ok tt s')
    /\ ResonanceZProbe.offset_helper (snd s') = Some oh
    /\ OffsetHelper.finished oh = false
    /\ ZVibrationHelper.cur_z (ResonanceZProbe.vibration_helper (snd s'))
       = Some z
    /\ z < ResonanceZProbe.safe_min_z (snd s')
    /\ List.length (Printer.console (Printer.log (fst s'))) = 4%nat
    /\ reports_safety_limit (Printer.console (Printer.log (fst s'))) = false.
Proof.
  exists (state_of still_run_end). eexists. eexists.
  split; [exact still_run|].
  split; [reflexivity|]. split; [reflexivity|]. split; [reflexivity|].
  split; [reflexivity|]. split; reflexivity.
Qed.

End RunFacts.

(** ** The step search over whole call sequences *)

Module OffsetHelperSequences.

Import OffsetHelper Scenario Notions OffsetHelperFacts.

(** A query leaves the helper as it was, or writes the last tested
    height as the offset, with or without setting [finished]. *)
Lemma next_position_state s :
  state_of (next_position s) = s
  \/ exists pos,
       last_tested_pos s = (pos, true)
       /\ (state_of (next_position s) = set_current_offset (Some pos) s
           \/ state_of (next_position s)
              = set_finished true (set_current_offset (Some pos) s)).
Proof.
  unfold next_position, le_precision.
  destruct (finished s); [now left|].
  destruct (started s); cbn [negb]; [|now left].
  destruct (last_tested_pos s) as [pos [|]]; [|now left].
  right. exists pos. split; [reflexivity|].
  cbn. destruct (min_precision s) as [mp|]; cbn; [|now left].
  destruct (Qle_bool (step s) mp); cbn; [now right | now left].
Qed.

Lemma next_position_last_tested_pos s :
  last_tested_pos (state_of (next_position s)) = last_tested_pos s.
Proof.
  destruct (next_position_state s) as [->|(pos & _ & [->| ->])]; reflexivity.
Qed.

Lemma next_position_started s :
  started (state_of (next_position s)) = started s.
Proof.
  destruct (next_position_state s) as [->|(pos & _ & [->| ->])]; reflexivity.
Qed.

(** Where a query can have taken the offset from. *)
Lemma next_position_current_offset s h :
  current_offset (state_of (next_position s)) = Some h ->
  current_offset s = Some h \/ last_tested_pos s = (h, true).
Proof.
  destruct (next_position_state s) as [->|(pos & E & [->| ->])];
    [now left | |]; cbn; intros H; inversion H; subst; now right.
Qed.

(** X1: after any sequence of queries and reports, the step is the
    initial step halved once for each positive outcome reported, and
    for nothing else. *)
Theorem step_after_calls cs : forall s,
  step (run cs s) = halve_times (positives cs) (step s).
Proof.
  induction cs as [|c cs IH]; intros s; [reflexivity|].
  cbn [run]. rewrite IH. unfold positives. cbn [filter].
  destruct c as [|p [|]]; cbn [exec state_of is_positive_report].
  - now rewrite next_position_step.
  - reflexivity.
  - reflexivity.
Qed.

Lemma run_offset_origin cs : forall s h,
  current_offset (run cs s) = Some h ->
  current_offset s = Some h
  \/ last_tested_pos s = (h, true)
  \/ In (LastTestedPosition h true) cs.
Proof.
  induction cs as [|c cs IH]; intros s h H; cbn [run] in H; [now left|].
  destruct (IH _ _ H) as [H1|[H1|H1]].
  - destruct c as [|p b]; cbn [exec state_of] in H1.
    + destruct (next_position_current_offset s h H1); auto.
    + rewrite last_tested_position_current_offset in H1. auto.
  - destruct c as [|p b]; cbn [exec state_of] in H1.
    + rewrite next_position_last_tested_pos in H1. auto.
    + rewrite last_tested_position_pos in H1. inversion H1; subst.
      right. right. now left.
  - right. right. now right.
Qed.

(** [finished] is only ever set together with an offset. *)
Lemma run_unfinished_without_offset cs : forall s,
  finished s = false -> current_offset (run cs s) = None ->
  finished (run cs s) = false.
Proof.
  induction cs as [|c cs IH]; intros s Hf Hn; cbn [run] in *; [exact Hf|].
  apply IH; [|exact Hn].
  destruct c as [|p b]; cbn [exec state_of].
  - destruct (finished (state_of (next_position s))) eqn:E; [|reflexivity].
    exfalso.
    assert (Ho : exists h, current_offset (state_of (next_position s)) = Some h).
    { destruct (next_position_state s) as [H|(q & _ & [H|H])];
        rewrite H in *; [congruence | now exists q | now exists q]. }
    destruct Ho as [h Ho].
    destruct (run_finished cs _ E) as [_ Hc]. cbn [exec state_of] in Hn.
    rewrite Ho in Hc. congruence.
  - now rewrite last_tested_position_finished.
Qed.

(** X2: whatever calls a new helper has served, the offset it holds is a
    height for which a positive outcome was reported; a helper that has
    been told of no detection holds no offset and is not finished. *)
Theorem offset_is_a_detected_height pos st mp cs :
  (forall h,
     current_offset (run cs (__init__ pos st mp)) = Some h ->
     In (LastTestedPosition h true) cs)
  /\ (positives cs = 0%nat ->
      current_offset (run cs (__init__ pos st mp)) = None
      /\ finished (run cs (__init__ pos st mp)) = false).
Proof.
  assert (Horigin : forall h,
            current_offset (run cs (__init__ pos st mp)) = Some h ->
            In (LastTestedPosition h true) cs).
  { intros h H. destruct (run_offset_origin cs _ h H) as [H1|[H1|H1]];
      [discriminate H1 | discriminate H1 | exact H1]. }
  split; [exact Horigin|].
  intros Hz.
  assert (Hnone : current_offset (run cs (__init__ pos st mp)) = None).
  { destruct (current_offset (run cs (__init__ pos st mp))) as [h|] eqn:E;
      [|reflexivity].
    specialize (Horigin h eq_refl). exfalso. unfold positives in Hz.
    assert (Hin : In (LastTestedPosition h true) (filter is_positive_report cs))
      by (apply filter_In; split; [exact Horigin | reflexivity]).
    destruct (filter is_positive_report cs); [contradiction | discriminate]. }
  split; [exact Hnone|].
  now apply run_unfinished_without_offset.
Qed.

Lemma halve_times_bounds k : forall q,
  0 < q -> 0 < halve_times k q /\ halve_times k q <= q.
Proof.
  induction k as [|k IH]; intros q Hq; cbn [halve_times].
  - split; [exact Hq | apply Qle_refl].
  - destruct (half_lt q Hq) as [H1 H2]. destruct (IH _ H1) as [H3 H4].
    split; [exact H3|]. eapply Qle_trans; [exact H4|]. now apply Qlt_le_weak.
Qed.

(** X3: an unfinished helper with a numeric precision and a positive
    step, driven as the probing loop drives it (report, then query), is
    finished after a sequence of outcomes exactly when that sequence
    holds at least one detection and the step halved once per detection
    is within the precision. *)
Theorem finished_exactly_when_halved_step_fits outcomes : forall s mp,
  finished s = false -> min_precision s = Some mp -> 0 < step s ->
  (finished (run (protocol outcomes) s) = true
   <-> (1 <= detections outcomes)%nat
       /\ halve_times (detections outcomes) (step s) <= mp).
Proof.
  induction outcomes as [|[h d] rest IH]; intros s mp Hf Hm Hpos.
  - cbn. rewrite Hf. split; [discriminate | intros [H _]; lia].
  - cbn [protocol flat_map app fst snd run exec state_of].
    fold (protocol rest). unfold detections. cbn [filter snd].
    destruct d; cbn [List.length].
    + (* a detection: the step is halved, then compared *)
      set (s1 := last_tested_position h true s).
      assert (Hs1 : searching s1).
      { split; [apply last_tested_position_started|].
        unfold s1. now rewrite last_tested_position_finished. }
      assert (Hm1 : min_precision s1 = Some mp).
      { unfold s1. now rewrite last_tested_position_min_precision. }
      assert (Hst : step s1 = step s / 2.0) by reflexivity.
      rewrite (next_position_positive s1 h mp Hs1
                 (last_tested_position_pos h true s) Hm1).
      cbn [state_of halve_times]. fold (detections rest).
      destruct (half_lt (step s) Hpos) as [Hhalf _].
      destruct (Qle_bool (step s1) mp) eqn:Hle.
      * apply Qle_bool_iff in Hle.
        destruct (run_finished (protocol rest)
                    (set_finished true (set_current_offset (Some h) s1))
                    eq_refl) as [Hfin _].
        rewrite Hfin. split; [|reflexivity]. intros _. split; [lia|].
        destruct (halve_times_bounds (detections rest) _ Hhalf) as [_ Hb].
        eapply Qle_trans; [exact Hb|]. now rewrite <- Hst.
      * assert (Hnle : ~ step s / 2.0 <= mp).
        { intros H. rewrite <- Hst in H. apply Qle_bool_iff in H. congruence. }
        rewrite (IH (set_current_offset (Some h) s1) mp);
          [|destruct Hs1; assumption | exact Hm1 | exact Hhalf].
        change (step (set_current_offset (Some h) s1)) with (step s / 2.0).
        split; intros [H1 H2]; (split; [|exact H2]); [lia|].
        destruct (detections rest); [|lia].
        cbn [halve_times] in H2. contradiction.
    + (* no detection: the helper only remembers the height *)
      set (s1 := last_tested_position h false s).
      assert (Hs1 : searching s1).
      { split; [apply last_tested_position_started|].
        unfold s1. now rewrite last_tested_position_finished. }
      rewrite (next_position_negative s1 h Hs1
                 (last_tested_position_pos h false s)).
      cbn [state_of]. fold (detections rest).
      apply (IH s1 mp); [destruct Hs1; assumption | | exact Hpos].
      unfold s1. now rewrite last_tested_position_min_precision.
Qed.

Lemma finished_exactly_when_halved_step_fits_witness :
  let s := __init__ 1.0 0.01 (Some 0.005) in
  let outcomes := [(1.0, false); (0.99, true)] in
  finished s = false /\ min_precision s = Some 0.005 /\ 0 < step s /\
  (finished (run (protocol outcomes) s) = true
   <-> (1 <= detections outcomes)%nat
       /\ halve_times (detections outcomes) (step s) <= 0.005).
Proof.
  intros s outcomes.
  assert (H1 : finished s = false) by reflexivity.
  assert (H2 : min_precision s = Some 0.005) by reflexivity.
  assert (H3 : 0 < step s) by reflexivity.
  split; [exact H1 | split; [exact H2 | split; [exact H3|]]].
  exact (finished_exactly_when_halved_step_fits outcomes s 0.005 H1 H2 H3).
Defined.

Lemma offset_is_a_detected_height_witness :
  let cs := [LastTestedPosition 0.99 true; NextPosition] in
  current_offset (run cs (__init__ 1.0 0.01 (Some 0.005))) = Some 0.99 /\
  In (LastTestedPosition 0.99 true) cs.
Proof.
  intros cs.
  assert (H : current_offset (run cs (__init__ 1.0 0.01 (Some 0.005)))
              = Some 0.99) by reflexivity.
  split; [exact H|].
  exact (proj1 (offset_is_a_detected_height 1.0 0.01 (Some 0.005) cs) 0.99 H).
Defined.

End OffsetHelperSequences.

(** ** Centring and the rate *)

Module SignalFacts.

Import Scenario Notions Behaviour TestFacts.

Lemma insert_length v l : List.length (np.insert v l) = S (List.length l).
Proof.
  induction l as [|w l IH]; cbn [np.insert]; [reflexivity|].
  destruct (Qle_bool v w); cbn [List.length]; congruence.
Qed.

Lemma sort_length l : List.length (np.sort l) = List.length l.
Proof.
  induction l as [|v l IH]; [reflexivity|].
  cbn [np.sort fold_right]. fold (np.sort l).
  now rewrite insert_length, IH.
Qed.

Lemma median_None a : np.median a = None <-> a = [].
Proof.
  unfold np.median. rewrite sort_length. destruct a as [|v a]; cbn [List.length].
  - split; reflexivity.
  - split; [|discriminate]. destruct (Nat.even _); discriminate.
Qed.

Lemma Qle_bool_shift m v w : Qle_bool (v - m) (w - m) = Qle_bool v w.
Proof.
  destruct (Qle_bool v w) eqn:E.
  - apply Qle_bool_iff. apply Qle_bool_iff in E. lra.
  - destruct (Qle_bool (v - m) (w - m)) eqn:E'; [|reflexivity].
    apply Qle_bool_iff in E'. assert (H : v <= w) by lra.
    apply Qle_bool_iff in H. congruence.
Qed.

Lemma insert_shift m v l :
  np.insert (v - m) (map (fun x => x - m) l)
  = map (fun x => x - m) (np.insert v l).
Proof.
  induction l as [|w l IH]; cbn [np.insert map]; [reflexivity|].
  rewrite Qle_bool_shift. destruct (Qle_bool v w); cbn [map]; [reflexivity|].
  now rewrite IH.
Qed.

Lemma sort_shift m l :
  np.sort (map (fun x => x - m) l) = map (fun x => x - m) (np.sort l).
Proof.
  induction l as [|v l IH]; [reflexivity|].
  cbn [map np.sort fold_right]. fold (np.sort (map (fun x => x - m) l)).
  fold (np.sort l). now rewrite IH, insert_shift.
Qed.

Lemma nth_shift m l i :
  (i < List.length l)%nat ->
  nth i (map (fun x => x - m) l) 0 = nth i l 0 - m.
Proof.
  intros H. rewrite (nth_indep _ 0 (0 - m)) by now rewrite length_map.
  apply (map_nth (fun x => x - m)).
Qed.

(** Shifting every value by [m] shifts the median by [m]. *)
Lemma median_shift m a c :
  np.median a = Some c ->
  exists c', np.median (map (fun x => x - m) a) = Some c' /\ c' == c - m.
Proof.
  unfold np.median. rewrite sort_shift, length_map.
  set (s := np.sort a). set (n := List.length s).
  destruct n as [|n'] eqn:En; [discriminate|].
  assert (Hhalf : (S n' / 2 < List.length s)%nat).
  { fold n. rewrite En. apply Nat.div_lt; lia. }
  assert (Hprev : (S n' / 2 - 1 < List.length s)%nat) by lia.
  rewrite !nth_shift by assumption.
  set (lo := nth (S n' / 2 - 1) s 0). set (hi := nth (S n' / 2) s 0).
  destruct (Nat.even (S n')); intros E; injection E as <-.
  - eexists. split; [reflexivity|]. field.
  - eexists. split; [reflexivity|]. reflexivity.
Qed.

Lemma sub_median_length a :
  List.length (np.sub_median a) = List.length a.
Proof.
  unfold np.sub_median. destruct (np.median a) as [m|] eqn:E.
  - apply length_map.
  - apply median_None in E. now subst a.
Qed.

(** X4: the centring of [_test] ([a - np.median(a)]) keeps the length of
    the series; a series with samples gets the median 0, and the empty
    series stays empty. *)
Theorem centred_series_has_median_zero a :
  List.length (np.sub_median a) = List.length a
  /\ (a <> [] ->
      exists c, np.median (np.sub_median a) = Some c /\ c == 0)
  /\ (a = [] -> np.sub_median a = []).
Proof.
  unfold np.sub_median. destruct (np.median a) as [m|] eqn:E.
  - split; [apply length_map|]. split; [|intros ->; reflexivity].
    intros _. destruct (median_shift m a m E) as (c' & H1 & H2).
    exists c'. split; [exact H1|]. rewrite H2. ring.
  - apply median_None in E. subst a. repeat split. intros H. now elim H.
Qed.

Lemma console_app l1 l2 :
  Printer.console (l1 ++ l2) = Printer.console l1 ++ Printer.console l2.
Proof.
  induction l1 as [|[] l1 IH]; cbn; congruence.
Qed.

Lemma count_outside_bounds thr z :
  (0 <= np.count_outside thr z <= Z.of_nat (List.length z))%Z.
Proof.
  unfold np.count_outside. split; [lia|].
  apply Nat2Z.inj_le. apply filter_length_le.
Qed.

Lemma rate_above_bounds thr samples :
  0 <= rate_above thr samples /\ rate_above thr samples <= 1.
Proof.
  unfold rate_above. cbv zeta.
  destruct (Z.of_nat (List.length samples) =? 0)%Z eqn:E; [split; discriminate|].
  apply Z.eqb_neq in E.
  set (z := np.sub_median _).
  assert (Hlen : List.length z = List.length samples).
  { unfold z. now rewrite sub_median_length, length_map. }
  destruct (count_outside_bounds thr z) as [H0 H1]. rewrite Hlen in H1.
  assert (Hpos : 0 < inject_Z (Z.of_nat (List.length samples))).
  { rewrite <- (Zlt_Qlt 0). lia. }
  split.
  - apply Qle_shift_div_l; [exact Hpos|]. rewrite Qmult_0_l.
    rewrite <- (Zle_Qle 0). exact H0.
  - apply Qle_shift_div_r; [exact Hpos|]. rewrite Qmult_1_l.
    rewrite <- Zle_Qle. exact H1.
Qed.

Lemma guarded_rate_value {S} (count len : Z) (s : S) :
  try_except (truediv count len) ZeroDivisionError (ret 0) s
  = Ok (if (len =? 0)%Z then 0 else inject_Z count / inject_Z len) s.
Proof.
  unfold try_except, truediv. now destruct (len =? 0)%Z.
Qed.

(** What one test returns, leaves behind and uses up. *)
Lemma test_outcome z pr p chip :
  ResonanceZProbe.accel_chips p = Some chip ->
  ZVibrationHelper.ready (ResonanceZProbe.vibration_helper p) = true ->
  let samples := Printer.accel_feed pr (Printer.clients pr) in
  let rate := rate_above (ResonanceZProbe.amp_threshold p) samples in
  exists pr',
    ResonanceZProbe._test z (pr, p)
    = Ok rate
        (pr',
         if ResonanceZProbe.debug p
         then ResonanceZProbe.set_data_points
                (ResonanceZProbe.data_points p ++ [test_point samples z]) p
         else p)
    /\ Printer.clients pr' = S (Printer.clients pr)
    /\ Printer.accel_feed pr' = Printer.accel_feed pr
    /\ Printer.console (Printer.log pr')
       = Printer.console (Printer.log pr)
         ++ (if ResonanceZProbe.debug p
             then [Printer.Msg fmt_testing
                     [Printer.AFloat z;
                      Printer.AInt (Z.of_nat (List.length samples));
                      Printer.AFloat
                        (if (0 <? List.length samples)%nat
                         then ResonanceZProbe.last
                                (map (fun s => match s with (t, _, _, _) => t end)
                                     samples)
                              - hd 0 (map (fun s => match s with (t, _, _, _) => t end)
                                          samples)
                         else 0);
                      Printer.AFloat (100 * rate)]]
             else []).
Proof.
  intros Hc Hr samples rate. unfold ResonanceZProbe._test.
  unfold bind at 1. cbn [ResonanceZProbe.self snd].
  unfold bind at 1. rewrite Hc. cbn [getattr ret].
  unfold bind at 1.
  cbn [ResonanceZProbe.printer zoom Printer.start_internal_client fst snd].
  unfold bind at 1.
  rewrite (while_le_times _ _ _ 0%Z eq_refl).
  rewrite (times_vibrate_ready _ _ _ Hr).
  set (k := Z.to_nat (ResonanceZProbe.cycle_per_test p + 1 - 0)).
  set (pr1 := Printer.mk _ _ _ _ _).
  destruct (after_cycles_moves k (ResonanceZProbe.vibration_helper p) pr1 Hr)
    as (_ & Hcons & Hfeed & Hclients).
  unfold bind at 1.
  cbn [ResonanceZProbe.printer zoom Printer.finish_measurements modify fst snd].
  unfold bind at 1.
  cbn [ResonanceZProbe.printer zoom Printer.get_samples fst snd
       Printer.emit Printer.accel_feed].
  rewrite Hfeed. cbn [pr1 Printer.accel_feed]. fold samples.
  unfold bind at 1. cbv beta zeta.
  rewrite (guarded_rate_value (S:=ResonanceZProbe.state)).
  rewrite !length_map.
  fold (rate_above (ResonanceZProbe.amp_threshold p) samples).
  fold rate.
  cbv beta. unfold bind, ret, ResonanceZProbe.printer, zoom,
    Printer.respond_info, ResonanceZProbe.self, ResonanceZProbe.assign, modify.
  cbn [fst snd].
  assert (Hc1 : Printer.console (Printer.log pr1)
                = Printer.console (Printer.log pr)).
  { unfold pr1. cbn [Printer.log]. rewrite console_app. cbn.
    apply app_nil_r. }
  destruct (ResonanceZProbe.debug p); cbn [fst snd]; eexists;
    (split; [reflexivity|]);
    cbn [Printer.emit Printer.clients Printer.accel_feed Printer.log];
    rewrite Hfeed, Hclients, !console_app, Hcons, Hc1;
    (split; [reflexivity|]); (split; [reflexivity|]); cbn;
    rewrite ?app_nil_r; reflexivity.
Qed.

(** X5: on a connected probe whose vibration variables are assigned, one
    test returns the share of median-centred z samples of its recording
    that lie outside the amplitude threshold (0 for an empty recording),
    a number between 0 and 1 that depends neither on the height nor on
    the time, x or y columns; the test uses up exactly one accelerometer
    client and, with [debug] set, appends exactly one record, stamped
    with the tested height, to [data_points]. *)
Theorem test_returns_rate_and_records z pr p chip :
  ResonanceZProbe.accel_chips p = Some chip ->
  ZVibrationHelper.ready (ResonanceZProbe.vibration_helper p) = true ->
  let samples := Printer.accel_feed pr (Printer.clients pr) in
  let rate := rate_above (ResonanceZProbe.amp_threshold p) samples in
  exists pr',
    ResonanceZProbe._test z (pr, p)
    = Ok rate
        (pr',
         if ResonanceZProbe.debug p
         then ResonanceZProbe.set_data_points
                (ResonanceZProbe.data_points p ++ [test_point samples z]) p
         else p)
    /\ 0 <= rate /\ rate <= 1
    /\ Printer.clients pr' = S (Printer.clients pr)
    /\ Printer.accel_feed pr' = Printer.accel_feed pr.
Proof.
  intros Hc Hr samples rate.
  destruct (test_outcome z pr p chip Hc Hr) as (pr' & E & Hcl & Hfeed & _).
  destruct (rate_above_bounds (ResonanceZProbe.amp_threshold p) samples)
    as [Hlo Hhi].
  exists pr'. split; [exact E|].
  split; [exact Hlo|]. split; [exact Hhi|]. split; [exact Hcl | exact Hfeed].
Qed.

Lemma test_returns_rate_and_records_witness :
  let s := set_up tapping_feed in
  ResonanceZProbe.accel_chips (snd s) = Some ("z"%string, "adxl345"%string) /\
  ZVibrationHelper.ready (ResonanceZProbe.vibration_helper (snd s)) = true /\
  exists pr',
    ResonanceZProbe._test 1.01 (fst s, snd s)
    = Ok (rate_above 700.0 (tapping_feed 0%nat))
        (pr',
         ResonanceZProbe.set_data_points [test_point (tapping_feed 0%nat) 1.01]
           (snd s))
    /\ 0 <= rate_above 700.0 (tapping_feed 0%nat)
    /\ rate_above 700.0 (tapping_feed 0%nat) <= 1
    /\ Printer.clients pr' = 1%nat
    /\ Printer.accel_feed pr' = tapping_feed.
Proof.
  intros s.
  assert (H1 : ResonanceZProbe.accel_chips (snd s)
               = Some ("z"%string, "adxl345"%string)) by reflexivity.
  assert (H2 : ZVibrationHelper.ready
                 (ResonanceZProbe.vibration_helper (snd s)) = true)
    by (vm_compute; reflexivity).
  split; [exact H1 | split; [exact H2|]].
  exact (test_returns_rate_and_records 1.01 (fst s) (snd s) _ H1 H2).
Defined.

(** The rate of the tapping feed: one sample in three. *)
Example tapping_rate : rate_above 700.0 (tapping_feed 0%nat) == 1 # 3.
Proof. reflexivity. Qed.

Lemma centred_series_has_median_zero_witness :
  let a : list Q := [3; 1; 2] in
  a <> [] /\ exists c, np.median (np.sub_median a) = Some c /\ c == 0.
Proof.
  intros a.
  assert (H : a <> []) by discriminate.
  split; [exact H|].
  exact (proj1 (proj2 (centred_series_has_median_zero a)) H).
Defined.

End SignalFacts.

(** ** The vibration helper *)

Module VibrationFacts.

Import Scenario Notions Behaviour TestFacts.

(** The two outcomes of [_set_vibration_variables]. *)
Lemma set_vibration_variables_spec pr h :
  (frequency_is_zero h = true ->
   ZVibrationHelper._set_vibration_variables (pr, h)
   = Raise ZeroDivisionError (pr, h))
  /\ (frequency_is_zero h = false ->
      exists h',
        ZVibrationHelper._set_vibration_variables (pr, h)
        = Ok tt
            (Printer.emit
               (Printer.EvM204
                  (ZVibrationHelper.accel_per_hz h * ZVibrationHelper.frequency h))
               pr, h')
        /\ ZVibrationHelper.ready h' = true
        /\ holds (ZVibrationHelper.max_v h') (ZVibrationHelper.accel_per_hz h / 4)
        /\ holds (ZVibrationHelper.movement_span h')
             (ZVibrationHelper.accel_per_hz h
              / (32 * ZVibrationHelper.frequency h))
        /\ (ZVibrationHelper.cur_x h', ZVibrationHelper.cur_y h',
            ZVibrationHelper.cur_z h', ZVibrationHelper.cur_e h')
           = (let '(x, y, z, e) := Printer.position pr in
              (Some x, Some y, Some z, Some e))
        /\ ZVibrationHelper.frequency h' = ZVibrationHelper.frequency h
        /\ ZVibrationHelper.accel_per_hz h' = ZVibrationHelper.accel_per_hz h
        /\ ZVibrationHelper._vib_dir h' = ZVibrationHelper._vib_dir h
        /\ (ZVibrationHelper._vib_dir h
            = ZVibrationHelper._vib_dir (ZVibrationHelper.__init__ 0 0) ->
            holds (ZVibrationHelper.dX h') 0
            /\ holds (ZVibrationHelper.dY h') 0
            /\ holds (ZVibrationHelper.dZ h')
                 (ZVibrationHelper.accel_per_hz h
                  / (32 * ZVibrationHelper.frequency h)))).
Proof.
  unfold frequency_is_zero, ZVibrationHelper._set_vibration_variables.
  destruct h as [f a [[vx vy] vz] mv cx cy cz ce ms dx dy dz].
  destruct (Printer.position pr) as [[[x y] z] e] eqn:Ep.
  unfold bind, ret, fdiv, raise, ZVibrationHelper.assign,
    ZVibrationHelper.toolhead, zoom, ZVibrationHelper.self,
    Printer.get_position, Printer.cmd_M204, modify.
  cbn [fst snd ZVibrationHelper.frequency ZVibrationHelper.accel_per_hz].
  destruct (Qeq_bool f 0) eqn:Ef;
    (split; [intros E; try discriminate E; try reflexivity|]);
    intros E; try discriminate E.
  assert (Hf : ~ f == 0).
  { intros H. apply Qeq_bool_iff in H. congruence. }
  cbn. rewrite ?Ep. cbn.
  eexists. split; [reflexivity|]. cbn. rewrite ?Ep.
  split; [reflexivity|].
  split; [field; exact Hf|].
  split; [field; exact Hf|].
  split; [reflexivity|].
  split; [reflexivity|]. split; [reflexivity|]. split; [reflexivity|].
  intros Hv. inversion Hv; subst.
  split; [field; exact Hf|]. split; field; exact Hf.
Qed.


(** X6: [_set_vibration_variables] divides by the frequency before it
    touches anything, so a zero frequency raises [ZeroDivisionError] with
    helper and printer untouched; for any other frequency it succeeds,
    issues exactly one M204 with [accel_per_hz * frequency], takes the
    toolhead position as the centre, and sets [max_v] to
    [accel_per_hz / 4] whatever the frequency and [movement_span] to
    [accel_per_hz / (32 * frequency)], which for the vertical direction
    the constructor fixes is also [dZ], with [dX = dY = 0]. *)
Theorem set_vibration_variables_values pr h :
  (frequency_is_zero h = true ->
   ZVibrationHelper._set_vibration_variables (pr, h)
   = Raise ZeroDivisionError (pr, h))
  /\ (frequency_is_zero h = false ->
      exists h',
        ZVibrationHelper._set_vibration_variables (pr, h)
        = Ok tt
            (Printer.emit
               (Printer.EvM204
                  (ZVibrationHelper.accel_per_hz h * ZVibrationHelper.frequency h))
               pr, h')
        /\ ZVibrationHelper.ready h' = true
        /\ holds (ZVibrationHelper.max_v h') (ZVibrationHelper.accel_per_hz h / 4)
        /\ holds (ZVibrationHelper.movement_span h')
             (ZVibrationHelper.accel_per_hz h
              / (32 * ZVibrationHelper.frequency h))
        /\ (ZVibrationHelper.cur_x h', ZVibrationHelper.cur_y h',
            ZVibrationHelper.cur_z h', ZVibrationHelper.cur_e h')
           = (let '(x, y, z, e) := Printer.position pr in
              (Some x, Some y, Some z, Some e))
        /\ ZVibrationHelper.frequency h' = ZVibrationHelper.frequency h
        /\ ZVibrationHelper.accel_per_hz h' = ZVibrationHelper.accel_per_hz h
        /\ ZVibrationHelper._vib_dir h' = ZVibrationHelper._vib_dir h
        /\ (ZVibrationHelper._vib_dir h
            = ZVibrationHelper._vib_dir (ZVibrationHelper.__init__ 0 0) ->
            holds (ZVibrationHelper.dX h') 0
            /\ holds (ZVibrationHelper.dY h') 0
            /\ holds (ZVibrationHelper.dZ h')
                 (ZVibrationHelper.accel_per_hz h
                  / (32 * ZVibrationHelper.frequency h)))).
Proof.
  destruct (set_vibration_variables_spec pr h) as [Hzero Hset].
  split; [exact Hzero|]. intros Hf.
  destruct (Hset Hf) as (h' & E & Hrest). exists h'. split; assumption.
Qed.

Lemma set_vibration_variables_values_witness :
  let h := ZVibrationHelper.__init__ 80 1.5 in
  frequency_is_zero h = false /\
  exists h',
    ZVibrationHelper._set_vibration_variables (printer_with still_feed, h)
    = Ok tt (Printer.emit (Printer.EvM204 (1.5 * 80)) (printer_with still_feed),
             h')
    /\ ZVibrationHelper.ready h' = true
    /\ holds (ZVibrationHelper.max_v h') (1.5 / 4).
Proof.
  intros h. assert (H : frequency_is_zero h = false) by reflexivity.
  split; [exact H|].
  destruct (proj2 (set_vibration_variables_values (printer_with still_feed) h) H)
    as (h' & E1 & E2 & E3 & _).
  exists h'. split; [exact E1 | split; [exact E2 | exact E3]].
Defined.

Lemma not_ready_raises pr h :
  ZVibrationHelper.ready h = false ->
  ZVibrationHelper._vibrate_ (pr, h) = Raise AttributeError (pr, h).
Proof.
  unfold ZVibrationHelper.ready, ZVibrationHelper._vibrate_.
  destruct h as [f a vd mv cx cy cz ce ms dx dy dz]; cbn.
  destruct cx; [|reflexivity]. destruct dx; [|reflexivity].
  destruct cy; [|reflexivity]. destruct dy; [|reflexivity].
  destruct cz; [|reflexivity]. destruct dz; [|reflexivity].
  destruct ce; [|reflexivity]. destruct mv; [discriminate | reflexivity].
Qed.

(** X7: one [_vibrate_] call on a helper whose variables are assigned
    makes exactly four moves at [max_v] (centre plus the span, centre,
    centre minus the span, centre), leaves the toolhead at the centre and
    the helper untouched; on a helper that misses one of them it raises
    [AttributeError] before any move is made. *)
Theorem vibrate_returns_to_centre pr h :
  (ZVibrationHelper.ready h = true ->
   exists pr',
     ZVibrationHelper._vibrate_ (pr, h) = Ok tt (pr', h)
     /\ Printer.log pr' = Printer.log pr ++ cycle_moves h
     /\ List.length (cycle_moves h) = 4%nat
     /\ Printer.count_moves (cycle_moves h) = 4%nat
     /\ (Some (fst (fst (fst (Printer.position pr')))),
         Some (snd (fst (fst (Printer.position pr')))),
         Some (snd (fst (Printer.position pr'))),
         Some (snd (Printer.position pr')))
        = (ZVibrationHelper.cur_x h, ZVibrationHelper.cur_y h,
           ZVibrationHelper.cur_z h, ZVibrationHelper.cur_e h))
  /\ (ZVibrationHelper.ready h = false ->
      ZVibrationHelper._vibrate_ (pr, h) = Raise AttributeError (pr, h)).
Proof.
  split; [|apply not_ready_raises].
  intros Hr. rewrite (vibrate_ready pr h Hr). eexists. split; [reflexivity|].
  revert Hr. unfold ZVibrationHelper.ready, after_cycle, cycle_moves.
  destruct h as [f a vd mv cx cy cz ce ms dx dy dz]; cbn.
  destruct mv, cx, cy, cz, ce, dx, dy, dz; try discriminate. intros _.
  cbn. repeat split.
Qed.

Lemma vibrate_returns_to_centre_witness :
  let s := set_up still_feed in
  let h := ResonanceZProbe.vibration_helper (snd s) in
  ZVibrationHelper.ready h = true /\
  exists pr',
    ZVibrationHelper._vibrate_ (fst s, h) = Ok tt (pr', h)
    /\ Printer.log pr' = Printer.log (fst s) ++ cycle_moves h.
Proof.
  intros s h.
  assert (H : ZVibrationHelper.ready h = true) by (vm_compute; reflexivity).
  split; [exact H|].
  destruct (proj1 (vibrate_returns_to_centre (fst s) h) H)
    as (pr' & E1 & E2 & _).
  exists pr'. split; [exact E1 | exact E2].
Defined.

Lemma times_vibrate k : forall pr h,
  ZVibrationHelper.ready h = true ->
  times k ZVibrationHelper._vibrate_ (pr, h) = Ok tt (after_cycles k h pr, h).
Proof.
  induction k as [|k IH]; intros pr h H; cbn [times after_cycles].
  - reflexivity.
  - unfold bind. rewrite (vibrate_ready _ _ H). now apply IH.
Qed.

Lemma after_cycle_position h pr :
  ZVibrationHelper.ready h = true ->
  (ZVibrationHelper.cur_x h, ZVibrationHelper.cur_y h,
   ZVibrationHelper.cur_z h, ZVibrationHelper.cur_e h)
  = (let '(x, y, z, e) := Printer.position pr in
     (Some x, Some y, Some z, Some e)) ->
  Printer.position (after_cycle h pr) = Printer.position pr.
Proof.
  unfold ZVibrationHelper.ready, after_cycle.
  destruct h as [f a vd mv cx cy cz ce ms dx dy dz]; cbn.
  destruct (Printer.position pr) as [[[x y] z] e].
  destruct mv, cx, cy, cz, ce, dx, dy, dz; try discriminate. intros _ E.
  now inversion E.
Qed.

Lemma after_cycles_position k h : forall pr,
  ZVibrationHelper.ready h = true ->
  (ZVibrationHelper.cur_x h, ZVibrationHelper.cur_y h,
   ZVibrationHelper.cur_z h, ZVibrationHelper.cur_e h)
  = (let '(x, y, z, e) := Printer.position pr in
     (Some x, Some y, Some z, Some e)) ->
  Printer.position (after_cycles k h pr) = Printer.position pr.
Proof.
  induction k as [|k IH]; intros pr Hr Hc; cbn [after_cycles]; [reflexivity|].
  pose proof (after_cycle_position h pr Hr Hc) as Hp.
  rewrite IH; [exact Hp | exact Hr | now rewrite Hp].
Qed.

(** X8: [vibrate_n(n)] with a non-zero frequency never raises: it issues
    one M204, then [n + 1] vibration cycles (none for a negative [n]),
    that is [4 * (n + 1)] moves, writes nothing to the console, and
    leaves the toolhead at the position where it found it; with a zero
    frequency it raises [ZeroDivisionError] and does nothing. *)
Theorem vibrate_n_moves_and_returns n pr h :
  (frequency_is_zero h = false ->
   exists pr' h',
     ZVibrationHelper.vibrate_n n (pr, h) = Ok tt (pr', h')
     /\ Printer.position pr' = Printer.position pr
     /\ Printer.count_moves (Printer.log pr')
        = (Printer.count_moves (Printer.log pr) + 4 * Z.to_nat (n + 1))%nat
     /\ Printer.console (Printer.log pr') = Printer.console (Printer.log pr)
     /\ ZVibrationHelper.ready h' = true)
  /\ (frequency_is_zero h = true ->
      ZVibrationHelper.vibrate_n n (pr, h) = Raise ZeroDivisionError (pr, h)).
Proof.
  destruct (set_vibration_variables_spec pr h) as [Hzero Hset].
  unfold ZVibrationHelper.vibrate_n, bind. split.
  - intros Hf.
    destruct (Hset Hf) as (h' & E & Hr & _ & _ & Hcur & _). rewrite E.
    rewrite (while_le_times _ n _ 0%Z eq_refl).
    rewrite (times_vibrate _ _ _ Hr).
    set (pr1 := Printer.emit _ pr).
    destruct (after_cycles_moves (Z.to_nat (n + 1 - 0)) h' pr1 Hr)
      as (Hm & Hc & _ & _).
    exists (after_cycles (Z.to_nat (n + 1 - 0)) h' pr1), h'.
    split; [reflexivity|]. split; [|split; [|split; [|exact Hr]]].
    + now rewrite (after_cycles_position _ h' pr1 Hr Hcur).
    + rewrite Hm. unfold pr1. cbn [Printer.emit Printer.log].
      rewrite count_moves_app, Z.sub_0_r. cbn. lia.
    + rewrite Hc. unfold pr1. cbn [Printer.emit Printer.log].
      induction (Printer.log pr) as [|[] l IH]; cbn; congruence.
  - intros Hf. now rewrite (Hzero Hf).
Qed.

Lemma vibrate_n_moves_and_returns_witness :
  let h := ZVibrationHelper.__init__ 80 1.5 in
  let pr := printer_with still_feed in
  frequency_is_zero h = false /\
  exists pr' h',
    ZVibrationHelper.vibrate_n 2 (pr, h) = Ok tt (pr', h')
    /\ Printer.position pr' = Printer.position pr
    /\ Printer.count_moves (Printer.log pr')
       = (Printer.count_moves (Printer.log pr) + 4 * 3)%nat.
Proof.
  intros h pr. assert (H : frequency_is_zero h = false) by reflexivity.
  split; [exact H|].
  destruct (proj1 (vibrate_n_moves_and_returns 2 pr h) H)
    as (pr' & h' & E1 & E2 & E3 & _).
  exists pr', h'. split; [exact E1 | split; [exact E2 | exact E3]].
Defined.

End VibrationFacts.

(** ** Construction from the configuration *)

Module ConfigFacts.

Import Scenario Notions.

Lemma getfloat_cases {S} cfg name d b (s : S) :
  (exists v, Config.getfloat cfg name d b s = Ok v s
             /\ (v = d \/ Config.within b v = true))
  \/ Config.getfloat cfg name d b s = Raise ConfigError s.
Proof.
  unfold Config.getfloat, Config.getfloat_or.
  destruct (Config.lookup name cfg) as [[v|z|str|l]|].
  - destruct (Config.within b v) eqn:E; [left; exists v; auto | now right].
  - destruct (Config.within b (inject_Z z)) eqn:E;
      [left; exists (inject_Z z); auto | now right].
  - now right.
  - now right.
  - left. exists d. auto.
Qed.

Lemma getfloat_none_cases {S} cfg name b (s : S) :
  (exists t, Config.getfloat_none cfg name b s = Ok t s
             /\ forall v, t = Some v -> Config.within b v = true)
  \/ Config.getfloat_none cfg name b s = Raise ConfigError s.
Proof.
  unfold Config.getfloat_none, Config.getfloat_or.
  destruct (Config.lookup name cfg) as [[v|z|str|l]|].
  - destruct (Config.within b v) eqn:E; [left | now right].
    exists (Some v). split; [reflexivity|]. now intros ? [= <-].
  - destruct (Config.within b (inject_Z z)) eqn:E; [left | now right].
    exists (Some (inject_Z z)). split; [reflexivity|]. now intros ? [= <-].
  - now right.
  - now right.
  - left. exists None. split; [reflexivity | discriminate].
Qed.

Lemma getint_cases {S} cfg name d lo hi (s : S) :
  (exists z, Config.getint cfg name d lo hi s = Ok z s
             /\ (z = d \/ (lo <= z <= hi)%Z))
  \/ Config.getint cfg name d lo hi s = Raise ConfigError s.
Proof.
  unfold Config.getint.
  destruct (Config.lookup name cfg) as [[v|z|str|l]|]; try (now right).
  - destruct ((lo <=? z)%Z && (z <=? hi)%Z) eqn:E; [left | now right].
    exists z. split; [reflexivity|]. right. lia.
  - left. exists d. auto.
Qed.

Lemma get_cases {S} cfg name (s : S) :
  (exists v, Config.get cfg name s = Ok v s
             /\ Config.lookup name cfg = Some (Config.VStr v))
  \/ (Config.get cfg name s = Raise ConfigError s
      /\ forall v, Config.lookup name cfg <> Some (Config.VStr v)).
Proof.
  unfold Config.get.
  destruct (Config.lookup name cfg) as [[v|z|str|l]|];
    try (right; split; [reflexivity | discriminate]).
  left. now exists str.
Qed.

Lemma getfloatlist3_cases {S} cfg name (s : S) :
  (exists x y z, Config.getfloatlist3 cfg name s = Ok (x, y, z) s
                 /\ Config.lookup name cfg = Some (Config.VFloatList [x; y; z]))
  \/ (Config.getfloatlist3 cfg name s = Raise ConfigError s
      /\ forall x y z,
           Config.lookup name cfg <> Some (Config.VFloatList [x; y; z])).
Proof.
  unfold Config.getfloatlist3.
  destruct (Config.lookup name cfg) as [[v|z|str|l]|];
    try (right; split; [reflexivity | discriminate]).
  destruct l as [|x [|y [|z [|w l]]]];
    try (right; split; [reflexivity | discriminate]).
  left. now exists x, y, z.
Qed.

Ltac getter H :=
  unfold bind at 1;
  lazymatch goal with
  | |- context [Config.getfloat ?c ?n ?d ?b ?s] =>
      destruct (getfloat_cases c n d b s) as [(? & -> & H)| ->]
  | |- context [Config.getfloat_none ?c ?n ?b ?s] =>
      destruct (getfloat_none_cases c n b s) as [(? & -> & H)| ->]
  | |- context [Config.getfloatlist3 ?c ?n ?s] =>
      destruct (getfloatlist3_cases c n s) as [(? & ? & ? & -> & H)|[-> H]]
  | |- context [Config.getint ?c ?n ?d ?lo ?hi ?s] =>
      destruct (getint_cases c n d lo hi s) as [(? & -> & H)| ->]
  | |- context [Config.get ?c ?n ?s] =>
      destruct (get_cases c n s) as [(? & -> & H)|[-> H]]
  end.

(** X9: [__init__] issues no toolhead command, writes nothing to the
    console, opens no accelerometer client (the modelled printer is left
    as it was) and raises nothing but a configuration error; a probe it
    returns is fresh and has every
    number within its bounds: [accel_per_hz > 0], [step_size >= 0.005],
    a tolerance that is [None] or positive, a frequency in [50, 200], an
    amplitude threshold above 500, a decision level in [0, 1] and a cycle
    count in [2, 500]. *)
Theorem init_validates cfg pr :
  match ResonanceZProbe.__init__ cfg pr with
  | Ok probe pr' => pr' = pr /\ validated probe /\ fresh probe
  | Raise e pr' => e = ConfigError /\ pr' = pr
  end.
Proof.
  unfold ResonanceZProbe.__init__.
  getter H1; [|now split]. getter H2; [|now split].
  getter H3; [|now split]. getter H4; [|now split].
  getter H5; [|now split]. getter H6; [|now split].
  getter H7; [|now split]. getter H8; [|now split].
  getter H9; [|now split]. getter H10; [|now split].
  cbn [ret]. split; [reflexivity|]. split; [|repeat split].
  unfold validated.
  cbn [ResonanceZProbe.accel_per_hz ResonanceZProbe.step_size
       ResonanceZProbe.tolerance ResonanceZProbe.z_freq
       ResonanceZProbe.amp_threshold ResonanceZProbe.rate_above_threshold
       ResonanceZProbe.cycle_per_test].
  assert (Habove : forall m v,
            Config.within (Config.Bounds None None (Some m)) v = true ->
            m < v).
  { intros m v H. unfold Config.within in H. cbn in H.
    apply Qnot_le_lt. intros Hle. apply Qle_bool_iff in Hle.
    rewrite Hle in H. discriminate H. }
  assert (Hbetween : forall lo hi v,
            Config.within (Config.Bounds (Some lo) (Some hi) None) v = true ->
            lo <= v /\ v <= hi).
  { intros lo hi v H. unfold Config.within in H. cbn in H.
    rewrite andb_true_r in H. apply andb_true_iff in H.
    destruct H as [Ha Hb]. split; now apply Qle_bool_iff. }
  assert (Hmin : forall lo v,
            Config.within (Config.Bounds (Some lo) None None) v = true ->
            lo <= v).
  { intros lo v H. unfold Config.within in H. cbn in H.
    rewrite !andb_true_r in H. now apply Qle_bool_iff. }
  assert (G1 : 0 < x).
  { destruct H1 as [->|H1]; [reflexivity|]. apply Habove in H1. lra. }
  assert (G2 : 0.005 <= x0).
  { destruct H2 as [->|H2]; [discriminate|]. now apply Hmin. }
  assert (G3 : forall t, x1 = Some t -> 0 < t).
  { intros t Ht. apply H3, Habove in Ht. lra. }
  assert (G4 : 50 <= x2 /\ x2 <= 200).
  { destruct H4 as [->|H4]; [split; discriminate|].
    apply Hbetween in H4. lra. }
  assert (G5 : 500 < x3).
  { destruct H5 as [->|H5]; [reflexivity|]. apply Habove in H5. lra. }
  assert (G6 : 0 <= x4 /\ x4 <= 1).
  { destruct H6 as [->|H6]; [split; discriminate|].
    apply Hbetween in H6. lra. }
  assert (G9 : (2 <= x9 <= 500)%Z) by (destruct H9 as [->|H9]; lia).
  tauto.
Qed.

Lemma getfloat_rejects {S} cfg name d b v (s : S) :
  Config.lookup name cfg = Some (Config.VFloat v) ->
  Config.within b v = false ->
  Config.getfloat cfg name d b s = Raise ConfigError s.
Proof.
  intros Hl Hw. unfold Config.getfloat, Config.getfloat_or.
  now rewrite Hl, Hw.
Qed.

(** X10: [__init__] fails with a configuration error, the modelled
    printer left as it was, when [probe_points] is not a list of exactly
    three floats, when [accel_chip] is not given, when [step_size] is
    given below 0.005, when [z_vibration_freq] is given outside
    [50, 200], or when [cycle_per_test] is given outside [2, 500]. *)
Theorem init_rejects cfg pr :
  ((forall x y z,
      Config.lookup "probe_points" cfg <> Some (Config.VFloatList [x; y; z])) ->
   ResonanceZProbe.__init__ cfg pr = Raise ConfigError pr)
  /\ ((forall v, Config.lookup "accel_chip" cfg <> Some (Config.VStr v)) ->
      ResonanceZProbe.__init__ cfg pr = Raise ConfigError pr)
  /\ (forall v,
        Config.lookup "step_size" cfg = Some (Config.VFloat v) ->
        v < 0.005 ->
        ResonanceZProbe.__init__ cfg pr = Raise ConfigError pr)
  /\ (forall v,
        Config.lookup "z_vibration_freq" cfg = Some (Config.VFloat v) ->
        v < 50 \/ 200 < v ->
        ResonanceZProbe.__init__ cfg pr = Raise ConfigError pr)
  /\ (forall n,
        Config.lookup "cycle_per_test" cfg = Some (Config.VInt n) ->
        (n < 2 \/ 500 < n)%Z ->
        ResonanceZProbe.__init__ cfg pr = Raise ConfigError pr).
Proof.
  assert (Hnle : forall a b, a < b -> Qle_bool b a = false).
  { intros a b H. destruct (Qle_bool b a) eqn:E; [|reflexivity].
    apply Qle_bool_iff in E. exfalso. now apply (Qlt_not_le _ _ H). }
  unfold ResonanceZProbe.__init__. repeat split.
  - intros Hp.
    do 7 (let H := fresh "H" in getter H; [|reflexivity]).
    getter H8; [|reflexivity]. now elim (Hp _ _ _ H8).
  - intros Hc.
    do 9 (let H := fresh "H" in getter H; [|reflexivity]).
    getter H10; [|reflexivity]. now elim (Hc _ H10).
  - intros v Hl Hv.
    getter H; [|reflexivity]. unfold bind at 1.
    rewrite (getfloat_rejects _ _ _ _ v _ Hl); [reflexivity|].
    unfold Config.within. cbn.
    rewrite (Hnle v 0.005 Hv). reflexivity.
  - intros v Hl Hv.
    do 3 (let H := fresh "H" in getter H; [|reflexivity]). unfold bind at 1.
    rewrite (getfloat_rejects _ _ _ _ v _ Hl); [reflexivity|].
    unfold Config.within. cbn. destruct Hv as [Hv|Hv].
    + rewrite (Hnle v 50.0); [reflexivity | lra].
    + rewrite (Hnle 200.0 v); [now rewrite andb_false_r | lra].
  - intros n Hl Hn.
    do 8 (let H := fresh "H" in getter H; [|reflexivity]). unfold bind at 1.
    unfold Config.getint. rewrite Hl.
    destruct ((2 <=? n)%Z && (n <=? 500)%Z) eqn:E; [lia | reflexivity].
Qed.

Lemma init_rejects_witness :
  let cfg : Config.t :=
    [("probe_points"%string, Config.VFloatList [100; 100; 1.01]);
     ("accel_chip"%string, Config.VStr "adxl345");
     ("cycle_per_test"%string, Config.VInt 1)] in
  Config.lookup "cycle_per_test" cfg = Some (Config.VInt 1) /\
  (1 < 2 \/ 500 < 1)%Z /\
  ResonanceZProbe.__init__ cfg (printer_with still_feed)
  = Raise ConfigError (printer_with still_feed).
Proof.
  intros cfg.
  assert (H1 : Config.lookup "cycle_per_test" cfg = Some (Config.VInt 1))
    by reflexivity.
  assert (H2 : (1 < 2 \/ 500 < 1)%Z) by (left; lia).
  split; [exact H1 | split; [exact H2|]].
  exact (proj2 (proj2 (proj2 (proj2
           (init_rejects cfg (printer_with still_feed))))) 1%Z H1 H2).
Defined.

End ConfigFacts.

(** ** The debug export *)

Module ExportFacts.

Import Scenario Notions SignalFacts.

Lemma rate_above_threshold_ok thr d pr :
  Forall has_samples d ->
  TapResonanceData._rate_above_threshold thr d pr
  = Ok (map current_z d, map (exported_rate thr) d) pr.
Proof.
  induction 1 as [|tp d Hne Hd IH];
    cbn [TapResonanceData._rate_above_threshold map]; [reflexivity|].
  unfold bind at 1. unfold truediv.
  destruct (Z.of_nat (List.length (time tp)) =? 0)%Z eqn:E.
  - exfalso. apply Hne.
    apply Z.eqb_eq in E. destruct (time tp); [reflexivity | discriminate E].
  - cbn [ret]. unfold bind at 1. rewrite IH. reflexivity.
Qed.

Lemma rate_above_threshold_raises thr d pr :
  Exists no_samples d ->
  TapResonanceData._rate_above_threshold thr d pr
  = Raise ZeroDivisionError pr.
Proof.
  induction 1 as [tp d He|tp d He IH];
    cbn [TapResonanceData._rate_above_threshold]; unfold bind at 1, truediv.
  - destruct He as [He _]. rewrite He. reflexivity.
  - destruct (Z.of_nat (List.length (time tp)) =? 0)%Z; [reflexivity|].
    cbn [ret]. unfold bind at 1. now rewrite IH.
Qed.

(** X11: the export's [_rate_above_threshold] divides without a guard: it
    returns the heights and rates of all records, in order, when every
    record has a time stamp, and raises [ZeroDivisionError], the printer
    as it was, when one record has no sample at all, which is the record
    [_test] makes from an empty recording; for a record made by [_test]
    from a recording with samples the rate it computes at the same
    threshold is the rate [_test] returned. *)
Theorem export_rates_or_division_error thr d pr :
  (Forall has_samples d ->
   TapResonanceData._rate_above_threshold thr d pr
   = Ok (map current_z d, map (exported_rate thr) d) pr)
  /\ (Exists no_samples d ->
      TapResonanceData._rate_above_threshold thr d pr
      = Raise ZeroDivisionError pr)
  /\ (forall samples z,
        samples <> [] ->
        exported_rate thr (test_point samples z) = rate_above thr samples)
  /\ (forall z, no_samples (test_point [] z)).
Proof.
  split; [apply rate_above_threshold_ok|].
  split; [apply rate_above_threshold_raises|].
  split; [|intros z; split; reflexivity].
  intros samples z Hne. unfold exported_rate, rate_above, test_point.
  cbn [accel_z time]. rewrite length_map.
  destruct samples as [|s samples]; [now elim Hne|]. reflexivity.
Qed.

Lemma export_rates_or_division_error_witness :
  let d := [test_point (tapping_feed 0%nat) 1.01; test_point [] 1.0] in
  Exists no_samples d /\
  TapResonanceData._rate_above_threshold 700.0 d (printer_with still_feed)
  = Raise ZeroDivisionError (printer_with still_feed).
Proof.
  intros d.
  assert (H : Exists no_samples d).
  { apply Exists_cons_tl. apply Exists_cons_hd. split; reflexivity. }
  split; [exact H|].
  exact (proj1 (proj2 (export_rates_or_division_error 700.0 d
                         (printer_with still_feed))) H).
Defined.

Lemma export_debug_unfold pr p :
  ResonanceZProbe.debug p = true ->
  ResonanceZProbe.export_debug (pr, p)
  = match TapResonanceData._rate_above_threshold
            (ResonanceZProbe.amp_threshold p) (ResonanceZProbe.data_points p)
            (Printer.emit
               (Printer.EvRespondInfo
                  (Printer.Msg fmt_writing_data
                     [Printer.AStr "/tmp"; Printer.AStr "tap_summary_%s.csv";
                      Printer.AFloat (Printer.now pr)])) pr)
    with
    | Ok _ pr' =>
        Ok tt
          (Printer.emit
             (Printer.EvRespondInfo
                (Printer.Msg fmt_writing_plots
                   [Printer.AStr "/tmp"; Printer.AStr "tap_summary_%s.pdf";
                    Printer.AFloat (Printer.now pr)])) pr', p)
    | Raise e pr' => Raise e (pr', p)
    end.
Proof.
  intros Hd. unfold ResonanceZProbe.export_debug.
  unfold bind at 1. cbn [ResonanceZProbe.self snd]. rewrite Hd.
  unfold bind at 1.
  cbn [ResonanceZProbe.printer zoom TapResonanceData.__init__ fst snd].
  unfold bind at 1.
  cbn [ResonanceZProbe.printer zoom TapResonanceData.write_data
       Printer.respond_info modify fst snd TapResonanceData.out_path
       TapResonanceData.ts].
  unfold ResonanceZProbe.printer, zoom, TapResonanceData.plot.
  cbn [fst snd TapResonanceData.data]. unfold bind at 1.
  destruct (TapResonanceData._rate_above_threshold _ _ _); reflexivity.
Qed.

(** X12: with [debug] set, the export after the loop writes the data
    line and then the plots line when every record has a time stamp;
    when a record has no sample at all it raises [ZeroDivisionError]
    after the data line and the plots line is never written.  The probe
    is left as it was. *)
Theorem export_debug_outcome pr p :
  ResonanceZProbe.debug p = true ->
  let data_line :=
    Printer.Msg fmt_writing_data
      [Printer.AStr "/tmp"; Printer.AStr "tap_summary_%s.csv";
       Printer.AFloat (Printer.now pr)] in
  let plots_line :=
    Printer.Msg fmt_writing_plots
      [Printer.AStr "/tmp"; Printer.AStr "tap_summary_%s.pdf";
       Printer.AFloat (Printer.now pr)] in
  (Forall has_samples (ResonanceZProbe.data_points p) ->
   ResonanceZProbe.export_debug (pr, p)
   = Ok tt (Printer.emit (Printer.EvRespondInfo plots_line)
              (Printer.emit (Printer.EvRespondInfo data_line) pr), p))
  /\ (Exists no_samples (ResonanceZProbe.data_points p) ->
      ResonanceZProbe.export_debug (pr, p)
      = Raise ZeroDivisionError
          (Printer.emit (Printer.EvRespondInfo data_line) pr, p)).
Proof.
  intros Hd data_line plots_line.
  rewrite (export_debug_unfold pr p Hd). split; intros H.
  - now rewrite (rate_above_threshold_ok _ _ _ H).
  - now rewrite (rate_above_threshold_raises _ _ _ H).
Qed.

Lemma export_debug_outcome_witness :
  let p := ResonanceZProbe.set_data_points [test_point [] 1.0] example_probe in
  let pr := printer_with empty_feed in
  ResonanceZProbe.debug p = true /\
  Exists no_samples (ResonanceZProbe.data_points p) /\
  ResonanceZProbe.export_debug (pr, p)
  = Raise ZeroDivisionError
      (Printer.emit
         (Printer.EvRespondInfo
            (Printer.Msg fmt_writing_data
               [Printer.AStr "/tmp"; Printer.AStr "tap_summary_%s.csv";
                Printer.AFloat (Printer.now pr)])) pr, p).
Proof.
  intros p pr.
  assert (H1 : ResonanceZProbe.debug p = true) by reflexivity.
  assert (H2 : Exists no_samples (ResonanceZProbe.data_points p)).
  { apply Exists_cons_hd. split; reflexivity. }
  split; [exact H1 | split; [exact H2|]].
  exact (proj2 (export_debug_outcome pr p H1) H2).
Defined.

End ExportFacts.

(** ** The probing loop, round by round *)

Module LoopFacts.

Import Scenario Notions Behaviour TestFacts SignalFacts VibrationFacts.

(** One round of the loop body on a running probe: the test, the report
    of its outcome to the helper and the query for the next position. *)
Lemma probe_body_step z tr pr p oh :
  running (pr, p) oh ->
  exists pr',
    Printer.clients pr' = S (Printer.clients pr)
    /\ Printer.accel_feed pr' = Printer.accel_feed pr
    /\ ResonanceZProbe.probe_body z tr (pr, p)
       = match OffsetHelper.next_position
                 (OffsetHelper.last_tested_position z (detected (pr, p)) oh)
         with
         | Ok next oh' =>
             Ok (next,
                 tr ++ [(snd (ResonanceZProbe.probe_points p),
                         rate_above (ResonanceZProbe.amp_threshold p)
                           (Printer.accel_feed pr (Printer.clients pr)))])
                (pr', ResonanceZProbe.set_offset_helper (Some oh')
                        (tested z (pr, p)))
         | Raise e oh' =>
             Raise e (pr', ResonanceZProbe.set_offset_helper (Some oh')
                             (tested z (pr, p)))
         end.
Proof.
  intros ([chip Hc] & Hr & Ho). cbn [snd] in Hc, Hr, Ho.
  destruct (test_outcome z pr p chip Hc Hr) as (pr' & E & Hcl & Hfeed & _).
  exists pr'. split; [exact Hcl|]. split; [exact Hfeed|].
  unfold ResonanceZProbe.probe_body.
  unfold bind at 1. cbn [ResonanceZProbe.self snd].
  unfold bind at 1. rewrite E.
  unfold detected, tested. cbn [fst snd].
  set (rate := rate_above _ _).
  set (p1 := if ResonanceZProbe.debug p then _ else p).
  assert (Ho1 : ResonanceZProbe.offset_helper p1 = Some oh).
  { unfold p1. now destruct (ResonanceZProbe.debug p). }
  unfold bind at 1. unfold ResonanceZProbe.offsets at 1. cbn [fst snd].
  rewrite Ho1. cbv zeta.
  unfold bind at 1. unfold ResonanceZProbe.offsets. cbn [fst snd].
  cbn [ResonanceZProbe.set_offset_helper ResonanceZProbe.offset_helper].
  destruct (OffsetHelper.next_position _) as [next oh'|e oh'];
    cbn [ret]; destruct p1; reflexivity.
Qed.

Lemma tested_settings z s :
  same_settings (snd s) (tested z s)
  /\ ResonanceZProbe.vibration_helper (tested z s)
     = ResonanceZProbe.vibration_helper (snd s)
  /\ ResonanceZProbe.offset_helper (tested z s)
     = ResonanceZProbe.offset_helper (snd s).
Proof.
  unfold tested, same_settings.
  destruct (ResonanceZProbe.debug (snd s)) eqn:E; cbn; rewrite ?E; tauto.
Qed.

(** One round of the loop on a running probe whose helper is unfinished,
    at a height that passes the loop test. *)
Lemma loop_round z tr pr p oh :
  running (pr, p) oh -> OffsetHelper.finished oh = false ->
  Qle_bool (ResonanceZProbe.safe_min_z p) z = true ->
  exists pr',
    Printer.clients pr' = S (Printer.clients pr)
    /\ Printer.accel_feed pr' = Printer.accel_feed pr
    /\ match OffsetHelper.next_position
                (OffsetHelper.last_tested_position z (detected (pr, p)) oh)
       with
       | Ok (Some z') oh' =>
           exists tr' p',
             (forall fuel,
                ResonanceZProbe.probe_loop (S fuel) z tr (pr, p)
                = ResonanceZProbe.probe_loop fuel z' tr' (pr', p'))
             /\ running (pr', p') oh'
             /\ same_settings p p'
             /\ ResonanceZProbe.data_points p'
                = ResonanceZProbe.data_points (tested z (pr, p))
       | Ok None oh' =>
           forall fuel,
             ResonanceZProbe.probe_loop (S fuel) z tr (pr, p)
             = Some (Raise TypeError
                       (pr', ResonanceZProbe.set_offset_helper (Some oh')
                               (tested z (pr, p))))
       | Raise e oh' =>
           forall fuel,
             ResonanceZProbe.probe_loop (S fuel) z tr (pr, p)
             = Some (Raise e
                       (pr', ResonanceZProbe.set_offset_helper (Some oh')
                               (tested z (pr, p))))
       end.
Proof.
  intros Hrun Hf Hz.
  destruct (probe_body_step z tr pr p oh Hrun) as (pr' & Hcl & Hfeed & E).
  exists pr'. split; [exact Hcl|]. split; [exact Hfeed|].
  destruct Hrun as ([chip Hc] & Hr & Ho). cbn [snd] in Hc, Hr, Ho.
  assert (Hstep : forall fuel,
            ResonanceZProbe.probe_loop (S fuel) z tr (pr, p)
            = match ResonanceZProbe.probe_body z tr (pr, p) with
              | Raise e s => Some (Raise e s)
              | Ok (Some z', tr') s =>
                  match ResonanceZProbe.set_cur_z z' s with
                  | Ok _ s => ResonanceZProbe.probe_loop fuel z' tr' s
                  | Raise e s => Some (Raise e s)
                  end
              | Ok (None, _) s => Some (Raise TypeError s)
              end).
  { intros fuel. cbn [ResonanceZProbe.probe_loop snd]. rewrite Hz.
    unfold ResonanceZProbe.is_finished, ResonanceZProbe.offsets.
    cbn [fst snd]. rewrite Ho, Hf.
    now rewrite (RunFacts.set_offset_helper_same p oh Ho). }
  rewrite E in Hstep.
  destruct (tested_settings z (pr, p)) as (Hs & Hv & Hoh). cbn [snd] in *.
  destruct (OffsetHelper.next_position _) as [[z'|] oh'|e oh'];
    [|exact Hstep|exact Hstep].
  unfold ResonanceZProbe.set_cur_z, ResonanceZProbe.helper, zoom,
    ZVibrationHelper.assign, modify in Hstep. cbn [fst snd] in Hstep.
  eexists. eexists. split; [exact Hstep|].
  unfold running, same_settings in *. cbn.
  destruct Hs as (H1 & H2 & H3 & H4 & H5 & H6).
  rewrite H1, H2, H3, H4, H5, H6, Hv, Hc.
  repeat split; try reflexivity.
  - now exists chip.
  - revert Hr. unfold ZVibrationHelper.ready.
    destruct (ResonanceZProbe.vibration_helper p)
      as [f a vd mv cx cy cz ce ms dx dy dz]; cbn.
    destruct mv, cx, cy, cz; auto; discriminate.
Qed.

(** The loop returns at once when the height is below the limit or the
    helper is finished. *)
Lemma loop_exit fuel z tr pr p oh :
  running (pr, p) oh ->
  Qle_bool (ResonanceZProbe.safe_min_z p) z = false
  \/ OffsetHelper.finished oh = true ->
  ResonanceZProbe.probe_loop (S fuel) z tr (pr, p) = Some (Ok tt (pr, p)).
Proof.
  intros (_ & _ & Ho) H. cbn [snd] in Ho.
  cbn [ResonanceZProbe.probe_loop snd].
  destruct (Qle_bool (ResonanceZProbe.safe_min_z p) z); [|reflexivity].
  destruct H as [H|H]; [discriminate H|].
  unfold ResonanceZProbe.is_finished, ResonanceZProbe.offsets.
  cbn [fst snd]. rewrite Ho, H.
  now rewrite (RunFacts.set_offset_helper_same p oh Ho).
Qed.

End LoopFacts.

(** ** The set-up of a run *)

Module SetupFacts.

Import Scenario Notions Behaviour TestFacts SignalFacts VibrationFacts
  OffsetHelperFacts OffsetHelperSequences LoopFacts.

(** The set-up of a run: it raises only for a zero frequency, and
    otherwise leaves a running probe with a new helper, the toolhead at
    the probe point and the vibration centred there. *)
Lemma setup_outcome pr p :
  match ResonanceZProbe.probe_setup (pr, p) with
  | Ok z (pr', p') =>
      z = snd (ResonanceZProbe.probe_points p)
      /\ frequency_is_zero (ResonanceZProbe.vibration_helper p) = false
      /\ ResonanceZProbe.offset_helper p'
         = Some (OffsetHelper.__init__
                   (snd (ResonanceZProbe.probe_points p))
                   (ResonanceZProbe.step_size p)
                   (ResonanceZProbe.tolerance p))
      /\ ZVibrationHelper.ready (ResonanceZProbe.vibration_helper p') = true
      /\ ZVibrationHelper.cur_z (ResonanceZProbe.vibration_helper p')
         = Some (snd (ResonanceZProbe.probe_points p))
      /\ snd (fst (Printer.position pr'))
         = snd (ResonanceZProbe.probe_points p)
      /\ same_settings p p'
      /\ ResonanceZProbe.data_points p' = ResonanceZProbe.data_points p
      /\ Printer.console (Printer.log pr') = Printer.console (Printer.log pr)
      /\ Printer.count_moves (Printer.log pr')
         = Printer.count_moves (Printer.log pr)
      /\ Printer.clients pr' = Printer.clients pr
      /\ Printer.accel_feed pr' = Printer.accel_feed pr
  | Raise e (pr', p') =>
      e = ZeroDivisionError
      /\ frequency_is_zero (ResonanceZProbe.vibration_helper p) = true
      /\ ResonanceZProbe.offset_helper p'
         = Some (OffsetHelper.__init__
                   (snd (ResonanceZProbe.probe_points p))
                   (ResonanceZProbe.step_size p)
                   (ResonanceZProbe.tolerance p))
      /\ ResonanceZProbe.data_points p' = ResonanceZProbe.data_points p
  end.
Proof.
  unfold ResonanceZProbe.probe_setup.
  unfold bind, ResonanceZProbe.self, ResonanceZProbe.assign,
    ResonanceZProbe.printer, ResonanceZProbe.helper, zoom, ret,
    Printer.manual_move, Printer.wait_moves, Printer.dwell, modify.
  cbn [fst snd].
  destruct (ResonanceZProbe.probe_points p) as [[x y] z] eqn:Epp.
  destruct (Printer.position pr) as [[[x0 y0] z0] e0] eqn:Epos.
  cbn [fst snd ResonanceZProbe.vibration_helper
       ResonanceZProbe.set_offset_helper].
  set (pr3 := Printer.emit _ (Printer.emit _ (Printer.set_position _ _))).
  destruct (set_vibration_variables_spec pr3
              (ResonanceZProbe.vibration_helper p)) as [Hzero Hset].
  destruct (frequency_is_zero (ResonanceZProbe.vibration_helper p)) eqn:Ef.
  - rewrite (Hzero eq_refl). cbn. repeat split.
  - destruct (Hset eq_refl) as (h' & E & Hr & _ & _ & Hcur & _).
    rewrite E. cbn [fst snd].
    split; [reflexivity|]. split; [reflexivity|].
    cbn [ResonanceZProbe.set_vibration_helper ResonanceZProbe.offset_helper
         ResonanceZProbe.vibration_helper ResonanceZProbe.data_points].
    split; [reflexivity|]. split; [exact Hr|].
    unfold pr3 in Hcur.
    cbn [Printer.emit Printer.set_position Printer.position] in Hcur.
    split; [now inversion Hcur|].
    split; [reflexivity|].
    split; [unfold same_settings; cbn; tauto|].
    split; [reflexivity|].
    unfold pr3.
    cbn [Printer.emit Printer.set_position Printer.log Printer.clients
         Printer.accel_feed].
    rewrite !console_app, !count_moves_app. cbn.
    rewrite !app_nil_r, !Nat.add_0_r. repeat split.
Qed.

End SetupFacts.

(** ** What a run may announce and record *)

Module SafetyFacts.

Import Scenario Notions Behaviour TestFacts SignalFacts VibrationFacts
  OffsetHelperFacts OffsetHelperSequences LoopFacts SetupFacts.

Lemma safe_offset_step m oh z d :
  safe_offset m oh -> OffsetHelper.finished oh = false -> m <= z ->
  safe_offset m
    (state_of (OffsetHelper.next_position
                 (OffsetHelper.last_tested_position z d oh))).
Proof.
  intros [Hsafe _] Hf Hz.
  set (s1 := OffsetHelper.last_tested_position z d oh).
  assert (Hc1 : OffsetHelper.current_offset s1 = OffsetHelper.current_offset oh)
    by apply last_tested_position_current_offset.
  assert (Hf1 : OffsetHelper.finished s1 = false)
    by (unfold s1; now rewrite last_tested_position_finished).
  assert (Hl1 : OffsetHelper.last_tested_pos s1 = (z, d))
    by apply last_tested_position_pos.
  destruct (next_position_state s1) as [->|(pos & Hl & [->| ->])].
  - split; [intros h; rewrite Hc1; apply Hsafe | congruence].
  - rewrite Hl1 in Hl. inversion Hl; subst pos. split; cbn.
    + intros h [= <-]. exact Hz.
    + congruence.
  - rewrite Hl1 in Hl. inversion Hl; subst pos. split; cbn.
    + intros h [= <-]. exact Hz.
    + intros _. now exists z.
Qed.

(** The loop keeps the helper's offset at or above the safe minimum and
    records tests at such heights only. *)
Lemma loop_safe fuel : forall z tr pr p oh o,
  running (pr, p) oh -> safe_offset (ResonanceZProbe.safe_min_z p) oh ->
  ResonanceZProbe.probe_loop fuel z tr (pr, p) = Some o ->
  exists oh' new,
    ResonanceZProbe.offset_helper (snd (state_of o)) = Some oh'
    /\ safe_offset (ResonanceZProbe.safe_min_z p) oh'
    /\ ResonanceZProbe.data_points (snd (state_of o))
       = ResonanceZProbe.data_points p ++ new
    /\ Forall (fun tp => ResonanceZProbe.safe_min_z p <= current_z tp) new
    /\ same_settings p (snd (state_of o)).
Proof.
  assert (Hsame : forall p, same_settings p p) by (unfold same_settings; tauto).
  induction fuel as [|fuel IH]; intros z tr pr p oh o Hrun Hsafe E;
    [discriminate E|].
  assert (Hstay : o = Ok tt (pr, p) ->
            exists oh' new,
              ResonanceZProbe.offset_helper (snd (state_of o)) = Some oh'
              /\ safe_offset (ResonanceZProbe.safe_min_z p) oh'
              /\ ResonanceZProbe.data_points (snd (state_of o))
                 = ResonanceZProbe.data_points p ++ new
              /\ Forall (fun tp => ResonanceZProbe.safe_min_z p <= current_z tp)
                   new
              /\ same_settings p (snd (state_of o))).
  { intros ->. exists oh, []. cbn [state_of snd]. rewrite app_nil_r.
    destruct Hrun as (_ & _ & Ho). auto. }
  destruct (Qle_bool (ResonanceZProbe.safe_min_z p) z) eqn:Hg.
  2:{ rewrite (loop_exit fuel z tr pr p oh Hrun) in E by now left.
      apply Hstay. now inversion E. }
  destruct (OffsetHelper.finished oh) eqn:Hf.
  { rewrite (loop_exit fuel z tr pr p oh Hrun) in E by now right.
    apply Hstay. now inversion E. }
  apply Qle_bool_iff in Hg.
  pose proof (safe_offset_step _ oh z (detected (pr, p)) Hsafe Hf Hg) as Hstep.
  assert (Hg' : Qle_bool (ResonanceZProbe.safe_min_z p) z = true)
    by now apply Qle_bool_iff.
  destruct (loop_round z tr pr p oh Hrun Hf Hg') as (pr' & _ & _ & Hround).
  destruct (tested_settings z (pr, p)) as (Hset & _ & _). cbn [snd] in Hset.
  assert (Hdata : exists one,
            ResonanceZProbe.data_points (tested z (pr, p))
            = ResonanceZProbe.data_points p ++ one
            /\ Forall (fun tp => ResonanceZProbe.safe_min_z p <= current_z tp)
                 one).
  { unfold tested. cbn [fst snd]. destruct (ResonanceZProbe.debug p).
    - eexists [_]. split; [reflexivity|]. now repeat constructor.
    - exists []. now rewrite app_nil_r. }
  destruct Hdata as (one & Hone & Fone).
  destruct (OffsetHelper.next_position _) as [[z'|] oh'|e oh'];
    cbn [state_of] in Hstep.
  - destruct Hround as (tr' & p' & Eq & Hrun' & Hset' & Hdp).
    rewrite Eq in E.
    assert (Hm : ResonanceZProbe.safe_min_z p' = ResonanceZProbe.safe_min_z p)
      by (destruct Hset' as [H _]; exact H).
    rewrite <- Hm in Hstep.
    destruct (IH z' tr' pr' p' oh' o Hrun' Hstep E)
      as (oh2 & new & Ho2 & Hs2 & Hd2 & Fd2 & Hset2).
    rewrite Hm in Hs2, Fd2.
    exists oh2, (one ++ new). split; [exact Ho2|]. split; [exact Hs2|].
    split; [now rewrite Hd2, Hdp, Hone, app_assoc|].
    split; [apply Forall_app; now split|].
    unfold same_settings in *. intuition congruence.
  - rewrite Hround in E. inversion E. cbn [state_of snd].
    exists oh', one. destruct (tested z (pr, p)); cbn in *.
    repeat split; try assumption; try apply Hstep;
      unfold same_settings in Hset; cbn in Hset; intuition.
  - rewrite Hround in E. inversion E. cbn [state_of snd].
    exists oh', one. destruct (tested z (pr, p)); cbn in *.
    repeat split; try assumption; try apply Hstep;
      unfold same_settings in Hset; cbn in Hset; intuition.
Qed.

Lemma behaves_probe_setup_log s :
  exists l,
    Printer.log (fst (state_of (ResonanceZProbe.probe_setup s)))
    = Printer.log (fst s) ++ l
    /\ Forall quiet_or_progress l.
Proof. apply RunFacts.behaves_probe_setup. Qed.

Lemma behaves_export_debug_log s :
  exists l,
    Printer.log (fst (state_of (ResonanceZProbe.export_debug s)))
    = Printer.log (fst s) ++ l
    /\ Forall quiet_or_progress l.
Proof. apply RunFacts.behaves_export_debug. Qed.

(** The report after the loop, case by case. *)
Lemma report_offset_cases s oh :
  ResonanceZProbe.offset_helper (snd s) = Some oh ->
  ResonanceZProbe.report_offset s
  = if OffsetHelper.finished oh
    then match OffsetHelper.current_offset oh with
         | Some h =>
             Ok tt (Printer.emit
                      (Printer.EvRespondInfo (result_line (snd s) h)) (fst s),
                    snd s)
         | None => Raise TypeError s
         end
    else Ok tt s.
Proof.
  intros Ho. destruct s as [pr p]. cbn [fst snd] in *.
  unfold ResonanceZProbe.report_offset, bind, ResonanceZProbe.self,
    ResonanceZProbe.is_finished, ResonanceZProbe.offsets.
  cbn [fst snd]. rewrite Ho.
  rewrite (RunFacts.set_offset_helper_same p oh Ho).
  destruct (OffsetHelper.finished oh); [|reflexivity].
  cbn [fst snd]. rewrite Ho.
  rewrite (RunFacts.set_offset_helper_same p oh Ho).
  destruct (OffsetHelper.current_offset oh); reflexivity.
Qed.

Lemma keeps_probe_bind {A B} (c : M ResonanceZProbe.state A)
    (k : A -> M ResonanceZProbe.state B) :
  keeps_probe c -> (forall a, keeps_probe (k a)) -> keeps_probe (bind c k).
Proof.
  intros Hc Hk s. unfold bind. specialize (Hc s).
  destruct (c s) as [a s1|e s1]; cbn [state_of] in *; [|exact Hc].
  now rewrite Hk.
Qed.

Lemma keeps_probe_printer {A} (c : M Printer.t A) :
  keeps_probe (ResonanceZProbe.printer c).
Proof.
  intros s. unfold ResonanceZProbe.printer, zoom.
  destruct (c (fst s)); reflexivity.
Qed.

Lemma keeps_probe_export_debug : keeps_probe ResonanceZProbe.export_debug.
Proof.
  unfold ResonanceZProbe.export_debug.
  apply keeps_probe_bind; [intros s; reflexivity | intros p].
  destruct (ResonanceZProbe.debug p); [|intros s; reflexivity].
  repeat (apply keeps_probe_bind; [apply keeps_probe_printer | intros ?]).
  apply keeps_probe_printer.
Qed.

Lemma result_only_from l msg :
  Forall quiet_or_progress l -> In msg (Printer.console l) ->
  is_result msg = true -> False.
Proof.
  intros F Hin Hres.
  destruct (RunFacts.progress_only_console l F) as [H _].
  assert (Hex : existsb is_result (Printer.console l) = true)
    by (apply existsb_exists; now exists msg).
  congruence.
Qed.

(** X14: a run of a connected probe never announces or holds an offset
    below [safe_min_z]: when [babystep_probe] comes back, in whatever
    way, every record it has added to [data_points] is of a test at or
    above [safe_min_z], the helper holds no offset below it and holds one
    when it is finished, and every result line the run has written
    announces that very offset. *)
Theorem run_is_safe fuel pr p chip o :
  ResonanceZProbe.accel_chips p = Some chip ->
  ResonanceZProbe.babystep_probe fuel (pr, p) = Some o ->
  exists oh new l,
    ResonanceZProbe.offset_helper (snd (state_of o)) = Some oh
    /\ ResonanceZProbe.data_points (snd (state_of o))
       = ResonanceZProbe.data_points p ++ new
    /\ Forall (fun tp => ResonanceZProbe.safe_min_z p <= current_z tp) new
    /\ safe_offset (ResonanceZProbe.safe_min_z p) oh
    /\ Printer.log (fst (state_of o)) = Printer.log pr ++ l
    /\ (forall msg,
          In msg (Printer.console l) -> is_result msg = true ->
          exists h,
            msg = result_line p h
            /\ OffsetHelper.current_offset oh = Some h
            /\ ResonanceZProbe.safe_min_z p <= h).
Proof.
  intros Hc E. unfold ResonanceZProbe.babystep_probe in E.
  pose proof (setup_outcome pr p) as Hsetup.
  destruct (behaves_probe_setup_log (pr, p)) as (l1 & E1 & F1).
  destruct (ResonanceZProbe.probe_setup (pr, p)) as [z [pr1 p1]|e [pr1 p1]];
    cbn [state_of fst] in E1.
  2:{ destruct Hsetup as (_ & _ & Ho & Hd).
      inversion E. cbn [state_of fst snd].
      eexists. exists [], l1. rewrite app_nil_r.
      split; [exact Ho|]. split; [exact Hd|]. split; [constructor|].
      split; [split; cbn; [discriminate | discriminate]|].
      split; [exact E1|].
      intros msg Hin Hres. now elim (result_only_from l1 msg F1 Hin Hres). }
  destruct Hsetup as (_ & _ & Ho & Hr & _ & _ & Hset & Hd & _).
  assert (Hm : ResonanceZProbe.safe_min_z p1 = ResonanceZProbe.safe_min_z p)
    by (destruct Hset as [H _]; exact H).
  assert (Hpp : ResonanceZProbe.probe_points p1 = ResonanceZProbe.probe_points p)
    by (destruct Hset as (_ & _ & _ & _ & _ & H); exact H).
  assert (Hrun : running (pr1, p1)
                   (OffsetHelper.__init__
                      (snd (ResonanceZProbe.probe_points p))
                      (ResonanceZProbe.step_size p)
                      (ResonanceZProbe.tolerance p))).
  { split; [|split; assumption]. exists chip. cbn [snd].
    destruct Hset as (_ & _ & _ & _ & -> & _). exact Hc. }
  destruct (ResonanceZProbe.probe_loop fuel z [] (pr1, p1)) as [o1|] eqn:El;
    [|discriminate E].
  destruct (loop_safe fuel z [] pr1 p1 _ o1 Hrun) as
    (oh2 & new & Ho2 & Hs2 & Hd2 & Fd2 & Hset2); [|exact El|].
  { split; cbn; [discriminate | discriminate]. }
  destruct (RunFacts.probe_loop_log fuel z [] (pr1, p1) o1 El)
    as (l2 & E2 & F2).
  unfold probe_log in E2. cbn [fst] in E2.
  rewrite Hm in Hs2, Fd2. rewrite Hd in Hd2.
  assert (F12 : Forall quiet_or_progress (l1 ++ l2))
    by (apply Forall_app; now split).
  destruct o1 as [[] s2|e s2]; cbn [state_of] in *.
  2:{ inversion E. cbn [state_of].
      exists oh2, new, (l1 ++ l2).
      split; [exact Ho2|]. split; [exact Hd2|]. split; [exact Fd2|].
      split; [exact Hs2|]. split; [now rewrite E2, E1, app_assoc|].
      intros msg Hin Hres. now elim (result_only_from _ msg F12 Hin Hres). }
  inversion E as [Eo]. clear E. subst o.
  unfold ResonanceZProbe.probe_report, bind.
  rewrite (report_offset_cases s2 oh2 Ho2).
  assert (Hpp2 : ResonanceZProbe.probe_points (snd s2)
                 = ResonanceZProbe.probe_points p).
  { destruct Hset2 as (_ & _ & _ & _ & _ & H). now rewrite H. }
  destruct (OffsetHelper.finished oh2) eqn:Hf2.
  - destruct Hs2 as [Hlow Hhas]. destruct (Hhas Hf2) as [h Hh].
    rewrite Hh.
    set (s3 := (Printer.emit _ (fst s2), snd s2)).
    destruct (behaves_export_debug_log s3) as (l3 & E3 & F3).
    exists oh2, new,
      ((l1 ++ l2) ++ [Printer.EvRespondInfo (result_line (snd s2) h)] ++ l3).
    rewrite keeps_probe_export_debug. unfold s3 at 1 2. cbn [snd].
    split; [exact Ho2|]. split; [exact Hd2|]. split; [exact Fd2|].
    split; [split; [exact Hlow | now exists h]|].
    split.
    { rewrite E3. unfold s3. cbn [fst Printer.emit Printer.log].
      rewrite E2, E1. now rewrite <- !app_assoc. }
    intros msg Hin Hres. rewrite !console_app in Hin.
    apply in_app_or in Hin. destruct Hin as [Hin|Hin].
    { rewrite <- console_app in Hin.
      now elim (result_only_from _ msg F12 Hin Hres). }
    apply in_app_or in Hin. destruct Hin as [Hin|Hin].
    + cbn in Hin. destruct Hin as [<-|[]]. exists h.
      unfold result_line. rewrite Hpp2.
      split; [reflexivity|]. split; [exact Hh | now apply Hlow].
    + now elim (result_only_from _ msg F3 Hin Hres).
  - destruct (behaves_export_debug_log s2) as (l3 & E3 & F3).
    exists oh2, new, ((l1 ++ l2) ++ l3).
    rewrite keeps_probe_export_debug.
    split; [exact Ho2|]. split; [exact Hd2|]. split; [exact Fd2|].
    split; [exact Hs2|].
    split; [rewrite E3, E2, E1; now rewrite <- !app_assoc|].
    intros msg Hin Hres.
    assert (F : Forall quiet_or_progress ((l1 ++ l2) ++ l3))
      by (apply Forall_app; now split).
    now elim (result_only_from _ msg F Hin Hres).
Qed.

End SafetyFacts.

(** ** The run as a protocol on the helper *)

Module ProtocolFacts.

Import Scenario Notions Behaviour TestFacts SignalFacts VibrationFacts
  OffsetHelperFacts OffsetHelperSequences LoopFacts SetupFacts
  SafetyFacts.

Lemma tapping_run :
  ResonanceZProbe.babystep_probe 3 (printer_with tapping_feed, tolerant_probe)
  = Some tapping_run_end.
Proof. vm_compute. reflexivity. Qed.

(** The export computes on the records only: the printer is as before. *)
Lemma rate_above_threshold_state thr d pr :
  state_of (TapResonanceData._rate_above_threshold thr d pr) = pr.
Proof.
  induction d as [|tp d IH]; cbn [TapResonanceData._rate_above_threshold];
    [reflexivity|].
  unfold bind at 1, truediv.
  destruct (Z.of_nat (List.length (time tp)) =? 0)%Z; [reflexivity|].
  cbn [ret]. unfold bind at 1.
  destruct (TapResonanceData._rate_above_threshold thr d pr);
    cbn [state_of ret] in *; exact IH.
Qed.

Lemma export_debug_clients s :
  Printer.clients (fst (state_of (ResonanceZProbe.export_debug s)))
  = Printer.clients (fst s).
Proof.
  destruct s as [pr p]. destruct (ResonanceZProbe.debug p) eqn:Hd.
  - rewrite (ExportFacts.export_debug_unfold pr p Hd).
    match goal with
    | |- context [TapResonanceData._rate_above_threshold ?t ?d ?q] =>
        pose proof (rate_above_threshold_state t d q) as Hs;
        destruct (TapResonanceData._rate_above_threshold t d q)
    end; cbn [state_of] in Hs; subst; reflexivity.
  - unfold ResonanceZProbe.export_debug, bind, ResonanceZProbe.self.
    cbn [snd]. rewrite Hd. reflexivity.
Qed.

(** The report after the loop leaves the probe object and the
    accelerometer clients as they are. *)
Lemma probe_report_frame s oh :
  ResonanceZProbe.offset_helper (snd s) = Some oh ->
  snd (state_of (ResonanceZProbe.probe_report s)) = snd s
  /\ Printer.clients (fst (state_of (ResonanceZProbe.probe_report s)))
     = Printer.clients (fst s).
Proof.
  intros Ho. unfold ResonanceZProbe.probe_report, bind.
  rewrite (report_offset_cases s oh Ho).
  destruct (OffsetHelper.finished oh);
    [destruct (OffsetHelper.current_offset oh)|];
    try (split; reflexivity);
    rewrite keeps_probe_export_debug, export_debug_clients;
    split; reflexivity.
Qed.

(** The set-up opens no accelerometer client, whether it raises or
    not. *)
Lemma setup_clients pr p :
  Printer.clients (fst (state_of (ResonanceZProbe.probe_setup (pr, p))))
  = Printer.clients pr.
Proof.
  pose proof (setup_outcome pr p) as H.
  unfold ResonanceZProbe.probe_setup in *.
  unfold bind, ResonanceZProbe.self, ResonanceZProbe.assign,
    ResonanceZProbe.printer, ResonanceZProbe.helper, zoom, ret,
    Printer.manual_move, Printer.wait_moves, Printer.dwell, modify in *.
  cbn [fst snd] in *.
  destruct (ResonanceZProbe.probe_points p) as [[x y] z].
  destruct (Printer.position pr) as [[[x0 y0] z0] e0].
  cbn [fst snd ResonanceZProbe.vibration_helper
       ResonanceZProbe.set_offset_helper] in *.
  match goal with
  | |- context [ZVibrationHelper._set_vibration_variables (?q, ?h)] =>
      destruct (set_vibration_variables_spec q h) as [Hzero Hset];
      destruct (frequency_is_zero h) eqn:Ef;
      [rewrite (Hzero eq_refl)
      |destruct (Hset eq_refl) as (h' & E & _); rewrite E]
  end; reflexivity.
Qed.

(** The loop serves the helper one report and one query per test, at
    the heights the helper asked for, with the decisions read off the
    accelerometer feed in order; it opens one client per test and, with
    [debug] set, stores one record per test. *)
Lemma loop_follows fuel : forall z tr pr p oh o,
  running (pr, p) oh ->
  ResonanceZProbe.probe_loop fuel z tr (pr, p) = Some o ->
  exists outcomes,
    ResonanceZProbe.offset_helper (snd (state_of o))
    = Some (OffsetHelper.run (protocol outcomes) oh)
    /\ asked_for z oh outcomes
    /\ map snd outcomes
       = map (fun i => decision p
                         (Printer.accel_feed pr (Printer.clients pr + i)))
             (seq 0 (List.length outcomes))
    /\ Forall (fun x => ResonanceZProbe.safe_min_z p <= fst x) outcomes
    /\ Printer.clients (fst (state_of o))
       = (Printer.clients pr + List.length outcomes)%nat
    /\ ResonanceZProbe.data_points (snd (state_of o))
       = ResonanceZProbe.data_points p
         ++ (if ResonanceZProbe.debug p
             then records (Printer.accel_feed pr) (Printer.clients pr) outcomes
             else []).
Proof.
  induction fuel as [|fuel IH]; intros z tr pr p oh o Hrun E;
    [discriminate E|].
  assert (Hstay : o = Ok tt (pr, p) ->
            exists outcomes,
              ResonanceZProbe.offset_helper (snd (state_of o))
              = Some (OffsetHelper.run (protocol outcomes) oh)
              /\ asked_for z oh outcomes
              /\ map snd outcomes
                 = map (fun i => decision p
                                   (Printer.accel_feed pr (Printer.clients pr + i)))
                       (seq 0 (List.length outcomes))
              /\ Forall (fun x => ResonanceZProbe.safe_min_z p <= fst x) outcomes
              /\ Printer.clients (fst (state_of o))
                 = (Printer.clients pr + List.length outcomes)%nat
              /\ ResonanceZProbe.data_points (snd (state_of o))
                 = ResonanceZProbe.data_points p
                   ++ (if ResonanceZProbe.debug p
                       then records (Printer.accel_feed pr) (Printer.clients pr)
                              outcomes
                       else [])).
  { intros ->. exists []. destruct Hrun as (_ & _ & Ho).
    cbn [state_of fst snd List.length records]. rewrite Nat.add_0_r.
    split; [exact Ho|]. split; [exact I|]. split; [reflexivity|].
    split; [constructor|]. split; [reflexivity|].
    destruct (ResonanceZProbe.debug p); now rewrite app_nil_r. }
  destruct (Qle_bool (ResonanceZProbe.safe_min_z p) z) eqn:Hg.
  2:{ rewrite (loop_exit fuel z tr pr p oh Hrun) in E by now left.
      apply Hstay. now inversion E. }
  destruct (OffsetHelper.finished oh) eqn:Hf.
  { rewrite (loop_exit fuel z tr pr p oh Hrun) in E by now right.
    apply Hstay. now inversion E. }
  destruct (loop_round z tr pr p oh Hrun Hf Hg) as (pr' & Hcl & Hfeed & Hround).
  assert (Hone : map snd [(z, detected (pr, p))]
                 = map (fun i => decision p
                                   (Printer.accel_feed pr (Printer.clients pr + i)))
                       (seq 0 1)).
  { cbn. now rewrite Nat.add_0_r. }
  assert (Hrec : ResonanceZProbe.data_points (tested z (pr, p))
                 = ResonanceZProbe.data_points p
                   ++ (if ResonanceZProbe.debug p
                       then records (Printer.accel_feed pr) (Printer.clients pr)
                              [(z, detected (pr, p))]
                       else [])).
  { unfold tested. cbn [fst snd records].
    destruct (ResonanceZProbe.debug p); [reflexivity | now rewrite app_nil_r]. }
  apply Qle_bool_iff in Hg.
  destruct (OffsetHelper.next_position _) as [[z'|] oh'|e oh'] eqn:En.
  - destruct Hround as (tr' & p' & Eq & Hrun' & Hset' & Hdp).
    rewrite Eq in E.
    destruct (IH z' tr' pr' p' oh' o Hrun' E)
      as (rest & Ho & Ha & Hd & Fh & Hc2 & Hd2).
    exists ((z, detected (pr, p)) :: rest).
    cbn [protocol flat_map app fst snd OffsetHelper.run OffsetHelper.exec
         state_of asked_for]. fold (protocol rest). rewrite En.
    cbn [state_of].
    destruct Hset' as (Hm & Hthr & Hamp & Hdbg & _).
    split; [exact Ho|]. split; [split; [reflexivity | exact Ha]|].
    split; [|split; [|split]].
    + cbn [map List.length seq]. rewrite Nat.add_0_r. f_equal.
      rewrite Hd, <- seq_shift, map_map.
      apply map_ext. intros i. rewrite Hcl, Hfeed.
      unfold decision. rewrite Hthr, Hamp.
      now rewrite Nat.add_succ_r.
    + constructor; [exact Hg|]. now rewrite Hm in Fh.
    + rewrite Hc2, Hcl. cbn [List.length]. lia.
    + rewrite Hd2, Hdp, Hrec, Hdbg, Hcl, Hfeed.
      destruct (ResonanceZProbe.debug p); cbn [records fst];
        now rewrite <- app_assoc.
  - rewrite Hround in E. inversion E. cbn [state_of fst snd].
    exists [(z, detected (pr, p))].
    cbn [protocol flat_map app fst snd OffsetHelper.run OffsetHelper.exec
         state_of asked_for List.length]. rewrite En. cbn [state_of].
    split; [now destruct (tested z (pr, p))|].
    split; [split; reflexivity|].
    split; [exact Hone|]. split; [now repeat constructor|].
    split; [rewrite Hcl; lia|].
    rewrite <- Hrec. now destruct (tested z (pr, p)).
  - rewrite Hround in E. inversion E. cbn [state_of fst snd].
    exists [(z, detected (pr, p))].
    cbn [protocol flat_map app fst snd OffsetHelper.run OffsetHelper.exec
         state_of asked_for List.length]. rewrite En. cbn [state_of].
    split; [now destruct (tested z (pr, p))|].
    split; [split; reflexivity|].
    split; [exact Hone|]. split; [now repeat constructor|].
    split; [rewrite Hcl; lia|].
    rewrite <- Hrec. now destruct (tested z (pr, p)).
Qed.

(** Heights asked for by the same helper from the same start, with the
    same decisions, are the same heights. *)
Lemma asked_for_unique outcomes1 : forall z oh outcomes2,
  asked_for z oh outcomes1 -> asked_for z oh outcomes2 ->
  map snd outcomes1 = map snd outcomes2 ->
  outcomes1 = outcomes2.
Proof.
  induction outcomes1 as [|[h1 d1] l1 IH]; intros z oh [|[h2 d2] l2] H1 H2 Hd;
    try discriminate Hd; [reflexivity|].
  cbn [asked_for fst snd map] in *.
  destruct H1 as [-> H1], H2 as [-> H2]. injection Hd as -> Hd.
  f_equal.
  destruct (OffsetHelper.next_position _) as [[z'|] oh'|e oh'].
  - now apply (IH z' oh').
  - now subst.
  - now subst.
Qed.

(** X15: a run of a connected probe uses its helper by one fixed
    protocol.  There is one list of outcomes, one per test the run has
    made (as many as accelerometer clients were opened), such that: the
    first is at the probe point and each later one at the height the
    helper answered to the query before it; every one is at or above
    [safe_min_z]; the i-th is the comparison of the rate of the i-th
    recording with the decision level; the helper the run leaves behind
    is the first helper after one report and one query per outcome, in
    order; and with [debug] set the records the run has added are those
    of these tests, in order, each with its height and recording.  No
    other list of that length fits: the heights and decisions are fixed
    by the helper and the recordings. *)
Theorem run_follows_protocol fuel pr p chip o :
  ResonanceZProbe.accel_chips p = Some chip ->
  ResonanceZProbe.babystep_probe fuel (pr, p) = Some o ->
  exists outcomes,
    ResonanceZProbe.offset_helper (snd (state_of o))
    = Some (OffsetHelper.run (protocol outcomes) (first_helper p))
    /\ asked_for (snd (ResonanceZProbe.probe_points p)) (first_helper p)
         outcomes
    /\ map snd outcomes
       = map (fun i => decision p
                         (Printer.accel_feed pr (Printer.clients pr + i)))
             (seq 0 (List.length outcomes))
    /\ Forall (fun x => ResonanceZProbe.safe_min_z p <= fst x) outcomes
    /\ Printer.clients (fst (state_of o))
       = (Printer.clients pr + List.length outcomes)%nat
    /\ ResonanceZProbe.data_points (snd (state_of o))
       = ResonanceZProbe.data_points p
         ++ (if ResonanceZProbe.debug p
             then records (Printer.accel_feed pr) (Printer.clients pr) outcomes
             else [])
    /\ (forall others,
          asked_for (snd (ResonanceZProbe.probe_points p)) (first_helper p)
            others ->
          map snd others
          = map (fun i => decision p
                            (Printer.accel_feed pr (Printer.clients pr + i)))
                (seq 0 (List.length others)) ->
          List.length others = List.length outcomes ->
          others = outcomes).
Proof.
  intros Hc E.
  cut (exists outcomes,
    ResonanceZProbe.offset_helper (snd (state_of o))
    = Some (OffsetHelper.run (protocol outcomes) (first_helper p))
    /\ asked_for (snd (ResonanceZProbe.probe_points p)) (first_helper p)
         outcomes
    /\ map snd outcomes
       = map (fun i => decision p
                         (Printer.accel_feed pr (Printer.clients pr + i)))
             (seq 0 (List.length outcomes))
    /\ Forall (fun x => ResonanceZProbe.safe_min_z p <= fst x) outcomes
    /\ Printer.clients (fst (state_of o))
       = (Printer.clients pr + List.length outcomes)%nat
    /\ ResonanceZProbe.data_points (snd (state_of o))
       = ResonanceZProbe.data_points p
         ++ (if ResonanceZProbe.debug p
             then records (Printer.accel_feed pr) (Printer.clients pr) outcomes
             else [])).
  { intros (outcomes & H1 & H2 & H3 & H4 & H5 & H6). exists outcomes.
    split; [exact H1|]. split; [exact H2|]. split; [exact H3|].
    split; [exact H4|]. split; [exact H5|]. split; [exact H6|].
    intros others Ha Hd Hlen.
    apply (asked_for_unique others _ _ outcomes Ha H2).
    now rewrite Hd, H3, Hlen. }
  unfold ResonanceZProbe.babystep_probe in E.
  pose proof (setup_outcome pr p) as Hsetup.
  pose proof (setup_clients pr p) as Hsc.
  destruct (ResonanceZProbe.probe_setup (pr, p)) as [z [pr1 p1]|e [pr1 p1]];
    cbn [state_of fst] in Hsc.
  2:{ destruct Hsetup as (_ & _ & Ho & Hd). inversion E.
      cbn [state_of fst snd].
      exists []. cbn [protocol flat_map OffsetHelper.run asked_for map seq
                      List.length records].
      rewrite Nat.add_0_r.
      split; [exact Ho|]. split; [exact I|]. split; [reflexivity|].
      split; [constructor|]. split; [exact Hsc|].
      rewrite Hd. destruct (ResonanceZProbe.debug p); now rewrite app_nil_r. }
  destruct Hsetup
    as (Hz & _ & Ho & Hr & _ & _ & Hset & Hdp & _ & _ & Hcl & Hfeed).
  subst z.
  assert (Hrun : running (pr1, p1) (first_helper p)).
  { split; [|split; assumption]. exists chip. cbn [snd].
    destruct Hset as (_ & _ & _ & _ & -> & _). exact Hc. }
  destruct (ResonanceZProbe.probe_loop fuel _ [] (pr1, p1)) as [o1|] eqn:El;
    [|discriminate E].
  destruct (loop_follows fuel _ [] pr1 p1 _ o1 Hrun El)
    as (outcomes & Ho1 & Ha & Hd & Fh & Hc1 & Hd1).
  exists outcomes.
  assert (Hfinal : snd (state_of o) = snd (state_of o1)
                   /\ Printer.clients (fst (state_of o))
                      = Printer.clients (fst (state_of o1))).
  { destruct o1 as [[] s2|e s2]; inversion E; [|split; reflexivity].
    cbn [state_of] in *. now apply (probe_report_frame s2 _ Ho1). }
  destruct Hfinal as [-> ->].
  destruct Hset as (Hm & Hthr & Hamp & Hdbg & _).
  split; [exact Ho1|]. split; [exact Ha|].
  split; [|split; [|split]].
  - rewrite Hd. apply map_ext. intros i. rewrite Hcl, Hfeed.
    unfold decision. now rewrite Hthr, Hamp.
  - now rewrite Hm in Fh.
  - now rewrite Hc1, Hcl.
  - now rewrite Hd1, Hdp, Hdbg, Hcl, Hfeed.
Qed.

Lemma run_follows_protocol_witness :
  let p := tolerant_probe in
  let pr := printer_with tapping_feed in
  ResonanceZProbe.accel_chips p = Some ("z"%string, "adxl345"%string) /\
  ResonanceZProbe.babystep_probe 3 (pr, p) = Some tapping_run_end /\
  exists outcomes,
    ResonanceZProbe.offset_helper (snd (state_of tapping_run_end))
    = Some (OffsetHelper.run (protocol outcomes) (first_helper p))
    /\ asked_for (snd (ResonanceZProbe.probe_points p)) (first_helper p)
         outcomes
    /\ map snd outcomes
       = map (fun i => decision p
                         (Printer.accel_feed pr (Printer.clients pr + i)))
             (seq 0 (List.length outcomes))
    /\ Forall (fun x => ResonanceZProbe.safe_min_z p <= fst x) outcomes
    /\ Printer.clients (fst (state_of tapping_run_end))
       = (Printer.clients pr + List.length outcomes)%nat
    /\ ResonanceZProbe.data_points (snd (state_of tapping_run_end))
       = ResonanceZProbe.data_points p
         ++ (if ResonanceZProbe.debug p
             then records (Printer.accel_feed pr) (Printer.clients pr) outcomes
             else [])
    /\ (forall others,
          asked_for (snd (ResonanceZProbe.probe_points p)) (first_helper p)
            others ->
          map snd others
          = map (fun i => decision p
                            (Printer.accel_feed pr (Printer.clients pr + i)))
                (seq 0 (List.length others)) ->
          List.length others = List.length outcomes ->
          others = outcomes).
Proof.
  intros p pr.
  assert (H1 : ResonanceZProbe.accel_chips p
               = Some ("z"%string, "adxl345"%string)) by reflexivity.
  assert (H2 : ResonanceZProbe.babystep_probe 3 (pr, p) = Some tapping_run_end)
    by (vm_compute; reflexivity).
  split; [exact H1 | split; [exact H2|]].
  exact (run_follows_protocol 3 pr p _ tapping_run_end H1 H2).
Defined.

Lemma run_is_safe_witness :
  let p := tolerant_probe in
  let pr := printer_with tapping_feed in
  ResonanceZProbe.accel_chips p = Some ("z"%string, "adxl345"%string) /\
  ResonanceZProbe.babystep_probe 3 (pr, p) = Some tapping_run_end /\
  exists oh new l,
    ResonanceZProbe.offset_helper (snd (state_of tapping_run_end)) = Some oh
    /\ ResonanceZProbe.data_points (snd (state_of tapping_run_end))
       = ResonanceZProbe.data_points p ++ new
    /\ Forall (fun tp => ResonanceZProbe.safe_min_z p <= current_z tp) new
    /\ safe_offset (ResonanceZProbe.safe_min_z p) oh
    /\ Printer.log (fst (state_of tapping_run_end)) = Printer.log pr ++ l
    /\ (forall msg,
          In msg (Printer.console l) -> is_result msg = true ->
          exists h,
            msg = result_line p h
            /\ OffsetHelper.current_offset oh = Some h
            /\ ResonanceZProbe.safe_min_z p <= h).
Proof.
  intros p pr.
  assert (H1 : ResonanceZProbe.accel_chips p
               = Some ("z"%string, "adxl345"%string)) by reflexivity.
  assert (H2 : ResonanceZProbe.babystep_probe 3 (pr, p) = Some tapping_run_end)
    by (vm_compute; reflexivity).
  split; [exact H1 | split; [exact H2|]].
  exact (SafetyFacts.run_is_safe 3 pr p _ tapping_run_end H1 H2).
Defined.

(** The tapping run in full: one test at 1.01, a detection, the step
    halved to 0.005, and the offset 1.01 announced. *)
Example tapping_run_announces :
  exists s' oh,
    tapping_run_end = Ok tt s'
    /\ ResonanceZProbe.offset_helper (snd s') = Some oh
    /\ OffsetHelper.finished oh = true
    /\ OffsetHelper.current_offset oh = Some 1.01
    /\ OffsetHelper.step oh == 0.005
    /\ List.length (ResonanceZProbe.data_points (snd s')) = 1%nat
    /\ In (result_line tolerant_probe 1.01)
         (Printer.console (Printer.log (fst s'))).
Proof.
  eexists. eexists. split; [reflexivity|].
  split; [reflexivity|]. split; [reflexivity|]. split; [reflexivity|].
  split; [reflexivity|]. split; [reflexivity|].
  cbn. right. left. reflexivity.
Qed.

(** X16: on a probe as [__init__] builds it (numbers within their
    bounds, helper built from its own frequency) the set-up of a run
    cannot fail: it returns the z of the probe point, leaves the toolhead
    and the vibration centre at that height with the vibration variables
    assigned, builds the helper from the probe point, the step and the
    tolerance, makes no vibration move and writes nothing to the
    console. *)
Theorem configured_setup_succeeds pr p :
  validated p -> fresh p ->
  exists pr' p',
    ResonanceZProbe.probe_setup (pr, p)
    = Ok (snd (ResonanceZProbe.probe_points p)) (pr', p')
    /\ ResonanceZProbe.offset_helper p' = Some (first_helper p)
    /\ ZVibrationHelper.ready (ResonanceZProbe.vibration_helper p') = true
    /\ ZVibrationHelper.cur_z (ResonanceZProbe.vibration_helper p')
       = Some (snd (ResonanceZProbe.probe_points p))
    /\ snd (fst (Printer.position pr')) = snd (ResonanceZProbe.probe_points p)
    /\ ResonanceZProbe.data_points p' = ResonanceZProbe.data_points p
    /\ Printer.console (Printer.log pr') = Printer.console (Printer.log pr)
    /\ Printer.count_moves (Printer.log pr')
       = Printer.count_moves (Printer.log pr).
Proof.
  intros Hv Hfresh.
  assert (Hfreq : frequency_is_zero (ResonanceZProbe.vibration_helper p) = false).
  { destruct Hfresh as (_ & _ & _ & _ & ->).
    unfold frequency_is_zero. cbn [ZVibrationHelper.frequency
                                   ZVibrationHelper.__init__].
    destruct Hv as (_ & _ & _ & Hlo & _).
    destruct (Qeq_bool (ResonanceZProbe.z_freq p) 0) eqn:E; [|reflexivity].
    apply Qeq_bool_iff in E. lra. }
  pose proof (setup_outcome pr p) as Hsetup.
  destruct (ResonanceZProbe.probe_setup (pr, p)) as [z [pr' p']|e [pr' p']].
  - destruct Hsetup as (-> & _ & Ho & Hr & Hcz & Hpos & _ & Hd & Hcons & Hmoves & _).
    exists pr', p'. split; [reflexivity|]. repeat split; assumption.
  - destruct Hsetup as (_ & Hzero & _). congruence.
Qed.

Lemma configured_setup_succeeds_witness :
  validated example_probe /\ fresh example_probe /\
  exists pr' p',
    ResonanceZProbe.probe_setup (printer_with still_feed, example_probe)
    = Ok 1.01 (pr', p')
    /\ ResonanceZProbe.offset_helper p' = Some (first_helper example_probe).
Proof.
  assert (H1 : validated example_probe).
  { unfold validated. cbn.
    repeat split; try discriminate; try reflexivity; try lia. }
  assert (H2 : fresh example_probe) by (repeat split).
  split; [exact H1 | split; [exact H2|]].
  destruct (configured_setup_succeeds (printer_with still_feed) example_probe
              H1 H2) as (pr' & p' & E & Ho & _).
  exists pr', p'. split; [exact E | exact Ho].
Defined.

End ProtocolFacts.
